(** * create-bmd: a shallow embedding of [bin/index.js]

    The command-line scaffolder is embedded function by function.  Pure
    string helpers ([toCamelCase], [sanitizeFolderName], the placeholder
    substitution of [processTemplate]) are total functions on strings.  The
    code that touches the file system, the terminal and the operator is
    written in a small state-and-exception monad over a [world].

    A string is held as the bytes of its UTF-8 form and read as a sequence
    of characters.  Whitespace is the class of the language, inside and
    outside ASCII.  The case conversions are the mappings of the ASCII
    letters on a string of ASCII characters; on a string with a character
    outside ASCII they are the conversions of the runtime, which are not
    one character to one and are taken from the host.  A sequence of bytes
    that is not UTF-8 is no string of the program.

    What Node supplies is kept apart from the program.  The normalisation
    done by [path.join], [JSON.parse], [JSON.stringify], [error.stack] and
    the case conversions outside ASCII are fields of a [host] and the
    statements hold for every host.  The file
    system is a finite map from paths to directories and files, together
    with the paths at which the system refuses to create or write.  The
    operator is a script of key events that the prompts consume.  A
    configuration that parses is an object with string values, which is the
    only shape [saveConfig] writes. *)

From Stdlib Require Import Ascii String List Bool Arith Lia.
From stdpp Require Import gmap strings list fin_maps.

(** ** Characters *)

Module Char.

Definition code (c : ascii) : nat := nat_of_ascii c.

Definition between (lo hi : nat) (c : ascii) : bool :=
  Nat.leb lo (code c) && Nat.leb (code c) hi.

Definition isAscii (c : ascii) : bool := Nat.ltb (code c) 128.

(** The ASCII characters of the class [\s]: TAB, LF, VT, FF, CR and
    SPACE.  The whole class is [Utf8.isWhiteSpace]. *)
Definition isWhiteSpace (c : ascii) : bool :=
  between 9 13 c || Nat.eqb (code c) 32.

Definition isDigit (c : ascii) : bool := between 48 57 c.
Definition isUpper (c : ascii) : bool := between 65 90 c.
Definition isLower (c : ascii) : bool := between 97 122 c.

(** The class [\w]: letters, digits and the underscore. *)
Definition isWord (c : ascii) : bool :=
  isUpper c || isLower c || isDigit c || Ascii.eqb c "_"%char.

(** The class [[\w-]], whose complement [sanitizeFolderName] deletes. *)
Definition isWordOrHyphen (c : ascii) : bool :=
  isWord c || Ascii.eqb c "-"%char.

(** The ASCII characters of the class [[\s-_]] of [toCamelCase]. *)
Definition isSeparator (c : ascii) : bool :=
  isWhiteSpace c || Ascii.eqb c "-"%char || Ascii.eqb c "_"%char.

(** The case mappings of the ASCII letters. *)
Definition toLowerCase (c : ascii) : ascii :=
  if isUpper c then ascii_of_nat (code c + 32) else c.

Definition toUpperCase (c : ascii) : ascii :=
  if isLower c then ascii_of_nat (code c - 32) else c.

End Char.

(** ** Characters outside ASCII

    A string of the program is a sequence of characters.  It is held here
    as the bytes of its UTF-8 form, the form in which the program reads and
    writes it: a character is a byte that is not a continuation byte,
    followed by its continuation bytes. *)

Module Utf8.

Definition isContinuation (c : ascii) : bool := Char.between 128 191 c.

Definition startsWithContinuation (s : string) : bool :=
  match s with
  | EmptyString => false
  | String c _ => isContinuation c
  end.

(** The characters of a string, in order. *)
Fixpoint chars (s : string) : list string :=
  match s with
  | EmptyString => []
  | String c s' =>
      if startsWithContinuation s' then
        match chars s' with
        | ch :: rest => String c ch :: rest
        | [] => [String c EmptyString]
        end
      else String c EmptyString :: chars s'
  end.

(** A character above U+FFFF: four bytes here, and two code units, a
    surrogate pair, in a string of the program. *)
Definition isAstral (ch : string) : bool :=
  match ch with
  | EmptyString => false
  | String c _ => Nat.leb 240 (Char.code c)
  end.

Definition bytes (codes : list nat) : string :=
  fold_right (fun n s => String (ascii_of_nat n) s) EmptyString codes.

(** WhiteSpace and LineTerminator of the language, which make the class
    [\s] and are what [trim] strips: U+0009 to U+000D, U+0020, U+00A0,
    U+1680, U+2000 to U+200A, U+2028, U+2029, U+202F, U+205F, U+3000 and
    U+FEFF. *)
Definition whiteSpace : list string :=
  List.map bytes
    ([ [9]; [10]; [11]; [12]; [13]; [32]; [194; 160]; [225; 154; 128] ]
       ++ List.map (fun n => [226; 128; n]) (seq 128 11)
       ++ [ [226; 128; 168]; [226; 128; 169]; [226; 128; 175]; [226; 129; 159];
            [227; 128; 128]; [239; 187; 191] ]).

Definition isWhiteSpace (ch : string) : bool :=
  existsb (String.eqb ch) whiteSpace.

(** The class [[\s-_]] of [toCamelCase]: outside unicode mode a class
    escape cannot bound a range, so the class is the union of [\s], the
    hyphen and the underscore. *)
Definition isSeparator (ch : string) : bool :=
  isWhiteSpace ch || String.eqb ch "-" || String.eqb ch "_".

End Utf8.

(** ** Strings *)

Module Str.

Fixpoint filter (p : ascii -> bool) (s : string) : string :=
  match s with
  | EmptyString => EmptyString
  | String c s' => if p c then String c (filter p s') else filter p s'
  end.

Fixpoint map (f : ascii -> ascii) (s : string) : string :=
  match s with
  | EmptyString => EmptyString
  | String c s' => String (f c) (map f s')
  end.

Fixpoint all (p : ascii -> bool) (s : string) : bool :=
  match s with
  | EmptyString => true
  | String c s' => p c && all p s'
  end.

Definition isEmpty (s : string) : bool :=
  match s with EmptyString => true | String _ _ => false end.

Fixpoint concat (l : list string) : string :=
  match l with
  | [] => EmptyString
  | s :: l' => s +:+ concat l'
  end.

Definition isAscii (s : string) : bool := all Char.isAscii s.

Definition null {A} (l : list A) : bool :=
  match l with [] => true | _ :: _ => false end.

Fixpoint trimStartChars (l : list string) : list string :=
  match l with
  | [] => []
  | ch :: l' => if Utf8.isWhiteSpace ch then trimStartChars l' else l
  end.

Fixpoint trimEndChars (l : list string) : list string :=
  match l with
  | [] => []
  | ch :: l' =>
      let r := trimEndChars l' in
      if null r && Utf8.isWhiteSpace ch then [] else ch :: r
  end.

(** [s.trim()] *)
Definition trim (s : string) : string :=
  concat (trimEndChars (trimStartChars (Utf8.chars s))).

Definition startsWithClass {A} (p : A -> bool) (l : list A) : bool :=
  match l with
  | [] => false
  | x :: _ => p x
  end.

(** The pieces between the maximal runs of characters of a class.  A run
    at the very start or the very end leaves an empty first or last piece,
    and the empty sequence splits into one empty piece. *)
Fixpoint splitRuns {A} (p : A -> bool) (l : list A) : list (list A) :=
  match l with
  | [] => [[]]
  | x :: l' =>
      if p x then
        if startsWithClass p l' then splitRuns p l'
        else [] :: splitRuns p l'
      else
        match splitRuns p l' with
        | w :: ws => (x :: w) :: ws
        | [] => [[x]]
        end
  end.

(** [s.split(/[cls]+/)] for a class [cls] of characters. *)
Definition split (p : string -> bool) (s : string) : list string :=
  List.map concat (splitRuns p (Utf8.chars s)).

(** [s.replace(/[cls]+/g, "")] and [s.replace(/[cls]/g, "")] for a class
    of ASCII characters: deleting every run of the class deletes every
    character of the class. *)
Definition deleteClass (p : ascii -> bool) (s : string) : string :=
  filter (fun c => negb (p c)) s.

End Str.

(** ** The folder slug *)

Fixpoint mapIndexed {A B} (f : nat -> A -> B) (i : nat) (l : list A) : list B :=
  match l with
  | [] => []
  | x :: l' => f i x :: mapIndexed f (S i) l'
  end.

(** [name.replace(/\s+/g, "").replace(/[^\w-]/g, "")].  The class [\w] is
    ASCII, so the second pass deletes every byte of a character outside
    ASCII, whitespace or not: for the first pass the ASCII part of [\s]
    is enough. *)
Definition sanitizeFolderName (name : string) : string :=
  Str.deleteClass (fun c => negb (Char.isWordOrHyphen c))
    (Str.deleteClass Char.isWhiteSpace name).

(** ** Placeholder substitution

    [content.replace(regex, value)] with a global regular expression and a
    replacement given as a string.  The pattern [//placeholder//] is compiled
    by [new RegExp]; every placeholder the generators pass ([name], [author],
    [description], [category], [donation]) is free of pattern syntax, so the
    compiled expression matches the marker text itself and has no capture
    group.  Placeholders that use pattern syntax are outside this model. *)

Module Replace.

Fixpoint drop (n : nat) (s : string) : string :=
  match n, s with
  | S n', String _ s' => drop n' s'
  | _, _ => s
  end.

(** The replacement text of one match, as the runtime expands it: [$$] is
    a dollar sign, [$&] the matched text, [$`] the text before the match
    and [$'] the text after it.  With no capture group every other use of
    the dollar sign stands for itself. *)
Fixpoint GetSubstitution (matched before after replacement : string) : string :=
  match replacement with
  | EmptyString => EmptyString
  | String c r =>
      if Ascii.eqb c "$"%char then
        match r with
        | EmptyString => String c EmptyString
        | String d r' =>
            if Ascii.eqb d "$"%char then
              String "$"%char (GetSubstitution matched before after r')
            else if Ascii.eqb d "`"%char then
              before +:+ GetSubstitution matched before after r'
            else if Ascii.eqb d "&"%char then
              matched +:+ GetSubstitution matched before after r'
            else if Ascii.eqb d "'"%char then
              after +:+ GetSubstitution matched before after r'
            else String c (GetSubstitution matched before after r)
        end
      else String c (GetSubstitution matched before after r)
  end.

(** One left-to-right scan.  [before] is the part of the subject already
    passed and [skip] counts the characters of the current match that are
    still to be stepped over, so matches do not overlap.  [pat] is a
    marker and hence not empty. *)
Fixpoint replaceGo (pat repl : string) (skip : nat) (before s : string) : string :=
  match s with
  | EmptyString => EmptyString
  | String c s' =>
      let before' := before +:+ String c EmptyString in
      match skip with
      | S k => replaceGo pat repl k before' s'
      | O =>
          if String.prefix pat s then
            GetSubstitution pat before (drop (String.length pat) s) repl
              +:+ replaceGo pat repl (String.length pat - 1) before' s'
          else String c (replaceGo pat repl 0 before' s')
      end
  end.

Definition replaceAll (pat repl s : string) : string :=
  replaceGo pat repl 0 EmptyString s.

(** What substituting the text [v] itself for every occurrence of [pat]
    gives: the reading of the specification, used for comparison. *)
Fixpoint literalGo (pat v : string) (skip : nat) (s : string) : string :=
  match s with
  | EmptyString => EmptyString
  | String c s' =>
      match skip with
      | S k => literalGo pat v k s'
      | O =>
          if String.prefix pat s then
            v +:+ literalGo pat v (String.length pat - 1) s'
          else String c (literalGo pat v 0 s')
      end
  end.

Definition literalReplaceAll (pat v s : string) : string :=
  literalGo pat v 0 s.

End Replace.

(** [`//${placeholder}//`] *)
Definition marker (placeholder : string) : string :=
  "//" +:+ placeholder +:+ "//".

(** [value || ""] for a value that is a string or undefined. *)
Definition orEmpty (value : option string) : string :=
  match value with
  | Some v => v
  | None => EmptyString
  end.

(** The loop of [processTemplate] over [Object.entries(replacements)]. *)
Definition applyReplacements (content : string)
    (replacements : list (string * option string)) : string :=
  fold_left
    (fun content entry =>
       Replace.replaceAll (marker (fst entry)) (orEmpty (snd entry)) content)
    replacements content.

(** The same loop with the text of each value substituted as it stands. *)
Definition applyLiteral (content : string)
    (replacements : list (string * option string)) : string :=
  fold_left
    (fun content entry =>
       Replace.literalReplaceAll (marker (fst entry)) (orEmpty (snd entry)) content)
    replacements content.

(** ** Objects

    Plain objects with string values: the configuration, the answers of a
    prompt and the mod information.  Entries are kept in property order. *)

Definition obj : Type := list (string * string).

(** [o.k]; [None] is [undefined]. *)
Fixpoint field (o : obj) (k : string) : option string :=
  match o with
  | [] => None
  | (k', v) :: o' => if String.eqb k k' then Some v else field o' k
  end.

(** [o.k = v]: an existing property keeps its place, a new one goes last. *)
Fixpoint setField (k v : string) (o : obj) : obj :=
  match o with
  | [] => [(k, v)]
  | (k', v') :: o' =>
      if String.eqb k k' then (k, v) :: o' else (k', v') :: setField k v o'
  end.

(** [{ ...a, ...b }] *)
Definition spread (a b : obj) : obj :=
  fold_left (fun acc entry => setField (fst entry) (snd entry) acc) b a.

(** A value inside a template literal. *)
Definition show (v : option string) : string :=
  match v with
  | Some s => s
  | None => "undefined"
  end.

(** [o.k = v] where [v] may be undefined.  An undefined property is read
    back as undefined and is left out when the object is serialised, so it
    is modelled as absent. *)
Definition assign (k : string) (v : option string) (o : obj) : obj :=
  match v with
  | Some s => setField k s o
  | None => List.filter (fun entry => negb (String.eqb k (fst entry))) o
  end.

(** [v || d] *)
Definition orElse (v : option string) (d : string) : string :=
  match v with
  | Some s => if Str.isEmpty s then d else s
  | None => d
  end.

(** ** The world the program runs in *)

Inductive node : Type :=
  | Dir
  | File (content : string).

(** The calls of [mkdirSync] and [writeFileSync] that returned normally,
    as the run makes them. *)
Inductive fsop : Type :=
  | Mkdir (path : string)
  | WriteFile (path content : string).

(** [console.log], [console.warn] and [console.error]; colours are left
    out of the text. *)
Inductive stream : Type := Log | Warn | Err.

(** What the operator does at a prompt: enter a line, pick an entry of a
    list, or interrupt.  When the script runs out the operator has left,
    which the prompt library reports like an interrupt. *)
Inductive key : Type :=
  | Line (text : string)
  | Select (index : nat)
  | Interrupt.

Record world : Type := World {
  disk : gmap string node;
  (** paths at which the system refuses to create or write, with the
      message of the error it raises (no permission, no parent directory,
      read-only volume) *)
  refused : gmap string string;
  keys : list key;
  console : list (stream * string);
  fslog : list fsop;
}.

Definition setDisk (d : gmap string node) (w : world) : world :=
  World d (refused w) (keys w) (console w) (fslog w).
Definition setKeys (ks : list key) (w : world) : world :=
  World (disk w) (refused w) ks (console w) (fslog w).
Definition addConsole (s : stream) (text : string) (w : world) : world :=
  World (disk w) (refused w) (keys w) (console w ++ [(s, text)]) (fslog w).
Definition addFslog (op : fsop) (w : world) : world :=
  World (disk w) (refused w) (keys w) (console w) (fslog w ++ [op]).

(** ** Exceptions and the monad *)

Record exn : Type := Exn { name : string; message : string }.

Definition Error (message : string) : exn := Exn "Error" message.
Definition TypeError (message : string) : exn := Exn "TypeError" message.
Definition SyntaxError (message : string) : exn := Exn "SyntaxError" message.
Definition ExitPromptError : exn :=
  Exn "ExitPromptError" "User force closed the prompt".

Inductive result (A : Type) : Type :=
  | Ok (a : A)
  | Throw (error : exn).
Arguments Ok {A} a.
Arguments Throw {A} error.

Definition M (A : Type) : Type := world -> result A * world.

Definition ret {A} (a : A) : M A := fun w => (Ok a, w).
Definition throw {A} (error : exn) : M A := fun w => (Throw error, w).

Definition bind {A B} (m : M A) (k : A -> M B) : M B :=
  fun w =>
    match m w with
    | (Ok a, w') => k a w'
    | (Throw error, w') => (Throw error, w')
    end.

(** [try { m } catch (error) { handler }] *)
Definition tryCatch {A} (m : M A) (handler : exn -> M A) : M A :=
  fun w =>
    match m w with
    | (Ok a, w') => (Ok a, w')
    | (Throw error, w') => handler error w'
    end.

Notation "'let*' x ':=' m 'in' k" := (bind m (fun x => k))
  (at level 10, x name, m at level 100, k at level 200).
Notation "m ';;' k" := (bind m (fun _ => k))
  (at level 100, k at level 200, right associativity).

(** A read of [v.method] or [v.property] where [v] may be undefined. *)
Definition need (property : string) (v : option string) : M string :=
  match v with
  | Some s => ret s
  | None =>
      throw (TypeError ("Cannot read properties of undefined (reading '"
                          +:+ property +:+ "')"))
  end.

(** *** Console *)

Definition console_log (text : string) : M unit :=
  fun w => (Ok tt, addConsole Log text w).
Definition console_warn (text : string) : M unit :=
  fun w => (Ok tt, addConsole Warn text w).
Definition console_error (text : string) : M unit :=
  fun w => (Ok tt, addConsole Err text w).

(** *** File system *)

Definition existsSync (path : string) : M bool :=
  fun w => (Ok (bool_decide (is_Some (disk w !! path))), w).

Definition readFileSync (path : string) : M string :=
  fun w =>
    match disk w !! path with
    | Some (File content) => (Ok content, w)
    | Some Dir =>
        (Throw (Error "EISDIR: illegal operation on a directory, read"), w)
    | None =>
        (Throw (Error ("ENOENT: no such file or directory, open '"
                         +:+ path +:+ "'")), w)
    end.

Definition writeFileSync (path content : string) : M unit :=
  fun w =>
    match refused w !! path with
    | Some why => (Throw (Error why), w)
    | None =>
        match disk w !! path with
        | Some Dir =>
            (Throw (Error ("EISDIR: illegal operation on a directory, open '"
                             +:+ path +:+ "'")), w)
        | _ =>
            (Ok tt, addFslog (WriteFile path content)
                      (setDisk (<[path := File content]> (disk w)) w))
        end
    end.

(** [fs.mkdirSync(path, { recursive: true })]: an existing directory is
    not an error, whatever the system lets the process create. *)
Definition mkdirSync (path : string) : M unit :=
  fun w =>
    match disk w !! path with
    | Some Dir => (Ok tt, addFslog (Mkdir path) w)
    | Some (File _) =>
        (Throw (Error ("EEXIST: file already exists, mkdir '"
                         +:+ path +:+ "'")), w)
    | None =>
        match refused w !! path with
        | Some why => (Throw (Error why), w)
        | None =>
            (Ok tt, addFslog (Mkdir path)
                      (setDisk (<[path := Dir]> (disk w)) w))
        end
    end.

(** *** Prompts *)

Inductive verdict : Type :=
  | Accept
  | Reject (why : string).

Inductive qtype : Type :=
  | Input
  | ListOf (choices : list string).

Record question : Type := Question {
  q_name : string;
  q_type : qtype;
  q_message : string;
  q_default : option string;
  q_validate : string -> verdict;
}.

(** One question: an empty line takes the default, a rejected answer asks
    again, and an event that does not fit the kind of question is ignored. *)
Fixpoint ask (q : question) (ks : list key) : result string * list key :=
  match ks with
  | [] => (Throw ExitPromptError, [])
  | Interrupt :: ks' => (Throw ExitPromptError, ks')
  | Line text :: ks' =>
      match q_type q with
      | Input =>
          let answer := if Str.isEmpty text then orEmpty (q_default q) else text in
          match q_validate q answer with
          | Accept => (Ok answer, ks')
          | Reject _ => ask q ks'
          end
      | ListOf _ => ask q ks'
      end
  | Select index :: ks' =>
      match q_type q with
      | ListOf choices =>
          match nth_error choices index with
          | Some choice => (Ok choice, ks')
          | None => ask q ks'
          end
      | Input => ask q ks'
      end
  end.

Definition askM (q : question) : M string :=
  fun w => let (r, ks) := ask q (keys w) in (r, setKeys ks w).

Fixpoint promptFrom (answers : obj) (questions : list question) : M obj :=
  match questions with
  | [] => ret answers
  | q :: rest =>
      let* answer := askM q in
      promptFrom (setField (q_name q) answer answers) rest
  end.

(** [inquirer.prompt(questions)] *)
Definition inquirer_prompt (questions : list question) : M obj :=
  promptFrom [] questions.

(** The validator shared by the required fields. *)
Definition required (why : string) (input : string) : verdict :=
  if Str.isEmpty input || Nat.eqb (String.length (Str.trim input)) 0
  then Reject why else Accept.

Definition noValidate (input : string) : verdict := Accept.

(** ** The host: what Node and the operating system supply *)

Inductive platform : Type := Win32 | Darwin | OtherPlatform (label : string).

Record host : Type := Host {
  os_platform : platform;
  env_APPDATA : option string;
  env_NODE_ENV : option string;
  os_homedir : string;
  (** [__dirname], the directory of [index.js] *)
  module_dirname : string;
  (** what [path.join] does to the joined segments (separators unified,
      [.] and [..] resolved) *)
  path_normalize : string -> string;
  (** [JSON.parse]: the message of the syntax error, or the object *)
  JSON_parse : string -> string + obj;
  (** [JSON.stringify(o, null, 2)] *)
  JSON_stringify : obj -> string;
  (** [error.stack] *)
  error_stack : exn -> string;
  (** [s.toLowerCase()] and [s.toUpperCase()] for a string [s] that has a
      character outside ASCII: the case conversions of Unicode, as the
      runtime has them *)
  unicode_toLowerCase : string -> string;
  unicode_toUpperCase : string -> string;
}.

(** ** Constants *)

Definition APP_NAME : string := "create-bmd".
Definition CONFIG_FILE_NAME : string := "config.json".

Definition COMMON_BMD_PATHS : list string :=
  [ "C:\Program Files (x86)\Steam\steamapps\common\Bot Maker For Discord";
    "C:\Program Files\Steam\steamapps\common\Bot Maker For Discord" ].

(** A descriptor of [MOD_TYPES]; a property the source leaves out reads as
    [None] or [false]. *)
Record modType : Type := ModType {
  mt_name : string;
  requiresCategory : bool;
  defaultCategory : option string;
  outputPath : string;
  isFolder : bool;
}.

Definition MOD_Action : modType :=
  ModType "Action" true (Some "Message") "AppData/Actions" false.
Definition MOD_Event : modType :=
  ModType "Event" false None "AppData/Events" false.
Definition MOD_Automation : modType :=
  ModType "Automation" false None "Automations" true.
Definition MOD_Theme : modType :=
  ModType "Theme" false None "Themes" true.
Definition MOD_Translation : modType :=
  ModType "Translation" false None "Translations" true.

Definition MOD_TYPES : list (string * modType) :=
  [ ("Action", MOD_Action); ("Event", MOD_Event);
    ("Automation", MOD_Automation); ("Theme", MOD_Theme);
    ("Translation", MOD_Translation) ].

(** [MOD_TYPES[key]] *)
Fixpoint lookupType (table : list (string * modType)) (key : string)
    : option modType :=
  match table with
  | [] => None
  | (k, d) :: rest => if String.eqb key k then Some d else lookupType rest key
  end.

(** The line feed and the double quote of the messages. *)
Definition LF : string := String "010"%char EmptyString.
Definition DQ : string := String "034"%char EmptyString.
Definition BACKSLASH : string := String "092"%char EmptyString.

Fixpoint forEach {A} (f : A -> M unit) (l : list A) : M unit :=
  match l with
  | [] => ret tt
  | x :: rest => f x ;; forEach f rest
  end.

Fixpoint joinWith (sep : string) (parts : list string) : string :=
  match parts with
  | [] => EmptyString
  | [part] => part
  | part :: rest => part +:+ sep +:+ joinWith sep rest
  end.

(** ** The program *)

Inductive outcome : Type :=
  | Returned
  | Exited (status : nat).

(** The exit status of the process: a run that returns from [main] without
    calling [process.exit] ends with status 0. *)
Definition exitCode (o : outcome) : nat :=
  match o with
  | Returned => 0
  | Exited status => status
  end.

Section Program.

Variable h : host.

Definition platformName : string :=
  match os_platform h with
  | Win32 => "win32"
  | Darwin => "darwin"
  | OtherPlatform label => label
  end.

Definition path_sep : string :=
  match os_platform h with
  | Win32 => BACKSLASH
  | _ => "/"
  end.

(** [path.join(...segments)]: empty segments are skipped, the others are
    joined with the separator and the result is normalised. *)
Definition path_join (segments : list string) : string :=
  match List.filter (fun s => negb (Str.isEmpty s)) segments with
  | [] => "."
  | parts => path_normalize h (joinWith path_sep parts)
  end.

Definition getAppDataFolder (appName : string) : result string :=
  let basePath :=
    match os_platform h with
    | Win32 => env_APPDATA h
    | Darwin => Some (path_join [os_homedir h; "Library"; "Application Support"])
    | OtherPlatform _ => Some (path_join [os_homedir h; ".config"])
    end in
  match basePath with
  | Some base =>
      if Str.isEmpty base then
        Throw (Error ("Unable to determine application data folder for platform: "
                        +:+ platformName))
      else Ok (path_join [base; appName])
  | None =>
      Throw (Error ("Unable to determine application data folder for platform: "
                      +:+ platformName))
  end.

Fixpoint findIn (paths : list string) : M (option string) :=
  match paths with
  | [] => ret None
  | installPath :: rest =>
      let* found := existsSync installPath in
      if found then
        console_log ("Found BMD installation at: " +:+ installPath) ;;
        ret (Some installPath)
      else findIn rest
  end.

Definition findBMDInstallation : M (option string) :=
  findIn COMMON_BMD_PATHS.

(** The validator of [promptForBMDPath]; it looks at the disk. *)
Definition validateBMDPath (d : gmap string node) (input : string) : verdict :=
  if Str.isEmpty input || Nat.eqb (String.length (Str.trim input)) 0 then
    Reject "BMD installation path is required!"
  else
    let trimmedPath := Str.trim input in
    if negb (bool_decide (is_Some (d !! trimmedPath))) then
      Reject "The specified path does not exist!"
    else
      let expectedFiles := ["Bot Maker For Discord.exe"; "resources"] in
      let hasExpectedFiles :=
        existsb
          (fun file => bool_decide (is_Some (d !! path_join [trimmedPath; file])))
          expectedFiles in
      if negb hasExpectedFiles then
        Reject "This doesn't appear to be a valid Bot Maker for Discord installation!"
      else Accept.

Definition promptForBMDPath : M string :=
  fun w =>
    (let* answers :=
       inquirer_prompt
         [ Question "customPath" Input
             "Please enter the path to your Bot Maker for Discord installation:"
             None (validateBMDPath (disk w)) ] in
     let* customPath := need "trim" (field answers "customPath") in
     ret (Str.trim customPath)) w.

(** [s.toLowerCase()] and [s.toUpperCase()].  On a string of ASCII
    characters they are the mappings of the ASCII letters; on any other
    string they are what the runtime computes. *)
Definition toLowerCase (s : string) : string :=
  if Str.isAscii s then Str.map Char.toLowerCase s else unicode_toLowerCase h s.

Definition toUpperCase (s : string) : string :=
  if Str.isAscii s then Str.map Char.toUpperCase s else unicode_toUpperCase h s.

(** The callback of [map] in [toCamelCase].  [charAt(0)] and [slice(1)] cut
    after the first code unit.  That is after the first character, unless
    the character is above U+FFFF: then [charAt(0)] is the first half of
    its surrogate pair, which has no uppercase form, [slice(1)] starts with
    the other half, and the two put together are the word again. *)
Definition camelWord (index : nat) (word : string) : string :=
  let lowerWord := toLowerCase word in
  match index with
  | O => lowerWord
  | S _ =>
      match Utf8.chars lowerWord with
      | [] => EmptyString
      | first :: rest =>
          if Utf8.isAstral first then lowerWord
          else toUpperCase first +:+ Str.concat rest
      end
  end.

Definition toCamelCase (str : string) : string :=
  Str.concat
    (mapIndexed camelWord 0 (Str.split Utf8.isSeparator (Str.trim str))).

Section Run.

(** [configFolder], computed once when the module is loaded. *)
Variable configFolder : string.

Definition configFile : string := path_join [configFolder; CONFIG_FILE_NAME].

Definition ensureConfigFolderExists : M unit :=
  let* present := existsSync configFolder in
  if negb present then mkdirSync configFolder else ret tt.

Definition saveConfig (config : obj) : M unit :=
  ensureConfigFolderExists ;;
  tryCatch
    (writeFileSync configFile (JSON_stringify h config))
    (fun error =>
       console_warn ("Warning: Could not save config file: " +:+ message error)).

Definition loadConfig : M obj :=
  let* present := existsSync configFile in
  if negb present then ret []
  else
    tryCatch
      (let* text := readFileSync configFile in
       match JSON_parse h text with
       | inr config => ret config
       | inl why => throw (SyntaxError why)
       end)
      (fun error =>
         console_warn ("Warning: Could not load config file: " +:+ message error) ;;
         ret []).

Definition getBMDPath (config : obj) : M string :=
  let* saved :=
    match field config "bmdPath" with
    | Some bmdPath =>
        if Str.isEmpty bmdPath then ret false else existsSync bmdPath
    | None => ret false
    end in
  if saved then
    console_log ("Using saved BMD path: " +:+ show (field config "bmdPath")) ;;
    ret (show (field config "bmdPath"))
  else
    let* autoDetectedPath := findBMDInstallation in
    match autoDetectedPath with
    | Some found => ret found
    | None =>
        console_log
          "❌ Bot Maker for Discord installation not found in common locations." ;;
        let* userPath := promptForBMDPath in
        let updatedConfig := setField "bmdPath" userPath config in
        saveConfig updatedConfig ;;
        console_log "✓ BMD path saved to configuration for future use." ;;
        ret userPath
    end.

Definition promptForInitialInfo : M obj :=
  inquirer_prompt
    [ Question "modName" Input "What is your mod called?" (Some "My Mod")
        (required "Mod name is required!");
      Question "modType" (ListOf (List.map fst MOD_TYPES))
        "What type of mod is this?" None noValidate ].

Definition promptForDetailedInfo (initialAnswers config : obj) : M obj :=
  let questions :=
    [ Question "modDescription" Input "How would you describe your mod?"
        (Some "Created with create-bmd") noValidate;
      Question "modAuthor" Input "Who is the author of this mod?"
        (Some (orElse (field config "author") "Your Name"))
        (required "Author name is required!");
      Question "modDonation" Input
        "Where can users donate to support you? (Leave empty if none)"
        (Some (orElse (field config "donation") EmptyString)) noValidate ] in
  match
    match field initialAnswers "modType" with
    | Some key => lookupType MOD_TYPES key
    | None => None
    end
  with
  | None =>
      throw (TypeError
               "Cannot read properties of undefined (reading 'requiresCategory')")
  | Some modTypeConfig =>
      if requiresCategory modTypeConfig then
        inquirer_prompt
          (Question "modCategory" Input
             "What category does your action mod belong to?"
             (defaultCategory modTypeConfig)
             (required "Category is required for Action mods!")
             :: questions)
      else inquirer_prompt questions
  end.

Definition processTemplate (templatePath : string)
    (replacements : list (string * option string)) : M string :=
  tryCatch
    (let* content := readFileSync templatePath in
     ret (applyReplacements content replacements))
    (fun error =>
       throw (Error ("Failed to process template " +:+ templatePath +:+ ": "
                       +:+ message error))).

(** The replacement object of the generators other than the Action
    one. *)
Definition commonReplacements (modInfo : obj) : list (string * option string) :=
  [ ("name", field modInfo "modName");
    ("author", field modInfo "modAuthor");
    ("description", field modInfo "modDescription");
    ("donation", field modInfo "modDonation") ].

Definition createActionMod (bmdPath : string) (modInfo : obj) : M unit :=
  let* modName := need "trim" (field modInfo "modName") in
  let fileName := toCamelCase modName +:+ "_MOD.js" in
  let templatePath := path_join [module_dirname h; "templates"; "Action.js"] in
  let* content :=
    processTemplate templatePath
      [ ("name", field modInfo "modName");
        ("author", field modInfo "modAuthor");
        ("description", field modInfo "modDescription");
        ("category", field modInfo "modCategory");
        ("donation", field modInfo "modDonation") ] in
  let outputPath := path_join [bmdPath; outputPath MOD_Action; fileName] in
  writeFileSync outputPath content ;;
  console_log ("✓ Action mod created: " +:+ outputPath).

Definition createEventMod (bmdPath : string) (modInfo : obj) : M unit :=
  let* modName := need "trim" (field modInfo "modName") in
  let fileName := toCamelCase modName +:+ "_MOD.js" in
  let templatePath := path_join [module_dirname h; "templates"; "Event.js"] in
  let* content := processTemplate templatePath (commonReplacements modInfo) in
  let outputPath := path_join [bmdPath; outputPath MOD_Event; fileName] in
  writeFileSync outputPath content ;;
  console_log ("✓ Event mod created: " +:+ outputPath).

Definition createAutomationMod (bmdPath : string) (modInfo : obj) : M unit :=
  let* modName := need "replace" (field modInfo "modName") in
  let folderName := sanitizeFolderName modName in
  let outputPath := path_join [bmdPath; outputPath MOD_Automation; folderName] in
  mkdirSync outputPath ;;
  let templates :=
    [ ("data.json", "Automation/data.json");
      ("main.js", "Automation/main.js");
      ("startup.js", "Automation/startup.js");
      ("startup_info.json", "Automation/startup_info.json") ] in
  let replacements := commonReplacements modInfo in
  forEach
    (fun entry : string * string =>
       let templatePath := path_join [module_dirname h; "templates"; snd entry] in
       let* content := processTemplate templatePath replacements in
       writeFileSync (path_join [outputPath; fst entry]) content)
    templates ;;
  console_log ("✓ Automation mod created: " +:+ outputPath).

Definition createThemeMod (bmdPath : string) (modInfo : obj) : M unit :=
  let* modName := need "replace" (field modInfo "modName") in
  let folderName := sanitizeFolderName modName in
  let outputPath := path_join [bmdPath; outputPath MOD_Theme; folderName] in
  mkdirSync outputPath ;;
  let dataTemplate := path_join [module_dirname h; "templates"; "Theme"; "data.json"] in
  let* dataContent := processTemplate dataTemplate (commonReplacements modInfo) in
  let cssTemplate := path_join [module_dirname h; "templates"; "Theme"; "theme.css"] in
  let* cssContent := readFileSync cssTemplate in
  writeFileSync (path_join [outputPath; "data.json"]) dataContent ;;
  writeFileSync (path_join [outputPath; "theme.css"]) cssContent ;;
  console_log ("✓ Theme mod created: " +:+ outputPath).

Definition createTranslationMod (bmdPath : string) (modInfo : obj) : M unit :=
  let* modName := need "replace" (field modInfo "modName") in
  let folderName := sanitizeFolderName modName in
  let outputPath := path_join [bmdPath; outputPath MOD_Translation; folderName] in
  mkdirSync outputPath ;;
  let dataTemplate :=
    path_join [module_dirname h; "templates"; "Translation"; "data.json"] in
  let* dataContent := processTemplate dataTemplate (commonReplacements modInfo) in
  let stringsTemplate :=
    path_join [module_dirname h; "templates"; "Translation"; "strings.json"] in
  let* stringsContent := readFileSync stringsTemplate in
  writeFileSync (path_join [outputPath; "data.json"]) dataContent ;;
  writeFileSync (path_join [outputPath; "strings.json"]) stringsContent ;;
  console_log ("✓ Translation mod created: " +:+ outputPath).

Definition createMod (modType : option string) (bmdPath : string)
    (modInfo : obj) : M unit :=
  let type := show modType in
  if String.eqb type "Action" then createActionMod bmdPath modInfo
  else if String.eqb type "Event" then createEventMod bmdPath modInfo
  else if String.eqb type "Automation" then createAutomationMod bmdPath modInfo
  else if String.eqb type "Theme" then createThemeMod bmdPath modInfo
  else if String.eqb type "Translation" then createTranslationMod bmdPath modInfo
  else throw (Error ("Unsupported mod type: " +:+ type)).

(** The [try] block of [main] up to and including the save of the
    configuration; it yields the mod information. *)
Definition mainCollect : M obj :=
  console_log " " ;;
  ensureConfigFolderExists ;;
  let* config := loadConfig in
  let* initialAnswers := promptForInitialInfo in
  let* detailedAnswers := promptForDetailedInfo initialAnswers config in
  let modInfo := spread initialAnswers detailedAnswers in
  let updatedConfig :=
    assign "donation" (field modInfo "modDonation")
      (assign "author" (field modInfo "modAuthor") config) in
  saveConfig updatedConfig ;;
  ret modInfo.

(** What the [try] block does once it has the installation path. *)
Definition generateAt (bmdPath : string) (modInfo : obj) : M unit :=
  console_log
    (LF +:+ "🔨 Creating " +:+ show (field modInfo "modType") +:+ " mod: "
       +:+ DQ +:+ show (field modInfo "modName") +:+ DQ) ;;
  createMod (field modInfo "modType") bmdPath modInfo ;;
  console_log (LF +:+ "✅ Mod creation completed successfully!") ;;
  console_log "Your mod is now ready to use in Bot Maker for Discord.".

(** The rest of the [try] block: detection and generation. *)
Definition mainGenerate (modInfo : obj) : M unit :=
  let* bmdPath := findBMDInstallation in
  match bmdPath with
  | None =>
      console_error "❌ Bot Maker for Discord installation not found!" ;;
      console_log "📁 Please install Bot Maker for Discord from Steam or" ;;
      console_log "   manually set the installation path in the config file." ;;
      console_log ("   Config location: " +:+ configFile) ;;
      ret tt
  | Some bmdPath => generateAt bmdPath modInfo
  end.

Definition mainTry : M unit :=
  let* modInfo := mainCollect in
  mainGenerate modInfo.

(** The [catch] block of [main]. *)
Definition mainCatch (error : exn) (w : world) : outcome * world :=
  if String.eqb (name error) "ExitPromptError" then
    (Exited 0,
     addConsole Log (LF +:+ "❌ Operation cancelled by user") w)
  else
    let w1 := addConsole Err (LF +:+ "💥 An error occurred:") w in
    let w2 := addConsole Err (message error) w1 in
    let w3 :=
      match env_NODE_ENV h with
      | Some mode =>
          if String.eqb mode "development" then
            addConsole Err (error_stack h error)
              (addConsole Err (LF +:+ "Stack trace:") w2)
          else w2
      | None => w2
      end in
    (Exited 1, w3).

Definition main (w : world) : outcome * world :=
  match mainTry w with
  | (Ok _, w') => (Returned, w')
  | (Throw error, w') => mainCatch error w'
  end.

End Run.

(** The module as Node runs it: the constants are initialised, then
    [main] is called.  An exception while the module loads is not caught
    and ends the process with status 1. *)
Definition program (w : world) : outcome * world :=
  match getAppDataFolder APP_NAME with
  | Ok configFolder => main configFolder w
  | Throw _ => (Exited 1, w)
  end.

End Program.

(** ** The Action template

    [bin/templates/Action.js], line by line, as a function of what stands at
    its five markers.  [Action_template] is the file as shipped. *)

Definition Action_render (name author description donation category : string)
    : string :=
  joinWith LF
    [ "/*";
      "    " +:+ name +:+ " mod by " +:+ author;
      "    Licensed under MIT License";
      EmptyString;
      "    " +:+ description;
      "*/";
      "module.exports = {";
      "  data: {";
      "    name: " +:+ DQ +:+ name +:+ DQ +:+ ",";
      "  },";
      "  info: {";
      "    source: " +:+ DQ +:+ "https://github.com/RatWasHere/bmods/tree/master/Actions" +:+ DQ +:+ ",";
      "    creator: " +:+ DQ +:+ author +:+ DQ +:+ ",";
      "    description: " +:+ DQ +:+ description +:+ DQ +:+ ",";
      "    donate: " +:+ DQ +:+ donation +:+ DQ +:+ ",";
      "  },";
      "  category: " +:+ DQ +:+ category +:+ DQ +:+ ",";
      "  UI: [";
      "    // This is the UI for the Action";
      "    {";
      "      element: " +:+ DQ +:+ "input" +:+ DQ +:+ ",";
      "      storeAs: " +:+ DQ +:+ "myinput" +:+ DQ +:+ ",";
      "      name: " +:+ DQ +:+ "Input" +:+ DQ +:+ ",";
      "    },";
      "    " +:+ DQ +:+ "-" +:+ DQ +:+ ",";
      "  ],";
      EmptyString;
      "  async run(values, interaction, client, bridge) {";
      "    // This is where your code will go";
      "    // Documentation: https://github.com/RatWasHere/bmods/blob/master/MODS.md";
      "    console.log(" +:+ DQ +:+ "Hello " +:+ name +:+ "!" +:+ DQ +:+ ");";
      "  },";
      "};" ].

Definition Action_template : string :=
  Action_render "//name//" "//author//" "//description//" "//donation//"
    "//category//".

(** ** Vocabulary of the statements *)

Definition chars (s : string) : list ascii := list_ascii_of_string s.

(** Equal up to the case of the ASCII letters. *)
Definition sameLetters (a b : string) : Prop :=
  Str.map Char.toLowerCase a = Str.map Char.toLowerCase b.

(** A character of one ASCII byte. *)
Definition asciiChar (ch : string) : Prop :=
  exists c, ch = String c EmptyString /\ Char.isAscii c = true.

(** No whitespace, hyphen or underscore. *)
Definition separatorFree (s : string) : Prop :=
  forallb (fun ch => negb (Utf8.isSeparator ch)) (Utf8.chars s) = true.

Definition opPath (op : fsop) : string :=
  match op with
  | Mkdir path => path
  | WriteFile path _ => path
  end.

(** [m] changes the disk only through the calls [allowed]: the refusals
    stay as they are, every path none of these calls names keeps its
    content, and the log grows by allowed calls only. *)
Definition confined {A} (allowed : fsop -> Prop) (m : M A) : Prop :=
  forall w r w',
    m w = (r, w') ->
    refused w' = refused w
    /\ (forall p, (forall op, allowed op -> opPath op <> p) ->
         disk w' !! p = disk w !! p)
    /\ exists ops, fslog w' = fslog w ++ ops /\ Forall allowed ops.

Definition nothing (op : fsop) : Prop := False.

(** The test of the first branch of [getBMDPath]: the configuration has a
    saved path and the path is on the disk. *)
Definition usableSavedPath (config : obj) (d : gmap string node) : bool :=
  match field config "bmdPath" with
  | Some bmdPath => negb (Str.isEmpty bmdPath) && bool_decide (is_Some (d !! bmdPath))
  | None => false
  end.

(** The calls that concern the configuration only. *)
Definition configOp (h : host) (folder : string) (op : fsop) : Prop :=
  op = Mkdir folder \/ exists content, op = WriteFile (configFile h folder) content.

(** A path the system lets the process write a file at. *)
Definition writable (w : world) (path : string) : Prop :=
  refused w !! path = None /\ disk w !! path <> Some Dir.


(** ** A sample host and sample worlds, for running the program *)

Module Sample.

Definition normalize (s : string) : string :=
  Str.map (fun c => if Ascii.eqb c "/"%char then "092"%char else c) s.

Fixpoint escape (s : string) : string :=
  match s with
  | EmptyString => EmptyString
  | String c r =>
      if Ascii.eqb c "034"%char || Ascii.eqb c "092"%char
      then String "092"%char (String c (escape r))
      else String c (escape r)
  end.

Definition quote (s : string) : string := DQ +:+ escape s +:+ DQ.

(** Objects printed the way [JSON.stringify(o, null, 2)] prints them, for
    keys and values of printable characters. *)
Definition stringify (o : obj) : string :=
  match o with
  | [] => "{}"
  | _ =>
      "{" +:+ LF
        +:+ joinWith ("," +:+ LF)
              (List.map (fun e => "  " +:+ quote (fst e) +:+ ": " +:+ quote (snd e)) o)
        +:+ LF +:+ "}"
  end.

(** A parser given by the objects it knows the text of; any other text is
    a syntax error. *)
Fixpoint parseKnown (known : list obj) (text : string) : string + obj :=
  match known with
  | [] => inl "Unexpected token in JSON at position 0"
  | o :: rest =>
      if String.eqb text (stringify o) then inr o else parseKnown rest text
  end.

(** Case conversions that know, outside ASCII, the letters from U+00C0 to
    U+00FE: U+00C0 to U+00DE but U+00D7 go to lowercase 32 places up,
    U+00E0 to U+00FE but U+00F7 to uppercase 32 places down, and the
    uppercase of U+00DF, the sharp s, is SS.  In UTF-8 these characters are
    the byte 195 followed by a byte from 128 to 190.  Every other character
    outside ASCII is left as it is. *)
Fixpoint lower (s : string) : string :=
  match s with
  | EmptyString => EmptyString
  | String c s' =>
      match s' with
      | String d r =>
          if Nat.eqb (Char.code c) 195 then
            String c
              (String
                 (if Char.between 128 158 d && negb (Nat.eqb (Char.code d) 151)
                  then ascii_of_nat (Char.code d + 32) else d)
                 (lower r))
          else String (Char.toLowerCase c) (lower s')
      | EmptyString => String (Char.toLowerCase c) EmptyString
      end
  end.

Fixpoint upper (s : string) : string :=
  match s with
  | EmptyString => EmptyString
  | String c s' =>
      match s' with
      | String d r =>
          if Nat.eqb (Char.code c) 195 then
            if Nat.eqb (Char.code d) 159 then "SS" +:+ upper r
            else
              String c
                (String
                   (if Char.between 160 190 d && negb (Nat.eqb (Char.code d) 183)
                    then ascii_of_nat (Char.code d - 32) else d)
                   (upper r))
          else String (Char.toUpperCase c) (upper s')
      | EmptyString => String (Char.toUpperCase c) EmptyString
      end
  end.

Definition home : string := "C:\Users\sam".
Definition appData : string := "C:\Users\sam\AppData\Roaming".
Definition binDir : string := "C:\npm\node_modules\create-bmd\bin".
Definition steam : string :=
  "C:\Program Files (x86)\Steam\steamapps\common\Bot Maker For Discord".

Definition theHost (known : list obj) : host :=
  Host Win32 (Some appData) None home binDir normalize (parseKnown known)
    stringify (fun error => name error +:+ ": " +:+ message error)
    lower upper.

Definition folder : string := "C:\Users\sam\AppData\Roaming\create-bmd".

Definition emptyWorld (script : list key) : world :=
  World ∅ ∅ script [] [].

Definition onDisk (entries : list (string * node)) (script : list key) : world :=
  World (list_to_map entries) ∅ script [] [].

(** What the operator of the worked example does: the name, the first type
    of the list (Action), the default category, the description, the author
    and no donation link. *)
Definition script : list key :=
  [ Line "My Cool Mod"; Select 0; Line EmptyString; Line "desc"; Line "Alex";
    Line EmptyString ].

(** A machine without the installation and without a configuration. *)
Definition bareHost : host := theHost [].
Definition bareWorld : world := emptyWorld script.

(** That machine once the prompts are answered and the configuration is
    saved. *)
Definition collected : world := snd (mainCollect bareHost folder bareWorld).

(** A machine whose configuration names an installation directory that
    exists, outside the locations the program knows. *)
Definition savedConfig : obj := [("bmdPath", "D:\BMD")].
Definition savedHost : host := theHost [savedConfig].
Definition savedWorld : world :=
  onDisk
    [ (folder, Dir);
      (configFile savedHost folder, File (stringify savedConfig));
      ("D:\BMD", Dir);
      ("D:\BMD\resources", Dir) ]
    script.

(** A machine with the installation in a place of its own, no saved path,
    and an operator ready to enter that place when asked. *)
Definition askedWorld : world :=
  onDisk [ ("D:\BMD", Dir); ("D:\BMD\resources", Dir) ]
    (script ++ [Line "D:\BMD"]).

(** A machine whose configuration file is not JSON. *)
Definition brokenWorld : world :=
  onDisk [ (folder, Dir); (configFile bareHost folder, File "author=Pat") ] script.

(** A machine with the installation and the templates in place. *)
Definition templates : list (string * node) :=
  [ (path_join bareHost [binDir; "templates"; "Action.js"], File Action_template);
    (path_join bareHost [binDir; "templates"; "Theme"; "data.json"],
     File "{ name: //name//, author: //author// }");
    (path_join bareHost [binDir; "templates"; "Theme"; "theme.css"],
     File "body { color: teal; }") ].

Definition readyWorld : world :=
  onDisk
    ((steam, Dir)
       :: (path_join bareHost [steam; "AppData/Actions"], Dir)
       :: (path_join bareHost [steam; "Themes"], Dir)
       :: templates)
    script.


End Sample.

(** Whether [pat] occurs in [s]. *)
Fixpoint occurs (pat s : string) : bool :=
  String.prefix pat s
  || match s with
     | EmptyString => false
     | String _ s' => occurs pat s'
     end.

(** No dollar sign. *)
Definition dollarFree (s : string) : bool :=
  Str.all (fun c => negb (Ascii.eqb c "$"%char)) s.

(** The mod information of the worked example. *)
Definition coolModInfo : obj :=
  [ ("modName", "My Cool Mod"); ("modType", "Action");
    ("modCategory", "Message"); ("modDescription", "desc");
    ("modAuthor", "Alex"); ("modDonation", EmptyString) ].


(** ** Vocabulary of the further statements *)

(** [m] removes nothing: a path on the disk before is on the disk after,
    and so is the target of every call [m] adds to the log, whether [m]
    returns or throws. *)
Definition keeps {A} (m : M A) : Prop :=
  forall w r w',
    m w = (r, w') ->
    (forall p, is_Some (disk w !! p) -> is_Some (disk w' !! p))
    /\ exists ops,
         fslog w' = fslog w ++ ops
         /\ Forall (fun op => is_Some (disk w' !! opPath op)) ops.

(** Every exception [m] throws satisfies [Q]. *)
Definition raises {A} (Q : exn -> Prop) (m : M A) : Prop :=
  forall w e w', m w = (Throw e, w') -> Q e.

(** Not the error of a cancelled prompt. *)
Definition notCancel (e : exn) : Prop := name e <> "ExitPromptError".

(** What the validator of the path prompt lets through: a path that is not
    empty and is on the disk, with the executable or the [resources] folder
    of the application in it. *)
Definition validInstallation (h : host) (d : gmap string node) (path : string)
    : Prop :=
  path <> EmptyString
  /\ is_Some (d !! path)
  /\ (is_Some (d !! path_join h [path; "Bot Maker For Discord.exe"])
      \/ is_Some (d !! path_join h [path; "resources"])).

(** The replacement object a single-file generator builds for a type. *)
Definition fileReplacements (descriptor : modType) (modInfo : obj)
    : list (string * option string) :=
  if requiresCategory descriptor then
    [ ("name", field modInfo "modName");
      ("author", field modInfo "modAuthor");
      ("description", field modInfo "modDescription");
      ("category", field modInfo "modCategory");
      ("donation", field modInfo "modDonation") ]
  else commonReplacements modInfo.

(** ** The words of a name

    What the derivation of the file name is meant to do, in the words of
    its description: the words of a name are its maximal runs of characters
    other than whitespace, hyphens and underscores; the first word comes
    out in lowercase, every later word with its first character in
    uppercase and the others in lowercase. *)

Module Camel.

Fixpoint runs {A} (p : A -> bool) (l : list A) : list (list A) :=
  match l with
  | [] => []
  | x :: l' =>
      if p x then runs p l'
      else if Str.startsWithClass p l' || Str.null l' then [x] :: runs p l'
      else
        match runs p l' with
        | w :: ws => (x :: w) :: ws
        | [] => [[x]]
        end
  end.

Definition nonnull {A} (l : list A) : bool := negb (Str.null l).

Definition words (s : string) : list string :=
  List.map Str.concat (runs Utf8.isSeparator (Utf8.chars s)).

(** The first character that is not whitespace is a hyphen or an
    underscore. *)
Fixpoint hyphenFirstChars (l : list string) : bool :=
  match l with
  | [] => false
  | ch :: l' =>
      if Utf8.isWhiteSpace ch then hyphenFirstChars l'
      else String.eqb ch "-" || String.eqb ch "_"
  end.

Definition hyphenFirst (s : string) : bool := hyphenFirstChars (Utf8.chars s).

Definition noUpper (s : string) : bool := Str.all (fun c => negb (Char.isUpper c)) s.

(** [out] is [word] in lowercase. *)
Definition lowered (word out : string) : Prop :=
  sameLetters out word /\ noUpper out = true.

(** [out] is [word] with its first character in uppercase, when it is a
    letter, and the others in lowercase. *)
Definition capitalized (word out : string) : Prop :=
  sameLetters out word
  /\ match out with
     | EmptyString => False
     | String c r => Char.isLower c = false /\ noUpper r = true
     end.

Definition camelCased (words outs : list string) : Prop :=
  match words, outs with
  | [], [] => True
  | word :: words', out :: outs' =>
      lowered word out /\ Forall2 capitalized words' outs'
  | _, _ => False
  end.

End Camel.

(** ** Texts in pieces

    A text under substitution, cut into the parts that come from the
    template, [Txt], and the values put in so far, [Val]. *)

Inductive piece : Type :=
  | Txt (text : string)
  | Val (value : string).

Definition pieceText (p : piece) : string :=
  match p with
  | Txt text => text
  | Val value => value
  end.

Definition render (pieces : list piece) : string :=
  Str.concat (List.map pieceText pieces).

Fixpoint values (pieces : list piece) : list string :=
  match pieces with
  | [] => []
  | Txt _ :: rest => values rest
  | Val value :: rest => value :: values rest
  end.

(** One pass of the plain substitution over a text of the template, with
    the value kept apart. *)
Fixpoint cut (pat v : string) (skip : nat) (s : string) : list piece :=
  match s with
  | EmptyString => []
  | String c s' =>
      match skip with
      | S k => cut pat v k s'
      | O =>
          if String.prefix pat s then Val v :: cut pat v (String.length pat - 1) s'
          else Txt (String c EmptyString) :: cut pat v 0 s'
      end
  end.

Fixpoint pass (pat v : string) (pieces : list piece) : list piece :=
  match pieces with
  | [] => []
  | Txt text :: rest => cut pat v 0 text ++ pass pat v rest
  | Val value :: rest => Val value :: pass pat v rest
  end.

(** Neighbouring texts put together. *)
Fixpoint merge (pieces : list piece) : list piece :=
  match pieces with
  | [] => []
  | Txt a :: rest =>
      match merge rest with
      | Txt b :: rest' => Txt (a +:+ b) :: rest'
      | rest' => Txt a :: rest'
      end
  | Val value :: rest => Val value :: merge rest
  end.

(** A character that is not in the marker: no occurrence of the marker
    goes over it. *)
Definition guards (pat : string) (c : ascii) : bool :=
  Str.all (fun x => negb (Ascii.eqb x c)) pat.

Definition startsWithGuard (pat s : string) : bool :=
  match s with
  | EmptyString => false
  | String c _ => guards pat c
  end.

Fixpoint endsWithGuard (pat s : string) : bool :=
  match s with
  | EmptyString => false
  | String c EmptyString => guards pat c
  | String _ s' => endsWithGuard pat s'
  end.

(** Texts and values alternate, and next to a value the text has a
    character that is not in the marker. *)
Fixpoint fenced (pat : string) (pieces : list piece) : bool :=
  match pieces with
  | [] => true
  | Txt text :: rest =>
      match rest with
      | [] => true
      | Val _ :: _ => endsWithGuard pat text && fenced pat rest
      | Txt _ :: _ => false
      end
  | Val _ :: rest =>
      match rest with
      | [] => true
      | Txt text :: _ => startsWithGuard pat text && fenced pat rest
      | Val _ :: _ => false
      end
  end.

(** The placeholders of the generators, and a value in which none of
    their markers occurs. *)
Definition placeholders : list string :=
  ["name"; "author"; "description"; "category"; "donation"].

Definition markerFree (value : string) : bool :=
  forallb (fun placeholder => negb (occurs (marker placeholder) value)) placeholders.

(** ** Further sample machines *)

Module Machine.

(** An operator at the path prompt of a machine with the installation in a
    place of its own. *)
Definition asked : world :=
  Sample.onDisk [ ("D:\BMD", Dir); ("D:\BMD\resources", Dir) ] [Line "D:\BMD"].

(** A machine that refuses the write of the configuration file. *)
Definition locked : world :=
  World {[ Sample.folder := Dir ]}
    {[ configFile Sample.bareHost Sample.folder := "EACCES: permission denied" ]}
    Sample.script [] [].

(** A machine that refuses the creation of the configuration folder. *)
Definition closed : world :=
  World ∅ {[ Sample.folder := "EACCES: permission denied" ]} Sample.script [] [].

(** A host without [APPDATA]. *)
Definition lostHost : host :=
  Host Win32 None None Sample.home Sample.binDir Sample.normalize
    (Sample.parseKnown []) Sample.stringify
    (fun error => name error +:+ ": " +:+ message error)
    Sample.lower Sample.upper.

(** A machine with the installation and no template. *)
Definition bare : world := Sample.onDisk [ (Sample.steam, Dir) ] Sample.script.

(** The mod of the worked example with a donation link. *)
Definition linkInfo : obj :=
  [ ("modName", "My Cool Mod"); ("modType", "Action");
    ("modCategory", "Message"); ("modDescription", "desc");
    ("modAuthor", "Alex"); ("modDonation", "https://ko-fi.com/alex") ].

Definition weirdInfo : obj :=
  [ ("modName", "Weird!! Name"); ("modType", "Theme"); ("modDescription", "desc");
    ("modAuthor", "Alex"); ("modDonation", EmptyString) ].

(** A machine whose configuration remembers an author and an installation
    directory. *)
Definition patSaved : obj := [("author", "Pat"); ("bmdPath", "D:\BMD")].
Definition patHost : host := Sample.theHost [patSaved].
Definition remembered : world :=
  Sample.onDisk
    [ (Sample.folder, Dir);
      (configFile patHost Sample.folder, File (Sample.stringify patSaved)) ]
    Sample.script.

(** A configuration that remembers an author, and an operator who presses
    Enter three times. *)
Definition patConfig : obj := [("author", "Pat")].
Definition enters : world :=
  Sample.emptyWorld [Line EmptyString; Line EmptyString; Line EmptyString].

End Machine.

(** * Properties *)

(** ** Characters and strings *)

Ltac each_char c :=
  destruct c as [[] [] [] [] [] [] [] []]; vm_compute; try reflexivity;
  try discriminate; try tauto; auto.

Lemma isWordOrHyphen_classes c :
  Char.isWordOrHyphen c = true ->
  (Char.isUpper c || Char.isLower c || Char.isDigit c = true
   \/ c = "_"%char \/ c = "-"%char)
  /\ Char.isWhiteSpace c = false.
Proof. each_char c. Qed.

Lemma toLowerCase_idem c :
  Char.toLowerCase (Char.toLowerCase c) = Char.toLowerCase c.
Proof. each_char c. Qed.

Lemma toLowerCase_toUpperCase c :
  Char.toLowerCase (Char.toUpperCase c) = Char.toLowerCase c.
Proof. each_char c. Qed.

Lemma isAscii_toLowerCase c :
  Char.isAscii c = true -> Char.isAscii (Char.toLowerCase c) = true.
Proof. each_char c. Qed.

Lemma isAscii_continuation c :
  Char.isAscii c = true -> Utf8.isContinuation c = false.
Proof. each_char c. Qed.

Lemma isAscii_astral c :
  Char.isAscii c = true -> Utf8.isAstral (String c EmptyString) = false.
Proof. each_char c. Qed.

(** A single byte is a separator when it is one of the ASCII separators. *)
Lemma isSeparator_byte c :
  Utf8.isSeparator (String c EmptyString) = Char.isSeparator c.
Proof. each_char c. Qed.

Lemma isWhiteSpace_isSeparator ch :
  Utf8.isWhiteSpace ch = true -> Utf8.isSeparator ch = true.
Proof. unfold Utf8.isSeparator. intros ->. reflexivity. Qed.

Section StringFacts.

Variable p : ascii -> bool.

Lemma all_app a b : Str.all p (a +:+ b) = Str.all p a && Str.all p b.
Proof.
  induction a as [|c a IH]; simpl; [reflexivity|].
  rewrite IH. apply andb_assoc.
Qed.

Lemma all_concat l :
  Forall (fun s => Str.all p s = true) l -> Str.all p (Str.concat l) = true.
Proof.
  induction 1 as [|s l Hs _ IH]; simpl; [reflexivity|].
  rewrite all_app, Hs, IH. reflexivity.
Qed.

Lemma all_filter s : Str.all p (Str.filter p s) = true.
Proof.
  induction s as [|c s IH]; simpl; [reflexivity|].
  destruct (p c) eqn:E; simpl; [rewrite E|]; exact IH.
Qed.

Lemma all_Forall s :
  Str.all p s = true -> Forall (fun c => p c = true) (chars s).
Proof.
  induction s as [|c s IH]; simpl; intros H; [constructor|].
  apply andb_true_iff in H as [Hc Hs]. constructor; auto.
Qed.

End StringFacts.

Lemma append_nil_l s : EmptyString +:+ s = s.
Proof. reflexivity. Qed.

Lemma append_cons c a b : String c a +:+ b = String c (a +:+ b).
Proof. reflexivity. Qed.

Lemma append_nil_r s : s +:+ EmptyString = s.
Proof. induction s as [|c s IH]; [reflexivity|]. rewrite append_cons, IH. reflexivity. Qed.

Lemma append_assoc a b c : (a +:+ b) +:+ c = a +:+ (b +:+ c).
Proof.
  induction a as [|x a IH]; [reflexivity|]. rewrite !append_cons, IH. reflexivity.
Qed.

Lemma map_app f a b : Str.map f (a +:+ b) = Str.map f a +:+ Str.map f b.
Proof.
  induction a as [|c a IH]; [reflexivity|].
  rewrite append_cons. cbn [Str.map]. rewrite IH, append_cons. reflexivity.
Qed.

Lemma concat_app a b : Str.concat (a ++ b) = Str.concat a +:+ Str.concat b.
Proof.
  induction a as [|s a IH]; [reflexivity|].
  cbn [app Str.concat]. rewrite IH, append_assoc. reflexivity.
Qed.

(** ** Sequences of characters *)

Section SequenceFacts.

Context {A : Type}.
Variable p : A -> bool.

Lemma splitRuns_nonempty l : Str.splitRuns p l <> [].
Proof.
  induction l as [|x l IH]; simpl; [discriminate|].
  destruct (p x).
  - destruct (Str.startsWithClass p l); [exact IH | discriminate].
  - destruct (Str.splitRuns p l); discriminate.
Qed.

(** Put together, the pieces are the sequence without the characters of
    the class. *)
Lemma splitRuns_concat l :
  List.concat (Str.splitRuns p l) = List.filter (fun x => negb (p x)) l.
Proof.
  induction l as [|x l IH]; simpl; [reflexivity|].
  destruct (p x); simpl.
  - destruct (Str.startsWithClass p l); exact IH.
  - rewrite <- IH. destruct (Str.splitRuns p l) as [|w ws] eqn:S.
    + exfalso. eapply splitRuns_nonempty. exact S.
    + reflexivity.
Qed.

Lemma splitRuns_Forall (P : A -> Prop) l :
  Forall P l -> Forall (Forall P) (Str.splitRuns p l).
Proof.
  induction 1 as [|x l Hx _ IH]; simpl; [repeat constructor|].
  destruct (p x).
  - destruct (Str.startsWithClass p l); [exact IH|]. constructor; [constructor | exact IH].
  - destruct (Str.splitRuns p l) as [|w ws]; [repeat constructor; exact Hx|].
    inversion IH; subst. constructor; [constructor; assumption | assumption].
Qed.

(** A sequence without any character of the class is one piece. *)
Lemma splitRuns_free l :
  forallb (fun x => negb (p x)) l = true -> Str.splitRuns p l = [l].
Proof.
  induction l as [|x l IH]; simpl; intros H; [reflexivity|].
  apply andb_true_iff in H as [Hx Hl]. apply negb_true_iff in Hx.
  rewrite Hx, (IH Hl). reflexivity.
Qed.

End SequenceFacts.

Section TrimFacts.

Variable q : string -> bool.
Hypothesis q_whiteSpace : forall ch, Utf8.isWhiteSpace ch = true -> q ch = false.

Lemma filter_trimStartChars l :
  List.filter q (Str.trimStartChars l) = List.filter q l.
Proof.
  induction l as [|ch l IH]; simpl; [reflexivity|].
  destruct (Utf8.isWhiteSpace ch) eqn:W; [|reflexivity].
  rewrite (q_whiteSpace _ W). exact IH.
Qed.

Lemma filter_trimEndChars l :
  List.filter q (Str.trimEndChars l) = List.filter q l.
Proof.
  induction l as [|ch l IH]; simpl; [reflexivity|].
  destruct (Str.null (Str.trimEndChars l) && Utf8.isWhiteSpace ch) eqn:E.
  - apply andb_true_iff in E as [N W]. rewrite (q_whiteSpace _ W), <- IH.
    destruct (Str.trimEndChars l); [reflexivity | discriminate].
  - simpl. rewrite IH. reflexivity.
Qed.

End TrimFacts.

Lemma Forall_trimStartChars (P : string -> Prop) l :
  Forall P l -> Forall P (Str.trimStartChars l).
Proof.
  induction 1 as [|ch l Hc Hl IH]; simpl; [constructor|].
  destruct (Utf8.isWhiteSpace ch); [exact IH | constructor; assumption].
Qed.

Lemma Forall_trimEndChars (P : string -> Prop) l :
  Forall P l -> Forall P (Str.trimEndChars l).
Proof.
  induction 1 as [|ch l Hc Hl IH]; simpl; [constructor|].
  destruct (Str.null (Str.trimEndChars l) && Utf8.isWhiteSpace ch);
    constructor; assumption.
Qed.

Lemma trimStartChars_free l :
  forallb (fun ch => negb (Utf8.isSeparator ch)) l = true ->
  Str.trimStartChars l = l.
Proof.
  destruct l as [|ch l]; simpl; intros H; [reflexivity|].
  apply andb_true_iff in H as [Hc _]. apply negb_true_iff in Hc.
  destruct (Utf8.isWhiteSpace ch) eqn:W; [|reflexivity].
  rewrite (isWhiteSpace_isSeparator _ W) in Hc. discriminate.
Qed.

Lemma trimEndChars_free l :
  forallb (fun ch => negb (Utf8.isSeparator ch)) l = true ->
  Str.trimEndChars l = l.
Proof.
  induction l as [|ch l IH]; simpl; intros H; [reflexivity|].
  apply andb_true_iff in H as [Hc Hl]. apply negb_true_iff in Hc.
  rewrite (IH Hl).
  destruct (Utf8.isWhiteSpace ch) eqn:W; [|rewrite andb_false_r; reflexivity].
  rewrite (isWhiteSpace_isSeparator _ W) in Hc. discriminate.
Qed.

(** The characters of a string, put together, are the string. *)
Lemma chars_concat s : Str.concat (Utf8.chars s) = s.
Proof.
  induction s as [|c s IH]; [reflexivity|].
  cbn [Utf8.chars]. destruct (Utf8.startsWithContinuation s).
  - destruct (Utf8.chars s) as [|ch rest].
    + cbn [Str.concat] in *. rewrite <- IH. reflexivity.
    + cbn [Str.concat] in *. rewrite append_cons, IH. reflexivity.
  - cbn [Str.concat]. rewrite append_cons, append_nil_l, IH. reflexivity.
Qed.

(** ** Strings of ASCII characters *)

Lemma chars_ascii s :
  Str.isAscii s = true ->
  Utf8.chars s = List.map (fun c => String c EmptyString) (chars s).
Proof.
  unfold Str.isAscii, chars.
  induction s as [|c s IH]; simpl; intros H; [reflexivity|].
  apply andb_true_iff in H as [_ Hs]. rewrite (IH Hs).
  destruct s as [|d s]; [reflexivity|].
  simpl in Hs. apply andb_true_iff in Hs as [Hd _].
  cbn [Utf8.startsWithContinuation]. rewrite (isAscii_continuation _ Hd). reflexivity.
Qed.

Lemma chars_asciiChar s : Str.isAscii s = true -> Forall asciiChar (Utf8.chars s).
Proof.
  intros H. rewrite (chars_ascii _ H). unfold Str.isAscii, chars in *.
  induction s as [|c s IH]; simpl in *; [constructor|].
  apply andb_true_iff in H as [Hc Hs].
  constructor; [exists c; auto | apply IH, Hs].
Qed.

Lemma concat_asciiChar l : Forall asciiChar l -> Str.isAscii (Str.concat l) = true.
Proof.
  induction 1 as [|ch l (c & -> & Hc) _ IH]; [reflexivity|].
  cbn [Str.concat]. rewrite append_cons, append_nil_l.
  unfold Str.isAscii in *. simpl. rewrite Hc, IH. reflexivity.
Qed.

Lemma chars_concat_asciiChar l :
  Forall asciiChar l -> Utf8.chars (Str.concat l) = l.
Proof.
  induction 1 as [|ch l (c & -> & Hc) Hl IH]; [reflexivity|].
  cbn [Str.concat]. rewrite append_cons, append_nil_l.
  cbn [Utf8.chars]. rewrite IH.
  destruct Hl as [|ch' l' (d & -> & Hd) _]; [reflexivity|].
  cbn [Str.concat]. rewrite append_cons.
  cbn [Utf8.startsWithContinuation]. rewrite (isAscii_continuation _ Hd). reflexivity.
Qed.

Lemma isAscii_map_toLowerCase s :
  Str.isAscii s = true -> Str.isAscii (Str.map Char.toLowerCase s) = true.
Proof.
  unfold Str.isAscii. induction s as [|c s IH]; simpl; intros H; [reflexivity|].
  apply andb_true_iff in H as [Hc Hs].
  rewrite (isAscii_toLowerCase _ Hc), (IH Hs). reflexivity.
Qed.

Lemma map_toLowerCase_idem s :
  Str.map Char.toLowerCase (Str.map Char.toLowerCase s) = Str.map Char.toLowerCase s.
Proof.
  induction s as [|c s IH]; simpl; [reflexivity|].
  rewrite toLowerCase_idem, IH. reflexivity.
Qed.

(** ** The camel-cased file name *)

Section CamelFacts.

Variable h : host.

Lemma toLowerCase_ascii s :
  Str.isAscii s = true -> toLowerCase h s = Str.map Char.toLowerCase s.
Proof. intros H. unfold toLowerCase. rewrite H. reflexivity. Qed.

(** On a word of ASCII characters [camelWord] changes the case of letters
    and nothing else. *)
Lemma camelWord_letters i word :
  Str.isAscii word = true -> sameLetters (camelWord h i word) word.
Proof.
  intros H. unfold sameLetters, camelWord.
  rewrite (toLowerCase_ascii _ H).
  pose proof (isAscii_map_toLowerCase _ H) as HL.
  destruct i as [|i]; [apply map_toLowerCase_idem|].
  rewrite (chars_ascii _ HL).
  pose proof (map_toLowerCase_idem word) as Hid.
  destruct (Str.map Char.toLowerCase word) as [|c r]; [reflexivity|].
  unfold Str.isAscii in HL. simpl in HL. apply andb_true_iff in HL as [Hc Hr].
  cbn [chars list_ascii_of_string List.map].
  rewrite (isAscii_astral _ Hc).
  unfold toUpperCase, Str.isAscii. cbn [Str.all]. rewrite Hc. cbn [andb Str.map].
  rewrite append_cons, append_nil_l.
  fold (chars r). rewrite <- (chars_ascii r Hr), chars_concat.
  cbn [Str.map] in *. rewrite toLowerCase_toUpperCase. exact Hid.
Qed.

Lemma mapIndexed_letters i words :
  Forall (fun w => Str.isAscii w = true) words ->
  sameLetters (Str.concat (mapIndexed (camelWord h) i words)) (Str.concat words).
Proof.
  unfold sameLetters. intros H. revert i.
  induction H as [|w ws Hw _ IH]; intros i; [reflexivity|].
  cbn [mapIndexed Str.concat]. rewrite !map_app, IH. f_equal.
  apply camelWord_letters, Hw.
Qed.

End CamelFacts.

(** The separators deleted from the characters of a string of ASCII
    characters, as [Str.deleteClass] deletes them from its bytes. *)
Lemma filter_separators s :
  Str.concat
    (List.filter (fun ch => negb (Utf8.isSeparator ch))
       (List.map (fun c => String c EmptyString) (chars s)))
  = Str.deleteClass Char.isSeparator s.
Proof.
  unfold Str.deleteClass, chars.
  induction s as [|c s IH]; [reflexivity|].
  cbn [list_ascii_of_string List.map List.filter Str.filter].
  rewrite isSeparator_byte. destruct (Char.isSeparator c); cbn [negb]; [exact IH|].
  cbn [Str.concat]. rewrite append_cons, append_nil_l, IH. reflexivity.
Qed.

Lemma concat_concat (pieces : list (list string)) :
  Str.concat (List.map Str.concat pieces) = Str.concat (List.concat pieces).
Proof.
  induction pieces as [|w ws IH]; [reflexivity|].
  cbn [List.map Str.concat List.concat]. rewrite concat_app, IH. reflexivity.
Qed.

(** C4, where the code departs from it.  The words of [-foo bar] are [foo]
    and [bar].  [trim] strips whitespace only, so the hyphen in front leaves
    an empty first piece: the piece that [toCamelCase] keeps in lowercase is
    that empty piece, and the first word comes out with its first letter in
    uppercase.  Without the hyphen the same words give [fooBar]. *)
Theorem toCamelCase_leading_separator (h : host) :
  Str.split Utf8.isSeparator (Str.trim "-foo bar") = [EmptyString; "foo"; "bar"]
  /\ toCamelCase h "-foo bar" = "FooBar"
  /\ toCamelCase h "_foo bar" = "FooBar"
  /\ toCamelCase h "foo bar" = "fooBar".
Proof. repeat split; reflexivity. Qed.

Example toCamelCase_my_cool_mod h : toCamelCase h "My Cool Mod" = "myCoolMod".
Proof. reflexivity. Qed.

Example toCamelCase_mixed h :
  toCamelCase h "  hello-WORLD__again  " = "helloWorldAgain".
Proof. reflexivity. Qed.

(** Outside ASCII, on a host that has the case conversions of the letters
    from U+00C0 to U+00FE: the uppercase of the sharp s is two letters, a
    word in capitals with an accent goes to lowercase as a whole, and a
    no-break space, U+00A0, separates words as a space does. *)
Example toCamelCase_outside_ascii :
  toCamelCase Sample.bareHost "a-ßx" = "aSSx"
  /\ toCamelCase Sample.bareHost "ÉCOLE mod" = "écoleMod"
  /\ toCamelCase Sample.bareHost ("my" +:+ Utf8.bytes [194; 160] +:+ "mod") = "myMod".
Proof. repeat split; vm_compute; reflexivity. Qed.

(** ** The folder slug *)

(** C5.  Every character of a slug is a letter, a digit, an underscore or a
    hyphen, and none is whitespace. *)
Theorem sanitizeFolderName_charset (name : string) :
  Forall
    (fun c =>
       (Char.isUpper c || Char.isLower c || Char.isDigit c = true
        \/ c = "_"%char \/ c = "-"%char)
       /\ Char.isWhiteSpace c = false)
    (chars (sanitizeFolderName name)).
Proof.
  unfold sanitizeFolderName, Str.deleteClass.
  eapply Forall_impl.
  - apply all_Forall, all_filter.
  - intros c H. apply isWordOrHyphen_classes.
    cbv beta in H. rewrite negb_involutive in H. exact H.
Qed.

Example sanitizeFolderName_weird : sanitizeFolderName "Weird!! Name" = "WeirdName".
Proof. reflexivity. Qed.

(** ** The monad *)

Lemma bind_Ok {A B} (m : M A) (k : A -> M B) w b w' :
  bind m k w = (Ok b, w') ->
  exists a w1, m w = (Ok a, w1) /\ k a w1 = (Ok b, w').
Proof.
  unfold bind. destruct (m w) as [[a|e] w1]; intros H; [eauto | discriminate].
Qed.

Lemma bind_ret {A B} (a : A) (k : A -> M B) w : bind (ret a) k w = k a w.
Proof. reflexivity. Qed.

Lemma bind_run {A B} (m : M A) (k : A -> M B) w a w1 :
  m w = (Ok a, w1) -> bind m k w = k a w1.
Proof. unfold bind. intros ->. reflexivity. Qed.

Lemma existsSync_present path w :
  is_Some (disk w !! path) -> existsSync path w = (Ok true, w).
Proof. intros H. unfold existsSync. rewrite bool_decide_eq_true_2; auto. Qed.

Lemma existsSync_absent path w :
  disk w !! path = None -> existsSync path w = (Ok false, w).
Proof.
  intros H. unfold existsSync. rewrite bool_decide_eq_false_2; auto.
  rewrite H. intros [x Hx]. discriminate.
Qed.

Section Confinement.

Context {A B : Type}.
Variable allowed : fsop -> Prop.

Lemma confined_ret (a : A) : confined allowed (ret a).
Proof.
  intros w r w' H. injection H as <- <-.
  repeat split; auto. exists []. rewrite app_nil_r. auto.
Qed.

Lemma confined_throw (e : exn) : confined allowed (@throw A e).
Proof.
  intros w r w' H. injection H as <- <-.
  repeat split; auto. exists []. rewrite app_nil_r. auto.
Qed.

Lemma confined_seq (w w1 w2 : world) :
  (refused w1 = refused w
   /\ (forall p, (forall op, allowed op -> opPath op <> p) ->
        disk w1 !! p = disk w !! p)
   /\ exists ops, fslog w1 = fslog w ++ ops /\ Forall allowed ops) ->
  (refused w2 = refused w1
   /\ (forall p, (forall op, allowed op -> opPath op <> p) ->
        disk w2 !! p = disk w1 !! p)
   /\ exists ops, fslog w2 = fslog w1 ++ ops /\ Forall allowed ops) ->
  refused w2 = refused w
  /\ (forall p, (forall op, allowed op -> opPath op <> p) ->
       disk w2 !! p = disk w !! p)
  /\ exists ops, fslog w2 = fslog w ++ ops /\ Forall allowed ops.
Proof.
  intros (R1 & D1 & ops1 & L1 & F1) (R2 & D2 & ops2 & L2 & F2).
  split; [congruence|]. split.
  - intros p Hp. rewrite D2, D1; auto.
  - exists (ops1 ++ ops2). split.
    + rewrite L2, L1, app_assoc. reflexivity.
    + apply Forall_app. auto.
Qed.

Lemma confined_bind (m : M A) (k : A -> M B) :
  confined allowed m -> (forall a, confined allowed (k a)) ->
  confined allowed (bind m k).
Proof.
  intros Hm Hk w r w' H. unfold bind in H.
  destruct (m w) as [[a|e] w1] eqn:E.
  - eapply confined_seq; [eapply Hm, E | eapply Hk, H].
  - injection H as <- <-. eapply Hm, E.
Qed.

Lemma confined_tryCatch (m : M A) (handler : exn -> M A) :
  confined allowed m -> (forall e, confined allowed (handler e)) ->
  confined allowed (tryCatch m handler).
Proof.
  intros Hm Hh w r w' H. unfold tryCatch in H.
  destruct (m w) as [[a|e] w1] eqn:E.
  - injection H as <- <-. eapply Hm, E.
  - eapply confined_seq; [eapply Hm, E | eapply Hh, H].
Qed.

Lemma confined_same (m : M A) :
  (forall w, exists r keys' console',
      m w = (r, World (disk w) (refused w) keys' console' (fslog w))) ->
  confined allowed m.
Proof.
  intros Hm w r w' H. destruct (Hm w) as (r0 & ks & co & E).
  rewrite E in H. injection H as <- <-. simpl.
  repeat split; auto. exists []. rewrite app_nil_r. auto.
Qed.

End Confinement.


Lemma confined_weaken {A} (P Q : fsop -> Prop) (m : M A) :
  (forall op, P op -> Q op) -> confined P m -> confined Q m.
Proof.
  intros PQ Hm w r w' H. destruct (Hm w r w' H) as (R & D & ops & L & F).
  repeat split; auto.
  exists ops. split; [exact L|]. eapply Forall_impl; eauto.
Qed.

Lemma confined_console allowed (s : stream) text :
  confined allowed (fun w => (Ok tt, addConsole s text w)).
Proof. apply confined_same. intros w. eexists _, _, _. reflexivity. Qed.

Lemma confined_existsSync allowed path : confined allowed (existsSync path).
Proof.
  apply confined_same. intros [d r k c l]. eexists _, _, _. reflexivity.
Qed.

Lemma confined_readFileSync allowed path : confined allowed (readFileSync path).
Proof.
  apply confined_same. intros [d r k c l]. unfold readFileSync. simpl.
  destruct (d !! path) as [[|content]|]; eexists _, _, _; reflexivity.
Qed.

Lemma confined_askM allowed q : confined allowed (askM q).
Proof.
  apply confined_same. intros [d r k c l]. unfold askM. simpl.
  destruct (ask q k) as [res ks]. eexists _, _, _. reflexivity.
Qed.

Lemma confined_writeFileSync (allowed : fsop -> Prop) path content :
  allowed (WriteFile path content) ->
  confined allowed (writeFileSync path content).
Proof.
  intros Ha [d rf k c l] r w' H. unfold writeFileSync in H. simpl in H.
  assert (Same : (r, w') = (r, World d rf k c l) ->
          refused w' = rf
          /\ (forall p, (forall op, allowed op -> opPath op <> p) ->
               disk w' !! p = d !! p)
          /\ exists ops, fslog w' = l ++ ops /\ Forall allowed ops).
  { intros E. injection E as ->. simpl. repeat split; auto.
    exists []. rewrite app_nil_r. auto. }
  simpl.
  destruct (rf !! path); [injection H as <- <-; apply Same; reflexivity|].
  destruct (d !! path) as [[|old]|];
    try (injection H as <- <-; apply Same; reflexivity);
    injection H as <- <-; simpl; (split; [reflexivity|]); (split;
      [ intros p Hp; apply lookup_insert_ne; exact (Hp _ Ha)
      | exists [WriteFile path content]; auto ]).
Qed.

Lemma confined_mkdirSync (allowed : fsop -> Prop) path :
  allowed (Mkdir path) -> confined allowed (mkdirSync path).
Proof.
  intros Ha [d rf k c l] r w' H. unfold mkdirSync in H. simpl in H.
  assert (Same : (r, w') = (r, World d rf k c l) ->
          refused w' = rf
          /\ (forall p, (forall op, allowed op -> opPath op <> p) ->
               disk w' !! p = d !! p)
          /\ exists ops, fslog w' = l ++ ops /\ Forall allowed ops).
  { intros E. injection E as ->. simpl. repeat split; auto.
    exists []. rewrite app_nil_r. auto. }
  simpl.
  destruct (d !! path) as [[|old]|] eqn:E.
  - injection H as <- <-. simpl. repeat split; auto.
    exists [Mkdir path]. auto.
  - injection H as <- <-. apply Same. reflexivity.
  - destruct (rf !! path); [injection H as <- <-; apply Same; reflexivity|].
    injection H as <- <-. simpl. split; [reflexivity|]. split.
    + intros p Hp. apply lookup_insert_ne. exact (Hp _ Ha).
    + exists [Mkdir path]. auto.
Qed.

Create HintDb confine discriminated.

#[local] Hint Resolve confined_ret confined_throw confined_existsSync
  confined_readFileSync confined_askM : confine.
#[local] Hint Extern 1 (confined _ (console_log _)) =>
  apply confined_console : confine.
#[local] Hint Extern 1 (confined _ (console_warn _)) =>
  apply confined_console : confine.
#[local] Hint Extern 1 (confined _ (console_error _)) =>
  apply confined_console : confine.

Ltac confine :=
  repeat first
    [ apply confined_bind; [|intros ?]
    | apply confined_tryCatch; [|intros ?]
    | solve [auto with confine]
    | match goal with
      | |- confined _ (if ?b then _ else _) => destruct b
      | |- confined _ (match ?x with _ => _ end) => destruct x
      end ].

Lemma confined_promptFrom allowed questions answers :
  confined allowed (promptFrom answers questions).
Proof.
  revert answers. induction questions as [|q qs IH]; intros answers; simpl.
  - apply confined_ret.
  - apply confined_bind; [apply confined_askM | intros a; apply IH].
Qed.

Lemma confined_inquirer_prompt allowed questions :
  confined allowed (inquirer_prompt questions).
Proof. apply confined_promptFrom. Qed.

#[local] Hint Resolve confined_inquirer_prompt : confine.

Lemma confined_need allowed property v : confined allowed (need property v).
Proof. destruct v; simpl; auto with confine. Qed.

#[local] Hint Resolve confined_need : confine.

Lemma confined_findIn allowed paths : confined allowed (findIn paths).
Proof.
  induction paths as [|p ps IH]; simpl; [apply confined_ret|].
  confine.
Qed.

Lemma confined_processTemplate allowed templatePath replacements :
  confined allowed (processTemplate templatePath replacements).
Proof. unfold processTemplate. confine. Qed.

#[local] Hint Resolve confined_findIn confined_processTemplate : confine.

Section RunFacts.

Variable h : host.
Variable folder : string.

Abbreviation cf := (configFile h folder).

Lemma confined_promptForInitialInfo allowed :
  confined allowed promptForInitialInfo.
Proof. apply confined_inquirer_prompt. Qed.

Lemma confined_promptForDetailedInfo allowed initialAnswers config :
  confined allowed (promptForDetailedInfo initialAnswers config).
Proof. unfold promptForDetailedInfo. confine. Qed.

Lemma confined_loadConfig allowed : confined allowed (loadConfig h folder).
Proof. unfold loadConfig. confine. Qed.

Lemma confined_ensureConfigFolderExists (allowed : fsop -> Prop) :
  allowed (Mkdir folder) -> confined allowed (ensureConfigFolderExists folder).
Proof.
  intros Ha. unfold ensureConfigFolderExists. confine.
  apply confined_mkdirSync, Ha.
Qed.

Lemma confined_saveConfig config :
  confined (configOp h folder) (saveConfig h folder config).
Proof.
  unfold saveConfig. confine.
  - apply confined_mkdirSync. left. reflexivity.
  - apply confined_writeFileSync. right. eauto.
Qed.

Lemma confined_mainCollect : confined (configOp h folder) (mainCollect h folder).
Proof.
  unfold mainCollect. confine.
  all: first
    [ apply confined_mkdirSync; left; reflexivity
    | apply confined_writeFileSync; right; eauto
    | apply confined_promptForDetailedInfo ].
Qed.

(** ** Loading the configuration *)

Lemma loadConfig_eq w :
  loadConfig h folder w
  = match disk w !! cf with
    | None => (Ok [], w)
    | Some Dir =>
        (Ok [],
         addConsole Warn
           ("Warning: Could not load config file: "
              +:+ "EISDIR: illegal operation on a directory, read") w)
    | Some (File text) =>
        match JSON_parse h text with
        | inr config => (Ok config, w)
        | inl why =>
            (Ok [],
             addConsole Warn ("Warning: Could not load config file: " +:+ why) w)
        end
    end.
Proof.
  unfold loadConfig, bind. destruct (disk w !! cf) as [n|] eqn:E.
  - rewrite existsSync_present by (rewrite E; eauto).
    simpl. unfold tryCatch, bind, readFileSync. rewrite E.
    destruct n as [|text]; [reflexivity|].
    destruct (JSON_parse h text); reflexivity.
  - rewrite (existsSync_absent _ _ E). reflexivity.
Qed.

(** C8.  [loadConfig] yields the empty configuration when the file is
    missing, and when its text does not parse; in the second case the only
    effect is one warning on the console.  Whatever is on the disk,
    [loadConfig] returns normally and leaves the disk as it is, so the run
    goes on. *)
Theorem loadConfig_missing_or_unparsable (w : world) :
  (disk w !! cf = None -> loadConfig h folder w = (Ok [], w))
  /\ (forall text why,
        disk w !! cf = Some (File text) ->
        JSON_parse h text = inl why ->
        loadConfig h folder w
        = (Ok [], addConsole Warn ("Warning: Could not load config file: " +:+ why) w))
  /\ (exists config w',
        loadConfig h folder w = (Ok config, w')
        /\ disk w' = disk w /\ fslog w' = fslog w /\ keys w' = keys w).
Proof.
  rewrite loadConfig_eq. repeat split.
  - intros ->. reflexivity.
  - intros text why -> ->. reflexivity.
  - destruct (disk w !! cf) as [[|text]|]; [eauto 7| |eauto 7].
    destruct (JSON_parse h text); eauto 7.
Qed.

(** ** Detection *)

Lemma findIn_none paths w :
  Forall (fun path => disk w !! path = None) paths ->
  findIn paths w = (Ok None, w).
Proof.
  induction 1 as [|p ps Hp _ IH]; [reflexivity|].
  simpl. unfold bind. rewrite (existsSync_absent _ _ Hp). exact IH.
Qed.

Lemma mainGenerate_none modInfo w :
  Forall (fun path => disk w !! path = None) COMMON_BMD_PATHS ->
  mainGenerate h folder modInfo w
  = (Ok tt,
     addConsole Log ("   Config location: " +:+ cf)
       (addConsole Log "   manually set the installation path in the config file."
          (addConsole Log "📁 Please install Bot Maker for Discord from Steam or"
             (addConsole Err "❌ Bot Maker for Discord installation not found!" w)))).
Proof.
  intros H. unfold mainGenerate, findBMDInstallation, bind.
  rewrite (findIn_none _ _ H). reflexivity.
Qed.

Lemma main_undetected modInfo w w1 :
  mainCollect h folder w = (Ok modInfo, w1) ->
  Forall (fun path => disk w1 !! path = None) COMMON_BMD_PATHS ->
  exists w2,
    main h folder w = (Returned, w2)
    /\ disk w2 = disk w1
    /\ fslog w2 = fslog w1
    /\ keys w2 = keys w1
    /\ In (Err, "❌ Bot Maker for Discord installation not found!") (console w2).
Proof.
  intros Hc Hnone.
  pose proof (mainGenerate_none modInfo w1 Hnone) as Hg.
  unfold main, mainTry. rewrite (bind_run _ _ _ _ _ Hc), Hg.
  eexists. split; [reflexivity|]. simpl.
  repeat split; auto.
  rewrite !in_app_iff. simpl. tauto.
Qed.

(** C1.  When the run reaches detection and none of [COMMON_BMD_PATHS]
    exists, [main] returns without calling [process.exit]: the exit status
    is 0, the error is on the console, and neither the disk nor the log of
    disk operations changes after the configuration was saved, so that the
    only operations of the whole run are those on the configuration folder
    and file.  An exception other than the cancellation of a prompt ends
    the run with status 1. *)
Theorem main_installation_not_found (w w1 : world) (modInfo : obj) :
  mainCollect h folder w = (Ok modInfo, w1) ->
  Forall (fun path => disk w1 !! path = None) COMMON_BMD_PATHS ->
  exists w2,
    main h folder w = (Returned, w2)
    /\ exitCode (fst (main h folder w)) = 0
    /\ disk w2 = disk w1
    /\ fslog w2 = fslog w1
    /\ (exists ops, fslog w2 = fslog w ++ ops /\ Forall (configOp h folder) ops)
    /\ In (Err, "❌ Bot Maker for Discord installation not found!") (console w2)
    /\ (forall error w',
          name error <> "ExitPromptError" ->
          exitCode (fst (mainCatch h error w')) = 1).
Proof.
  intros Hc Hnone.
  destruct (main_undetected _ _ _ Hc Hnone) as (w2 & Hm & D & L & K & C).
  destruct (confined_mainCollect _ _ _ Hc) as (_ & _ & ops & Hops & Hall).
  exists w2. rewrite Hm. repeat split; auto.
  - exists ops. rewrite L. auto.
  - intros error w' Hname. unfold mainCatch.
    destruct (String.eqb_spec (name error) "ExitPromptError"); [contradiction|].
    reflexivity.
Qed.

End RunFacts.

(** ** The prompts *)

Lemma ask_choice q ks answer ks' choices :
  ask q ks = (Ok answer, ks') ->
  q_type q = ListOf choices ->
  In answer choices.
Proof.
  intros H T. induction ks as [|k ks IH]; simpl in H; [discriminate|].
  rewrite T in H. destruct k as [text|index|]; [auto | | discriminate].
  destruct (nth_error choices index) as [choice|] eqn:E; [|auto].
  injection H as <- <-. eapply nth_error_In, E.
Qed.

Lemma askM_choice q w answer w' choices :
  askM q w = (Ok answer, w') ->
  q_type q = ListOf choices ->
  In answer choices.
Proof.
  unfold askM. destruct (ask q (keys w)) as [r ks] eqn:E.
  intros H T. injection H as -> _. eapply ask_choice; eauto.
Qed.

(** The answers of the first pass: a name, and a type among the keys of
    [MOD_TYPES]. *)
Lemma promptForInitialInfo_Ok w initialAnswers w1 :
  promptForInitialInfo w = (Ok initialAnswers, w1) ->
  exists modName type,
    initialAnswers = [("modName", modName); ("modType", type)]
    /\ In type (List.map fst MOD_TYPES).
Proof.
  unfold promptForInitialInfo, inquirer_prompt. cbn [promptFrom].
  intros H.
  apply bind_Ok in H as (modName & wa & _ & H).
  apply bind_Ok in H as (type & wb & Ht & H).
  injection H as <- _.
  exists modName, type. split; [reflexivity|].
  eapply askM_choice; [exact Ht | reflexivity].
Qed.

(** The answers of the second pass, with and without the category
    question in front. *)
Lemma prompt_three answers q1 q2 q3 w detailed w' :
  promptFrom answers [q1; q2; q3] w = (Ok detailed, w') ->
  exists a1 a2 a3,
    detailed
    = setField (q_name q3) a3 (setField (q_name q2) a2 (setField (q_name q1) a1 answers)).
Proof.
  cbn [promptFrom]. intros H.
  apply bind_Ok in H as (a1 & ? & _ & H).
  apply bind_Ok in H as (a2 & ? & _ & H).
  apply bind_Ok in H as (a3 & ? & _ & H).
  injection H as <- _. eauto.
Qed.

(** C7.  The mod information merged from the two prompt passes names one of
    the five types of [MOD_TYPES], and it has a category exactly when the
    descriptor of that type requires one, which only the Action descriptor
    does. *)
Theorem modInfo_type_and_category
    (config initialAnswers detailedAnswers : obj) (w w1 w2 : world) :
  promptForInitialInfo w = (Ok initialAnswers, w1) ->
  promptForDetailedInfo initialAnswers config w1 = (Ok detailedAnswers, w2) ->
  exists type descriptor,
    field (spread initialAnswers detailedAnswers) "modType" = Some type
    /\ In type ["Action"; "Event"; "Automation"; "Theme"; "Translation"]
    /\ lookupType MOD_TYPES type = Some descriptor
    /\ (is_Some (field (spread initialAnswers detailedAnswers) "modCategory")
        <-> requiresCategory descriptor = true)
    /\ (requiresCategory descriptor = true <-> type = "Action").
Proof.
  intros H1 H2.
  apply promptForInitialInfo_Ok in H1 as (modName & type & -> & Hin).
  unfold promptForDetailedInfo in H2. cbn [field String.eqb Ascii.eqb Bool.eqb] in H2.
  simpl in Hin.
  destruct Hin as [<-|[<-|[<-|[<-|[<-|[]]]]]]; simpl in H2.
  - unfold inquirer_prompt in H2. cbn [promptFrom] in H2.
    apply bind_Ok in H2 as (category & wa & _ & H2).
    apply prompt_three in H2 as (a1 & a2 & a3 & ->).
    exists "Action", MOD_Action. simpl.
    repeat split; eauto; try tauto.
  - apply prompt_three in H2 as (a1 & a2 & a3 & ->).
    exists "Event", MOD_Event. simpl.
    repeat split; try tauto; try discriminate; intros [x Hx]; discriminate.
  - apply prompt_three in H2 as (a1 & a2 & a3 & ->).
    exists "Automation", MOD_Automation. simpl.
    repeat split; try tauto; try discriminate; intros [x Hx]; discriminate.
  - apply prompt_three in H2 as (a1 & a2 & a3 & ->).
    exists "Theme", MOD_Theme. simpl.
    repeat split; try tauto; try discriminate; intros [x Hx]; discriminate.
  - apply prompt_three in H2 as (a1 & a2 & a3 & ->).
    exists "Translation", MOD_Translation. simpl.
    repeat split; try tauto; try discriminate; intros [x Hx]; discriminate.
Qed.

Lemma prompts_author_donation
    (config initialAnswers detailedAnswers : obj) (w w1 w2 : world) :
  promptForInitialInfo w = (Ok initialAnswers, w1) ->
  promptForDetailedInfo initialAnswers config w1 = (Ok detailedAnswers, w2) ->
  exists author donation,
    field (spread initialAnswers detailedAnswers) "modAuthor" = Some author
    /\ field (spread initialAnswers detailedAnswers) "modDonation" = Some donation.
Proof.
  intros H1 H2.
  apply promptForInitialInfo_Ok in H1 as (modName & type & -> & Hin).
  unfold promptForDetailedInfo in H2. cbn [field String.eqb Ascii.eqb Bool.eqb] in H2.
  simpl in Hin.
  destruct Hin as [<-|[<-|[<-|[<-|[<-|[]]]]]]; simpl in H2.
  1: { unfold inquirer_prompt in H2. cbn [promptFrom] in H2.
       apply bind_Ok in H2 as (category & wa & _ & H2).
       apply prompt_three in H2 as (a1 & a2 & a3 & ->).
       exists a2, a3. split; reflexivity. }
  all: apply prompt_three in H2 as (a1 & a2 & a3 & ->);
    exists a2, a3; split; reflexivity.
Qed.

Lemma confined_nothing {A} (m : M A) w r w' :
  confined nothing m -> m w = (r, w') ->
  refused w' = refused w /\ disk w' = disk w /\ fslog w' = fslog w.
Proof.
  intros Hm H. destruct (Hm _ _ _ H) as (R & D & ops & L & F).
  split; [exact R|]. split.
  - apply map_eq. intros p. apply D. intros op [].
  - destruct F as [|op ops []]. rewrite L, app_nil_r. reflexivity.
Qed.

(** ** Saving the configuration *)

Section SaveFacts.

Variable h : host.
Variable folder : string.

Abbreviation cf := (configFile h folder).

Lemma ensureConfigFolderExists_frame w r w' :
  ensureConfigFolderExists folder w = (r, w') ->
  cf <> folder ->
  refused w' = refused w /\ disk w' !! cf = disk w !! cf.
Proof.
  intros H Hne.
  destruct (confined_ensureConfigFolderExists folder (eq (Mkdir folder)) eq_refl
              _ _ _ H) as (R & D & _).
  split; [exact R|]. apply D. intros op <-. simpl. congruence.
Qed.

Lemma saveConfig_writes config w w' :
  saveConfig h folder config w = (Ok tt, w') ->
  writable w cf -> cf <> folder ->
  disk w' !! cf = Some (File (JSON_stringify h config)).
Proof.
  intros H [Hr Hd] Hne. unfold saveConfig in H.
  apply bind_Ok in H as ([] & wm & He & H).
  destruct (ensureConfigFolderExists_frame _ _ _ He Hne) as [R D].
  unfold tryCatch, writeFileSync in H. rewrite R, Hr, D in H.
  destruct (disk w !! cf) as [[|old]|]; [congruence| |];
    injection H as <-; simpl; apply lookup_insert_eq.
Qed.

Lemma loadConfig_depends w w' :
  disk w !! cf = disk w' !! cf ->
  fst (loadConfig h folder w) = fst (loadConfig h folder w').
Proof.
  intros E. rewrite !loadConfig_eq, E.
  destruct (disk w' !! cf) as [[|text]|]; try reflexivity.
  destruct (JSON_parse h text); reflexivity.
Qed.

(** C10, as amended.  In a run whose two prompt passes complete, on a disk
    that lets the configuration file be written, the file holds, when
    detection starts, the configuration that was loaded with [author] and
    [donation] set to the answers just given.  Detection and generation run
    on that disk; when no installation is found the run returns with status
    0 and that disk: no mod file is written, yet the saved configuration
    has changed. *)
Theorem config_saved_before_detection (w w1 : world) (config modInfo : obj) :
  mainCollect h folder w = (Ok modInfo, w1) ->
  fst (loadConfig h folder w) = Ok config ->
  writable w cf -> cf <> folder ->
  exists author donation,
    field modInfo "modAuthor" = Some author
    /\ field modInfo "modDonation" = Some donation
    /\ disk w1 !! cf
       = Some (File (JSON_stringify h
                       (setField "donation" donation
                          (setField "author" author config))))
    /\ mainTry h folder w = mainGenerate h folder modInfo w1
    /\ (Forall (fun path => disk w1 !! path = None) COMMON_BMD_PATHS ->
        exists w2,
          main h folder w = (Returned, w2)
          /\ disk w2 = disk w1 /\ fslog w2 = fslog w1).
Proof.
  intros H Hload [Hr Hd] Hne.
  pose proof H as Hrun. unfold mainCollect in H.
  apply bind_Ok in H as ([] & w0 & H0 & H). injection H0 as <-.
  apply bind_Ok in H as ([] & wa & Ha & H).
  apply bind_Ok in H as (config' & wb & Hb & H).
  apply bind_Ok in H as (initialAnswers & wc & Hc & H).
  apply bind_Ok in H as (detailedAnswers & wd & Hdet & H).
  apply bind_Ok in H as ([] & we & Hsave & H). injection H as <- <-.
  destruct (ensureConfigFolderExists_frame _ _ _ Ha Hne) as [Ra Da].
  simpl in Ra, Da.
  destruct (confined_nothing _ _ _ _ (confined_loadConfig h folder _) Hb)
    as (Rb & Db & _).
  destruct (confined_nothing _ _ _ _ (confined_promptForInitialInfo _) Hc)
    as (Rc & Dc & _).
  destruct (confined_nothing _ _ _ _ (confined_promptForDetailedInfo _ _ _) Hdet)
    as (Rd & Dd & _).
  assert (config' = config) as ->.
  { assert (E : fst (loadConfig h folder w) = fst (loadConfig h folder wa))
      by (apply loadConfig_depends; congruence).
    rewrite Hload, Hb in E. simpl in E. congruence. }
  destruct (prompts_author_donation _ _ _ _ _ _ Hc Hdet)
    as (author & donation & Fa & Fd).
  exists author, donation. rewrite Fa, Fd in Hsave. simpl in Hsave.
  repeat split; auto.
  - eapply saveConfig_writes; [exact Hsave | | exact Hne].
    split; [congruence|]. rewrite Dd, Dc, Db, Da. exact Hd.
  - unfold mainTry. apply bind_run. exact Hrun.
  - intros Hnone.
    destruct (main_undetected h folder _ _ _ Hrun Hnone)
      as (w2 & Hm & D2 & L2 & _).
    eauto.
Qed.

End SaveFacts.

(** ** Generation *)

Lemma readFileSync_Ok path w content w' :
  readFileSync path w = (Ok content, w') ->
  w' = w /\ disk w !! path = Some (File content).
Proof.
  unfold readFileSync. destruct (disk w !! path) as [[|c]|]; intros H;
    try discriminate.
  injection H as <- <-. auto.
Qed.

Lemma processTemplate_read templatePath replacements w content :
  disk w !! templatePath = Some (File content) ->
  processTemplate templatePath replacements w
  = (Ok (applyReplacements content replacements), w).
Proof.
  intros E. unfold processTemplate, tryCatch, bind, readFileSync.
  rewrite E. reflexivity.
Qed.

Lemma processTemplate_Ok templatePath replacements w content w' :
  processTemplate templatePath replacements w = (Ok content, w') -> w' = w.
Proof.
  unfold processTemplate, tryCatch, bind, readFileSync.
  destruct (disk w !! templatePath) as [[|c]|]; intros H; try discriminate.
  injection H as _ <-. reflexivity.
Qed.

Lemma writeFileSync_run path content w :
  writable w path ->
  writeFileSync path content w
  = (Ok tt, addFslog (WriteFile path content)
              (setDisk (<[path := File content]> (disk w)) w)).
Proof.
  intros [R D]. unfold writeFileSync. rewrite R.
  destruct (disk w !! path) as [[|old]|]; [congruence | reflexivity..].
Qed.

Lemma writeFileSync_Ok path content w w' :
  writeFileSync path content w = (Ok tt, w') ->
  w' = addFslog (WriteFile path content)
         (setDisk (<[path := File content]> (disk w)) w).
Proof.
  unfold writeFileSync. destruct (refused w !! path); [discriminate|].
  destruct (disk w !! path) as [[|old]|]; intros H; try discriminate;
    injection H as <-; reflexivity.
Qed.


Section GenerationFacts.

Variable h : host.

Lemma createActionMod_run bmdPath modInfo modName template w :
  field modInfo "modName" = Some modName ->
  disk w !! path_join h [module_dirname h; "templates"; "Action.js"]
  = Some (File template) ->
  writable w
    (path_join h [bmdPath; "AppData/Actions"; toCamelCase h modName +:+ "_MOD.js"]) ->
  createActionMod h bmdPath modInfo w
  = (let outputFile :=
       path_join h [bmdPath; "AppData/Actions"; toCamelCase h modName +:+ "_MOD.js"] in
     let content :=
       applyReplacements template
         [ ("name", Some modName);
           ("author", field modInfo "modAuthor");
           ("description", field modInfo "modDescription");
           ("category", field modInfo "modCategory");
           ("donation", field modInfo "modDonation") ] in
     (Ok tt,
      addConsole Log ("✓ Action mod created: " +:+ outputFile)
        (addFslog (WriteFile outputFile content)
           (setDisk (<[outputFile := File content]> (disk w)) w)))).
Proof.
  intros N T W. unfold createActionMod, bind. rewrite N.
  cbn [need ret]. rewrite (processTemplate_read _ _ _ _ T).
  cbn [outputPath MOD_Action].
  rewrite (writeFileSync_run _ _ _ W). reflexivity.
Qed.

(** C6.  For the mod named My Cool Mod, of type Action, by Alex, described
    as desc, in category Message and with no donation link, the generator
    writes one file, [myCoolMod_MOD.js] under [AppData/Actions] of the
    installation, and its text is the Action template with the five values
    at the places of their markers: the name wherever the name marker was,
    nothing wherever the donation marker was. *)
Theorem createMod_my_cool_mod (bmdPath : string) (w : world) :
  disk w !! path_join h [module_dirname h; "templates"; "Action.js"]
  = Some (File Action_template) ->
  writable w (path_join h [bmdPath; "AppData/Actions"; "myCoolMod_MOD.js"]) ->
  let outputFile := path_join h [bmdPath; "AppData/Actions"; "myCoolMod_MOD.js"] in
  let content := Action_render "My Cool Mod" "Alex" "desc" EmptyString "Message" in
  content
  = applyLiteral Action_template
      [ ("name", Some "My Cool Mod"); ("author", Some "Alex");
        ("description", Some "desc"); ("category", Some "Message");
        ("donation", Some EmptyString) ]
  /\ createMod h (field coolModInfo "modType") bmdPath coolModInfo w
     = (Ok tt,
        addConsole Log ("✓ Action mod created: " +:+ outputFile)
          (addFslog (WriteFile outputFile content)
             (setDisk (<[outputFile := File content]> (disk w)) w))).
Proof.
  intros T W outputFile content. split; [vm_compute; reflexivity|].
  assert (N : toCamelCase h "My Cool Mod" +:+ "_MOD.js" = "myCoolMod_MOD.js")
    by (vm_compute; reflexivity).
  assert (C : applyReplacements Action_template
                [ ("name", Some "My Cool Mod");
                  ("author", field coolModInfo "modAuthor");
                  ("description", field coolModInfo "modDescription");
                  ("category", field coolModInfo "modCategory");
                  ("donation", field coolModInfo "modDonation") ]
              = content)
    by (vm_compute; reflexivity).
  change (createMod h (field coolModInfo "modType") bmdPath coolModInfo)
    with (createActionMod h bmdPath coolModInfo).
  rewrite (createActionMod_run bmdPath coolModInfo "My Cool Mod" Action_template w);
    [ | reflexivity | exact T | rewrite N; exact W ].
  cbv zeta. rewrite N, C. reflexivity.
Qed.

(** ** Folder generators *)













End GenerationFacts.

(** ** Placeholder substitution *)

Lemma GetSubstitution_plain matched before after replacement :
  dollarFree replacement = true ->
  Replace.GetSubstitution matched before after replacement = replacement.
Proof.
  unfold dollarFree.
  induction replacement as [|c r IH]; simpl; intros H; [reflexivity|].
  apply andb_true_iff in H as [Hc Hr]. apply negb_true_iff in Hc.
  rewrite Hc, (IH Hr). reflexivity.
Qed.

Lemma replaceGo_literal pat v s :
  dollarFree v = true ->
  forall skip before,
    Replace.replaceGo pat v skip before s = Replace.literalGo pat v skip s.
Proof.
  intros Hv. induction s as [|c s IH]; intros skip before; [reflexivity|].
  cbn [Replace.replaceGo Replace.literalGo].
  destruct skip as [|k]; [|apply IH].
  destruct (String.prefix pat (String c s)).
  - rewrite GetSubstitution_plain, IH by exact Hv. reflexivity.
  - rewrite IH. reflexivity.
Qed.

(** Values without a dollar sign are substituted as they stand. *)
Lemma applyReplacements_literal replacements content :
  Forall (fun entry => dollarFree (orEmpty (snd entry)) = true) replacements ->
  applyReplacements content replacements = applyLiteral content replacements.
Proof.
  unfold applyReplacements, applyLiteral. intros H. revert content.
  induction H as [|entry rest He _ IH]; intros content; [reflexivity|].
  simpl. unfold Replace.replaceAll, Replace.literalReplaceAll.
  rewrite (replaceGo_literal _ _ _ He). apply IH.
Qed.

Lemma replaceGo_absent pat repl s :
  occurs pat s = false ->
  forall before, Replace.replaceGo pat repl 0 before s = s.
Proof.
  induction s as [|c s IH]; intros H before; [reflexivity|].
  cbn [occurs] in H. apply orb_false_iff in H as [Hp Hs].
  cbn [Replace.replaceGo]. rewrite Hp, (IH Hs). reflexivity.
Qed.

(** A text in which no marker of the map occurs comes out unchanged. *)
Lemma applyReplacements_untouched replacements content :
  Forall (fun entry => occurs (marker (fst entry)) content = false) replacements ->
  applyReplacements content replacements = content.
Proof.
  unfold applyReplacements. induction 1 as [|entry rest He _ IH]; [reflexivity|].
  simpl. unfold Replace.replaceAll. rewrite (replaceGo_absent _ _ _ He). exact IH.
Qed.

(** C3, where the code departs from it.  The template is the Action
    template and the name of the mod holds two dollar signs.
    [processTemplate] puts a single dollar sign at the name markers, where
    the substitution of the value as it stands keeps both; a marker whose
    placeholder the map lacks stays. *)
Theorem processTemplate_expands_dollar :
  let templatePath := path_join Sample.bareHost [Sample.binDir; "templates"; "Action.js"] in
  let replacements :=
    [ ("name", Some "Top $$ Tips"); ("author", Some "Alex");
      ("description", Some "desc"); ("donation", None) ] in
  processTemplate templatePath replacements Sample.readyWorld
  = (Ok (Action_render "Top $ Tips" "Alex" "desc" EmptyString "//category//"),
     Sample.readyWorld)
  /\ applyLiteral Action_template replacements
     = Action_render "Top $$ Tips" "Alex" "desc" EmptyString "//category//"
  /\ Action_render "Top $ Tips" "Alex" "desc" EmptyString "//category//"
     <> Action_render "Top $$ Tips" "Alex" "desc" EmptyString "//category//".
Proof.
  intros templatePath replacements. split; [|split].
  - assert (C : applyReplacements Action_template replacements
                = Action_render "Top $ Tips" "Alex" "desc" EmptyString "//category//")
      by (vm_compute; reflexivity).
    rewrite (processTemplate_read templatePath replacements Sample.readyWorld
               Action_template) by (vm_compute; reflexivity).
    rewrite C. reflexivity.
  - vm_compute. reflexivity.
  - vm_compute. intros E. discriminate E.
Qed.

(** ** Detection, as the run does it *)

Lemma findIn_first before bmdPath after w :
  Forall (fun path => disk w !! path = None) before ->
  is_Some (disk w !! bmdPath) ->
  findIn (before ++ bmdPath :: after) w
  = (Ok (Some bmdPath),
     addConsole Log ("Found BMD installation at: " +:+ bmdPath) w).
Proof.
  intros Hb Hp. induction Hb as [|p ps Habs _ IH]; simpl; unfold bind.
  - rewrite (existsSync_present _ _ Hp). reflexivity.
  - rewrite (existsSync_absent _ _ Habs). exact IH.
Qed.

Section DetectionFacts.

Variable h : host.
Variable folder : string.

(** C2, as amended.  In a run that reaches detection with a configuration
    that has no usable saved path, the installation is looked for in
    [COMMON_BMD_PATHS] only, in order: generation runs at the first of these
    paths that exists, and when none exists the operator is not asked for a
    path: the run reports the error and returns, with the script of the
    operator, the disk and the log of disk operations as they were.  What
    the run does with a saved path is left aside here. *)
Theorem main_resolves_by_detection (w w1 : world) (config modInfo : obj) :
  mainCollect h folder w = (Ok modInfo, w1) ->
  fst (loadConfig h folder w) = Ok config ->
  usableSavedPath config (disk w1) = false ->
  (forall before bmdPath after,
      COMMON_BMD_PATHS = before ++ bmdPath :: after ->
      Forall (fun path => disk w1 !! path = None) before ->
      is_Some (disk w1 !! bmdPath) ->
      mainTry h folder w
      = generateAt h bmdPath modInfo
          (addConsole Log ("Found BMD installation at: " +:+ bmdPath) w1))
  /\ (Forall (fun path => disk w1 !! path = None) COMMON_BMD_PATHS ->
      exists w2,
        main h folder w = (Returned, w2)
        /\ keys w2 = keys w1 /\ disk w2 = disk w1 /\ fslog w2 = fslog w1
        /\ In (Err, "❌ Bot Maker for Discord installation not found!")
             (console w2)).
Proof.
  intros Hc _ _. split.
  - intros before bmdPath after E Hb Hp.
    unfold mainTry. rewrite (bind_run _ _ _ _ _ Hc).
    unfold mainGenerate, findBMDInstallation, bind.
    rewrite E, (findIn_first _ _ _ _ Hb Hp). reflexivity.
  - intros Hnone.
    destruct (main_undetected h folder _ _ _ Hc Hnone)
      as (w2 & Hm & D & L & K & C).
    exists w2. auto.
Qed.

End DetectionFacts.

(** C2, where the run departs from the claim.  Nothing is saved, none of
    [COMMON_BMD_PATHS] exists, and the operator is ready to enter the
    directory of the installation.  [getBMDPath] would ask and resolve to
    that directory; the run does not ask: the line is still unread when it
    ends, nothing but the configuration was written, and the configuration
    holds no path. *)
Lemma main_never_asks_for_path :
  let h := Sample.bareHost in
  let w := Sample.askedWorld in
  let w1 := snd (mainCollect h Sample.folder w) in
  fst (loadConfig h Sample.folder w) = Ok []
  /\ fst (getBMDPath h Sample.folder [] w1) = Ok "D:\BMD"
  /\ fst (program h w) = Returned
  /\ keys (snd (program h w)) = [Line "D:\BMD"]
  /\ fslog (snd (program h w))
     = [ Mkdir Sample.folder;
         WriteFile (configFile h Sample.folder)
           (Sample.stringify [("author", "Alex"); ("donation", EmptyString)]) ].
Proof.
  intros h w w1.
  split; [vm_compute; reflexivity|].
  split; [vm_compute; reflexivity|].
  split; [vm_compute; reflexivity|].
  split; vm_compute; reflexivity.
Qed.

(** The other departure, on a machine whose configuration names an
    installation directory that exists while none of [COMMON_BMD_PATHS]
    does.  [getBMDPath] resolves to the saved directory, but the run does
    not call it: it only probes [COMMON_BMD_PATHS], reports that no
    installation was found and ends without generating anything, having
    written the configuration file only. *)
Example saved_path_not_consulted :
  let h := Sample.savedHost in
  let w := Sample.savedWorld in
  fst (loadConfig h Sample.folder w) = Ok Sample.savedConfig
  /\ fst (getBMDPath h Sample.folder Sample.savedConfig w) = Ok "D:\BMD"
  /\ fst (program h w) = Returned
  /\ In (Err, "❌ Bot Maker for Discord installation not found!")
       (console (snd (program h w)))
  /\ fslog (snd (program h w))
     = [ WriteFile (configFile h Sample.folder)
           (Sample.stringify
              [ ("bmdPath", "D:\BMD"); ("author", "Alex");
                ("donation", EmptyString) ]) ].
Proof.
  intros h w.
  split; [vm_compute; reflexivity|].
  split; [vm_compute; reflexivity|].
  split; [vm_compute; reflexivity|].
  split; [vm_compute; tauto | vm_compute; reflexivity].
Qed.

(** ** The statements at work on the sample machines *)

(** [loadConfig] on a machine without a configuration and on one whose
    configuration file is not JSON. *)
Lemma loadConfig_missing_or_unparsable_witness :
  loadConfig Sample.bareHost Sample.folder Sample.bareWorld
  = (Ok [], Sample.bareWorld)
  /\ loadConfig Sample.bareHost Sample.folder Sample.brokenWorld
     = (Ok [],
        addConsole Warn
          ("Warning: Could not load config file: "
             +:+ "Unexpected token in JSON at position 0")
          Sample.brokenWorld).
Proof.
  split.
  - apply (proj1 (loadConfig_missing_or_unparsable
                    Sample.bareHost Sample.folder Sample.bareWorld)).
    vm_compute. reflexivity.
  - apply (proj1 (proj2 (loadConfig_missing_or_unparsable
                           Sample.bareHost Sample.folder Sample.brokenWorld))
             "author=Pat").
    + vm_compute. reflexivity.
    + vm_compute. reflexivity.
Defined.

(** A whole run on a machine without the installation. *)
Lemma main_installation_not_found_witness :
  mainCollect Sample.bareHost Sample.folder Sample.bareWorld
  = (Ok coolModInfo, Sample.collected)
  /\ Forall (fun path => disk Sample.collected !! path = None) COMMON_BMD_PATHS
  /\ exists w2,
       main Sample.bareHost Sample.folder Sample.bareWorld = (Returned, w2)
       /\ exitCode (fst (main Sample.bareHost Sample.folder Sample.bareWorld)) = 0
       /\ fslog w2 = fslog Sample.collected.
Proof.
  assert (Hc : mainCollect Sample.bareHost Sample.folder Sample.bareWorld
               = (Ok coolModInfo, Sample.collected))
    by (vm_compute; reflexivity).
  assert (Hn : Forall (fun path => disk Sample.collected !! path = None)
                 COMMON_BMD_PATHS)
    by (repeat (constructor; [vm_compute; reflexivity|]); constructor).
  split; [exact Hc|]. split; [exact Hn|].
  destruct (main_installation_not_found _ _ _ _ _ Hc Hn)
    as (w2 & Hm & He & _ & Hl & _).
  exists w2. auto.
Defined.

(** The configuration file of that machine when detection starts. *)
(** C10, where the run departs from the claim.  The machine refuses the
    write of the configuration file.  Both prompt passes complete and the
    run goes on to detection, but [saveConfig] has only warned: when
    detection starts nothing was written, and at the end of the run the
    configuration file is still not on the disk. *)
Lemma config_not_saved_when_refused :
  let h := Sample.bareHost in
  let w := Machine.locked in
  let w1 := snd (mainCollect h Sample.folder w) in
  mainCollect h Sample.folder w = (Ok coolModInfo, w1)
  /\ field coolModInfo "modAuthor" = Some "Alex"
  /\ disk w1 !! configFile h Sample.folder = None
  /\ fslog w1 = []
  /\ In (Warn, "Warning: Could not save config file: EACCES: permission denied")
       (console w1)
  /\ mainTry h Sample.folder w = mainGenerate h Sample.folder coolModInfo w1
  /\ fst (main h Sample.folder w) = Returned
  /\ disk (snd (main h Sample.folder w)) !! configFile h Sample.folder = None.
Proof.
  intros h w w1.
  split; [vm_compute; reflexivity|].
  split; [reflexivity|].
  split; [vm_compute; reflexivity|].
  split; [vm_compute; reflexivity|].
  split; [vm_compute; auto|].
  split; [vm_compute; reflexivity|].
  split; vm_compute; reflexivity.
Qed.

(** A machine whose configuration remembers the author Pat and an
    installation directory: after the prompts the file names the author
    just entered, Alex, and the directory is still in it. *)
Lemma config_saved_before_detection_witness :
  let h := Machine.patHost in
  let w := Machine.remembered in
  let w1 := snd (mainCollect h Sample.folder w) in
  mainCollect h Sample.folder w = (Ok coolModInfo, w1)
  /\ fst (loadConfig h Sample.folder w) = Ok Machine.patSaved
  /\ writable w (configFile h Sample.folder)
  /\ configFile h Sample.folder <> Sample.folder
  /\ disk w1 !! configFile h Sample.folder
     = Some (File (Sample.stringify
                     [ ("author", "Alex"); ("bmdPath", "D:\BMD");
                       ("donation", EmptyString) ])).
Proof.
  intros h w w1.
  assert (Hc : mainCollect h Sample.folder w = (Ok coolModInfo, w1))
    by (vm_compute; reflexivity).
  assert (Hl : fst (loadConfig h Sample.folder w) = Ok Machine.patSaved)
    by (vm_compute; reflexivity).
  assert (Hw : writable w (configFile h Sample.folder))
    by (split; [vm_compute; reflexivity | vm_compute; discriminate]).
  assert (Hne : configFile h Sample.folder <> Sample.folder)
    by (vm_compute; discriminate).
  split; [exact Hc|]. split; [exact Hl|]. split; [exact Hw|]. split; [exact Hne|].
  destruct (config_saved_before_detection h Sample.folder w w1 Machine.patSaved
              coolModInfo Hc Hl Hw Hne)
    as (author & donation & Fa & Fd & Hd & _).
  vm_compute in Fa, Fd. injection Fa as <-. injection Fd as <-.
  exact Hd.
Defined.

(** The two prompt passes of the worked example. *)
Lemma modInfo_type_and_category_witness :
  let first := promptForInitialInfo Sample.bareWorld in
  let second :=
    promptForDetailedInfo [("modName", "My Cool Mod"); ("modType", "Action")] []
      (snd first) in
  first = (Ok [("modName", "My Cool Mod"); ("modType", "Action")], snd first)
  /\ second
     = (Ok [ ("modCategory", "Message"); ("modDescription", "desc");
             ("modAuthor", "Alex"); ("modDonation", EmptyString) ],
        snd second)
  /\ exists type descriptor,
       field coolModInfo "modType" = Some type
       /\ lookupType MOD_TYPES type = Some descriptor
       /\ (is_Some (field coolModInfo "modCategory")
           <-> requiresCategory descriptor = true).
Proof.
  intros first second.
  assert (H1 : first
               = (Ok [("modName", "My Cool Mod"); ("modType", "Action")], snd first))
    by (vm_compute; reflexivity).
  assert (H2 : second
               = (Ok [ ("modCategory", "Message"); ("modDescription", "desc");
                       ("modAuthor", "Alex"); ("modDonation", EmptyString) ],
                  snd second))
    by (vm_compute; reflexivity).
  split; [exact H1|]. split; [exact H2|].
  destruct (modInfo_type_and_category _ _ _ _ _ _ H1 H2)
    as (type & descriptor & Ht & _ & Hl & Hc & _).
  exists type, descriptor. auto.
Defined.

(** The worked example on a machine with the installation. *)
Lemma createMod_my_cool_mod_witness :
  let run := createMod Sample.bareHost (Some "Action") Sample.steam coolModInfo
               Sample.readyWorld in
  disk Sample.readyWorld
    !! path_join Sample.bareHost
         [module_dirname Sample.bareHost; "templates"; "Action.js"]
  = Some (File Action_template)
  /\ writable Sample.readyWorld
       (path_join Sample.bareHost
          [Sample.steam; "AppData/Actions"; "myCoolMod_MOD.js"])
  /\ fst run = Ok tt
  /\ fslog (snd run)
     = [ WriteFile
           "C:\Program Files (x86)\Steam\steamapps\common\Bot Maker For Discord\AppData\Actions\myCoolMod_MOD.js"
           (Action_render "My Cool Mod" "Alex" "desc" EmptyString "Message") ].
Proof.
  intros run.
  assert (T : disk Sample.readyWorld
                !! path_join Sample.bareHost
                     [module_dirname Sample.bareHost; "templates"; "Action.js"]
              = Some (File Action_template))
    by (vm_compute; reflexivity).
  assert (W : writable Sample.readyWorld
                (path_join Sample.bareHost
                   [Sample.steam; "AppData/Actions"; "myCoolMod_MOD.js"]))
    by (split; [vm_compute; reflexivity | vm_compute; discriminate]).
  split; [exact T|]. split; [exact W|].
  destruct (createMod_my_cool_mod Sample.bareHost Sample.steam Sample.readyWorld T W)
    as [_ Hrun].
  change (field coolModInfo "modType") with (Some "Action") in Hrun.
  subst run. rewrite Hrun. split; [reflexivity|].
  vm_compute. reflexivity.
Defined.


(** Detection on a machine with the installation at the first known place. *)
Lemma main_resolves_by_detection_witness :
  let collected := snd (mainCollect Sample.bareHost Sample.folder Sample.readyWorld) in
  mainCollect Sample.bareHost Sample.folder Sample.readyWorld
  = (Ok coolModInfo, collected)
  /\ fst (loadConfig Sample.bareHost Sample.folder Sample.readyWorld) = Ok []
  /\ usableSavedPath [] (disk collected) = false
  /\ is_Some (disk collected !! Sample.steam)
  /\ mainTry Sample.bareHost Sample.folder Sample.readyWorld
     = generateAt Sample.bareHost Sample.steam coolModInfo
         (addConsole Log ("Found BMD installation at: " +:+ Sample.steam) collected).
Proof.
  intros collected.
  assert (Hc : mainCollect Sample.bareHost Sample.folder Sample.readyWorld
               = (Ok coolModInfo, collected))
    by (vm_compute; reflexivity).
  assert (Hl : fst (loadConfig Sample.bareHost Sample.folder Sample.readyWorld) = Ok [])
    by (vm_compute; reflexivity).
  assert (Hu : usableSavedPath [] (disk collected) = false) by reflexivity.
  assert (Hp : is_Some (disk collected !! Sample.steam))
    by (exists Dir; vm_compute; reflexivity).
  split; [exact Hc|]. split; [exact Hl|]. split; [exact Hu|]. split; [exact Hp|].
  apply (proj1 (main_resolves_by_detection _ _ _ _ _ _ Hc Hl Hu)
           [] Sample.steam
           ["C:\Program Files\Steam\steamapps\common\Bot Maker For Discord"]).
  - reflexivity.
  - constructor.
  - exact Hp.
Defined.

(** * Further properties *)

(** ** Names *)

(** X1.  On a name of ASCII characters [toCamelCase] only deletes and changes
    case: up to the case of letters its result is the name without its
    whitespace, hyphens and underscores, character for character. *)
Theorem toCamelCase_letters (h : host) (str : string) :
  Str.isAscii str = true ->
  sameLetters (toCamelCase h str) (Str.deleteClass Char.isSeparator str).
Proof.
  intros H. unfold toCamelCase, Str.split, Str.trim.
  set (kept := Str.trimEndChars (Str.trimStartChars (Utf8.chars str))).
  assert (HK : Forall asciiChar kept)
    by apply Forall_trimEndChars, Forall_trimStartChars, chars_asciiChar, H.
  rewrite (chars_concat_asciiChar _ HK).
  assert (HW : Forall (fun w => Str.isAscii w = true)
                 (List.map Str.concat (Str.splitRuns Utf8.isSeparator kept))).
  { apply Forall_map. eapply Forall_impl; [apply splitRuns_Forall, HK|].
    intros piece. apply concat_asciiChar. }
  pose proof (mapIndexed_letters h 0 _ HW) as L. unfold sameLetters in *.
  rewrite L, concat_concat, splitRuns_concat. unfold kept.
  rewrite filter_trimEndChars, filter_trimStartChars, (chars_ascii _ H), filter_separators;
    try reflexivity;
    intros ch W; rewrite (isWhiteSpace_isSeparator _ W); reflexivity.
Qed.

Lemma toCamelCase_letters_witness :
  Str.isAscii "  hello-WORLD__again  " = true
  /\ toCamelCase Sample.bareHost "  hello-WORLD__again  " = "helloWorldAgain"
  /\ sameLetters "helloWorldAgain" "helloWORLDagain".
Proof.
  split; [reflexivity|]. split; [reflexivity|].
  exact (toCamelCase_letters Sample.bareHost "  hello-WORLD__again  " eq_refl).
Defined.

(** X2.  A name written as one word, without whitespace, hyphen or underscore,
    is not camel-cased but put in lowercase as a whole. *)
Theorem toCamelCase_one_word (h : host) (str : string) :
  separatorFree str -> toCamelCase h str = toLowerCase h str.
Proof.
  unfold separatorFree. intros H. unfold toCamelCase, Str.split.
  assert (T : Str.trim str = str).
  { unfold Str.trim.
    rewrite (trimStartChars_free _ H), (trimEndChars_free _ H). apply chars_concat. }
  rewrite T, (splitRuns_free _ _ H).
  cbn [List.map mapIndexed Str.concat camelWord].
  rewrite chars_concat. apply append_nil_r.
Qed.

Lemma toCamelCase_one_word_witness :
  separatorFree "MyCoolMod"
  /\ toCamelCase Sample.bareHost "MyCoolMod" = "mycoolmod"
  /\ separatorFree "ÉCOLE"
  /\ toCamelCase Sample.bareHost "ÉCOLE" = "école".
Proof.
  assert (H1 : separatorFree "MyCoolMod") by reflexivity.
  assert (H2 : separatorFree "ÉCOLE") by reflexivity.
  split; [exact H1|]. split.
  - rewrite (toCamelCase_one_word Sample.bareHost _ H1). reflexivity.
  - split; [exact H2|].
    rewrite (toCamelCase_one_word Sample.bareHost _ H2). reflexivity.
Defined.

Lemma filter_filter p q s :
  (forall c, q c = true -> p c = true) ->
  Str.filter q (Str.filter p s) = Str.filter q s.
Proof.
  intros Hqp. induction s as [|c s IH]; [reflexivity|].
  cbn [Str.filter]. destruct (p c) eqn:P.
  - cbn [Str.filter]. rewrite IH. reflexivity.
  - rewrite IH. destruct (q c) eqn:Q; [|reflexivity].
    rewrite (Hqp _ Q) in P. discriminate.
Qed.

(** X3.  The slug is the name with every character other than letters, digits,
    underscores and hyphens deleted, the others kept in their order, and
    slugging a slug changes nothing. *)
Theorem sanitizeFolderName_keeps_allowed (name : string) :
  sanitizeFolderName name = Str.filter Char.isWordOrHyphen name
  /\ sanitizeFolderName (sanitizeFolderName name) = sanitizeFolderName name.
Proof.
  assert (E : forall s, sanitizeFolderName s = Str.filter Char.isWordOrHyphen s).
  { intros s. unfold sanitizeFolderName, Str.deleteClass.
    rewrite filter_filter.
    - clear. induction s as [|c s IH]; [reflexivity|].
      cbn [Str.filter]. rewrite negb_involutive, IH. reflexivity.
    - intros c H. rewrite negb_involutive in H.
      rewrite (proj2 (isWordOrHyphen_classes c H)). reflexivity. }
  split; [apply E|].
  rewrite !E. apply filter_filter. auto.
Qed.

(** ** The words of a name, and the pieces of its split *)

Section RunsFacts.

Context {A : Type}.
Variable p : A -> bool.

Lemma splitRuns_head_null l :
  Str.startsWithClass p l || Str.null l = true ->
  exists ws, Str.splitRuns p l = [] :: ws.
Proof.
  induction l as [|x l IH]; intros H; [exists []; reflexivity|].
  cbn [Str.startsWithClass Str.null] in H. rewrite orb_false_r in H.
  cbn [Str.splitRuns]. rewrite H.
  destruct (Str.startsWithClass p l) eqn:S; [|eauto].
  apply IH. reflexivity.
Qed.

Lemma splitRuns_head_nonnull l :
  Str.startsWithClass p l || Str.null l = false ->
  exists w ws, Str.splitRuns p l = w :: ws /\ w <> [].
Proof.
  destruct l as [|x l]; intros H; [discriminate|].
  cbn [Str.startsWithClass Str.null] in H. rewrite orb_false_r in H.
  cbn [Str.splitRuns]. rewrite H.
  destruct (Str.splitRuns p l) as [|w ws]; eexists _, _; split;
    try reflexivity; discriminate.
Qed.

(** The words are the pieces that are not empty. *)
Lemma splitRuns_runs l :
  List.filter Camel.nonnull (Str.splitRuns p l) = Camel.runs p l.
Proof.
  induction l as [|x l IH]; [reflexivity|].
  cbn [Str.splitRuns Camel.runs]. destruct (p x).
  - destruct (Str.startsWithClass p l); exact IH.
  - destruct (Str.startsWithClass p l || Str.null l) eqn:B.
    + destruct (splitRuns_head_null _ B) as (ws & E). rewrite E in *.
      cbn [List.filter Camel.nonnull Str.null negb] in *. rewrite IH. reflexivity.
    + destruct (splitRuns_head_nonnull _ B) as (w & ws & E & N). rewrite E in *.
      destruct w as [|y w]; [contradiction|].
      cbn [List.filter Camel.nonnull Str.null negb] in *. rewrite <- IH. reflexivity.
Qed.

End RunsFacts.

Lemma runs_trimStartChars l :
  Camel.runs Utf8.isSeparator (Str.trimStartChars l) = Camel.runs Utf8.isSeparator l.
Proof.
  induction l as [|ch l IH]; [reflexivity|].
  cbn [Str.trimStartChars]. destruct (Utf8.isWhiteSpace ch) eqn:W; [|reflexivity].
  cbn [Camel.runs]. rewrite (isWhiteSpace_isSeparator _ W). exact IH.
Qed.

Lemma boundary_trimEndChars l :
  Str.startsWithClass Utf8.isSeparator (Str.trimEndChars l) || Str.null (Str.trimEndChars l)
  = Str.startsWithClass Utf8.isSeparator l || Str.null l.
Proof.
  destruct l as [|ch l]; [reflexivity|]. cbn [Str.trimEndChars].
  destruct (Str.null (Str.trimEndChars l) && Utf8.isWhiteSpace ch) eqn:E;
    [|reflexivity].
  apply andb_true_iff in E as [_ W].
  cbn [Str.startsWithClass Str.null]. rewrite (isWhiteSpace_isSeparator _ W).
  reflexivity.
Qed.

Lemma runs_trimEndChars l :
  Camel.runs Utf8.isSeparator (Str.trimEndChars l) = Camel.runs Utf8.isSeparator l.
Proof.
  induction l as [|ch l IH]; [reflexivity|].
  cbn [Str.trimEndChars].
  destruct (Str.null (Str.trimEndChars l) && Utf8.isWhiteSpace ch) eqn:E.
  - apply andb_true_iff in E as [N W].
    cbn [Camel.runs]. rewrite (isWhiteSpace_isSeparator _ W), <- IH.
    destruct (Str.trimEndChars l); [reflexivity | discriminate].
  - cbn [Camel.runs]. rewrite boundary_trimEndChars, IH. reflexivity.
Qed.

Lemma hyphenFirst_trimStartChars l :
  Camel.hyphenFirstChars l = false ->
  Str.startsWithClass Utf8.isSeparator (Str.trimStartChars l) = false.
Proof.
  induction l as [|ch l IH]; [reflexivity|].
  cbn [Camel.hyphenFirstChars Str.trimStartChars].
  destruct (Utf8.isWhiteSpace ch) eqn:W; [exact IH|].
  intros H. cbn [Str.startsWithClass]. unfold Utf8.isSeparator.
  rewrite W. exact H.
Qed.

Lemma startsWithClass_trimEndChars l :
  Str.startsWithClass Utf8.isSeparator l = false ->
  Str.startsWithClass Utf8.isSeparator (Str.trimEndChars l) = false.
Proof.
  destruct l as [|ch l]; [reflexivity|]. cbn [Str.trimEndChars].
  destruct (Str.null (Str.trimEndChars l) && Utf8.isWhiteSpace ch);
    [reflexivity | exact (fun H => H)].
Qed.

Lemma isLower_toUpperCase c : Char.isLower (Char.toUpperCase c) = false.
Proof. each_char c. Qed.

Lemma isUpper_toLowerCase c : Char.isUpper (Char.toLowerCase c) = false.
Proof. each_char c. Qed.

Lemma noUpper_toLowerCase s : Camel.noUpper (Str.map Char.toLowerCase s) = true.
Proof.
  unfold Camel.noUpper. induction s as [|c s IH]; [reflexivity|].
  cbn [Str.map Str.all]. rewrite isUpper_toLowerCase, IH. reflexivity.
Qed.

Lemma concat_not_empty l :
  Forall asciiChar l -> l <> [] -> Str.concat l <> EmptyString.
Proof.
  intros H N. destruct H as [|ch l (c & -> & _) _]; [contradiction|].
  cbn [Str.concat]. rewrite append_cons. discriminate.
Qed.

Lemma concat_map_nonnull (f : string -> string) (pieces : list (list string)) :
  f EmptyString = EmptyString ->
  Str.concat (List.map f (List.map Str.concat (List.filter Camel.nonnull pieces)))
  = Str.concat (List.map f (List.map Str.concat pieces)).
Proof.
  intros E. induction pieces as [|w ws IH]; [reflexivity|].
  destruct w as [|ch w]; cbn [List.filter Camel.nonnull Str.null negb List.map Str.concat].
  - rewrite IH, E. reflexivity.
  - rewrite IH. reflexivity.
Qed.

Section CamelShape.

Variable h : host.

Lemma camelWord_later i word :
  Str.isAscii word = true ->
  camelWord h (S i) word
  = match Str.map Char.toLowerCase word with
    | EmptyString => EmptyString
    | String c r => String (Char.toUpperCase c) r
    end.
Proof.
  intros H. unfold camelWord. rewrite (toLowerCase_ascii _ _ H).
  pose proof (isAscii_map_toLowerCase _ H) as HL.
  rewrite (chars_ascii _ HL).
  destruct (Str.map Char.toLowerCase word) as [|c r]; [reflexivity|].
  unfold Str.isAscii in HL. simpl in HL. apply andb_true_iff in HL as [Hc Hr].
  cbn [chars list_ascii_of_string List.map].
  rewrite (isAscii_astral _ Hc).
  unfold toUpperCase, Str.isAscii. cbn [Str.all]. rewrite Hc. cbn [andb Str.map].
  rewrite append_cons, append_nil_l.
  fold (chars r). rewrite <- (chars_ascii r Hr), chars_concat. reflexivity.
Qed.

Lemma lowered_camelWord word :
  Str.isAscii word = true -> Camel.lowered word (camelWord h 0 word).
Proof.
  intros H. split; [apply camelWord_letters, H|].
  unfold camelWord. rewrite (toLowerCase_ascii _ _ H). apply noUpper_toLowerCase.
Qed.

Lemma capitalized_camelWord i word :
  Str.isAscii word = true -> word <> EmptyString ->
  Camel.capitalized word (camelWord h (S i) word).
Proof.
  intros H N. split; [apply camelWord_letters, H|].
  rewrite (camelWord_later _ _ H).
  pose proof (noUpper_toLowerCase word) as U.
  destruct word as [|c r]; [contradiction|].
  cbn [Str.map] in *. unfold Camel.noUpper in *. cbn [Str.all] in U.
  apply andb_true_iff in U as [_ U].
  split; [apply isLower_toUpperCase | exact U].
Qed.

Lemma mapIndexed_later i words :
  mapIndexed (camelWord h) (S i) words = List.map (camelWord h 1) words.
Proof.
  revert i. induction words as [|w ws IH]; intros i; [reflexivity|].
  cbn [mapIndexed List.map]. rewrite IH. reflexivity.
Qed.

Lemma capitalized_map words :
  Forall (fun w => Str.isAscii w = true /\ w <> EmptyString) words ->
  Forall2 Camel.capitalized words (List.map (camelWord h 1) words).
Proof.
  induction 1 as [|w ws [Hw Nw] _ IH]; cbn [List.map]; constructor;
    [apply capitalized_camelWord; assumption | exact IH].
Qed.

End CamelShape.

(** X25.  A name of ASCII characters that does not begin, after the
    whitespace in front, with a hyphen or an underscore comes out in camel
    case: the result is made of the words of the name, in their order and
    with nothing in between, the first in lowercase and every later one
    with its first character in uppercase and the others in lowercase. *)
Theorem toCamelCase_camel_case (h : host) (str : string) :
  Str.isAscii str = true ->
  Camel.hyphenFirst str = false ->
  exists outs,
    toCamelCase h str = Str.concat outs
    /\ Camel.camelCased (Camel.words str) outs.
Proof.
  intros HA HF. unfold toCamelCase, Str.split, Str.trim, Camel.words, Camel.hyphenFirst in *.
  rewrite <- runs_trimStartChars, <- runs_trimEndChars, <- splitRuns_runs.
  apply hyphenFirst_trimStartChars, startsWithClass_trimEndChars in HF.
  pose proof (chars_asciiChar _ HA) as HK.
  apply Forall_trimStartChars, Forall_trimEndChars in HK.
  revert HF HK.
  generalize (Str.trimEndChars (Str.trimStartChars (Utf8.chars str))).
  intros kept HF HK. rewrite (chars_concat_asciiChar _ HK).
  destruct kept as [|ch kept]; [exists []; split; reflexivity|].
  destruct (splitRuns_head_nonnull Utf8.isSeparator (ch :: kept)) as (w & ws & E & N).
  { rewrite HF. reflexivity. }
  pose proof (splitRuns_Forall Utf8.isSeparator asciiChar _ HK) as HP.
  rewrite E in *. inversion HP as [|? ? Hw Hws]; subst.
  destruct w as [|c w]; [contradiction|].
  cbn [List.filter Camel.nonnull Str.null negb List.map mapIndexed].
  exists (camelWord h 0 (Str.concat (c :: w))
            :: List.map (camelWord h 1)
                 (List.map Str.concat (List.filter Camel.nonnull ws))).
  split.
  - rewrite mapIndexed_later. cbn [Str.concat].
    rewrite (concat_map_nonnull (camelWord h 1)); reflexivity.
  - split; [apply lowered_camelWord, concat_asciiChar, Hw|].
    apply capitalized_map. apply Forall_map.
    clear -Hws. induction Hws as [|piece ws Hp _ IH]; [constructor|].
    destruct piece as [|x piece]; [exact IH|].
    cbn [List.filter Camel.nonnull Str.null negb]. constructor; [|exact IH].
    split; [apply concat_asciiChar, Hp | apply concat_not_empty; [exact Hp | discriminate]].
Qed.

Lemma toCamelCase_camel_case_witness :
  Str.isAscii "  hello-WORLD__again 2nd_ " = true
  /\ Camel.hyphenFirst "  hello-WORLD__again 2nd_ " = false
  /\ Camel.words "  hello-WORLD__again 2nd_ " = ["hello"; "WORLD"; "again"; "2nd"]
  /\ toCamelCase Sample.bareHost "  hello-WORLD__again 2nd_ " = "helloWorldAgain2nd"
  /\ exists outs,
       "helloWorldAgain2nd" = Str.concat outs
       /\ Camel.camelCased ["hello"; "WORLD"; "again"; "2nd"] outs.
Proof.
  split; [reflexivity|]. split; [reflexivity|]. split; [reflexivity|].
  split; [reflexivity|].
  exact (toCamelCase_camel_case Sample.bareHost "  hello-WORLD__again 2nd_ "
           eq_refl eq_refl).
Defined.

(** ** Substitution, as the generators use it *)

Lemma render_app a b : render (a ++ b) = render a +:+ render b.
Proof. unfold render. rewrite List.map_app. apply concat_app. Qed.

Lemma render_merge pieces : render (merge pieces) = render pieces.
Proof.
  induction pieces as [|[a|v] rest IH]; [reflexivity | |].
  - cbn [merge]. destruct (merge rest) as [|[b|v] rest'];
      unfold render in *; cbn [List.map pieceText Str.concat] in *;
      rewrite <- IH; [reflexivity | | reflexivity].
    cbn [Str.concat]. rewrite append_assoc. reflexivity.
  - cbn [merge]. unfold render in *. cbn [List.map pieceText Str.concat].
    rewrite IH. reflexivity.
Qed.

Lemma cut_literalGo pat v s :
  forall skip, render (cut pat v skip s) = Replace.literalGo pat v skip s.
Proof.
  induction s as [|c s IH]; intros skip; [reflexivity|].
  cbn [cut Replace.literalGo]. destruct skip as [|k]; [|apply IH].
  destruct (String.prefix pat (String c s)).
  - change (render (Val v :: ?l)) with (v +:+ render l). rewrite IH. reflexivity.
  - change (render (Txt ?t :: ?l)) with (t +:+ render l). rewrite IH. reflexivity.
Qed.

Section Guards.

Variables pat v : string.
Variable g : ascii.
Hypothesis pat_guard : guards pat g = true.
Hypothesis pat_not_empty : pat <> EmptyString.

Lemma prefix_guard_head rest : String.prefix pat (String g rest) = false.
Proof.
  destruct pat as [|a p]; [contradiction|].
  unfold guards in pat_guard. simpl in pat_guard.
  apply andb_true_iff in pat_guard as [Ha _]. apply negb_true_iff in Ha.
  simpl. destruct (ascii_dec a g) as [->|]; [|reflexivity].
  rewrite Ascii.eqb_refl in Ha. discriminate.
Qed.

End Guards.

Lemma prefix_guard pat g :
  guards pat g = true ->
  forall u rest, String.prefix pat (u +:+ String g rest) = String.prefix pat u.
Proof.
  unfold guards. induction pat as [|a p IH]; intros G u rest.
  - destruct u; reflexivity.
  - simpl in G. apply andb_true_iff in G as [Ha Gp]. apply negb_true_iff in Ha.
    destruct u as [|x u].
    + rewrite append_nil_l. simpl.
      destruct (ascii_dec a g) as [->|]; [|reflexivity].
      rewrite Ascii.eqb_refl in Ha. discriminate.
    + rewrite append_cons. simpl.
      destruct (ascii_dec a x); [apply IH, Gp | reflexivity].
Qed.

Lemma prefix_length pat :
  forall s, String.prefix pat s = true -> String.length pat <= String.length s.
Proof.
  induction pat as [|a p IH]; intros s H; [simpl; lia|].
  destruct s as [|x s]; [discriminate|]. simpl in *.
  destruct (ascii_dec a x); [|discriminate].
  apply IH in H. lia.
Qed.

(** The scan does not see over a character that is not in the marker:
    what comes before it and what comes after it are substituted apart. *)
Lemma literalGo_guard pat v g :
  guards pat g = true -> pat <> EmptyString ->
  forall u skip rest,
    skip <= String.length u ->
    Replace.literalGo pat v skip (u +:+ String g rest)
    = Replace.literalGo pat v skip u +:+ String g (Replace.literalGo pat v 0 rest).
Proof.
  intros G N. induction u as [|x u IH]; intros skip rest L.
  - simpl in L. assert (skip = 0) as -> by lia.
    rewrite !append_nil_l. cbn [Replace.literalGo].
    rewrite (prefix_guard_head _ _ G N). reflexivity.
  - rewrite append_cons. cbn [Replace.literalGo].
    destruct skip as [|k].
    + rewrite <- append_cons, (prefix_guard _ _ G).
      destruct (String.prefix pat (String x u)) eqn:P.
      * apply prefix_length in P. simpl in P.
        rewrite IH by lia. rewrite append_assoc. reflexivity.
      * rewrite IH by lia. reflexivity.
    + simpl in L. rewrite IH by lia. reflexivity.
Qed.

Lemma literalGo_absent pat v s :
  occurs pat s = false -> Replace.literalGo pat v 0 s = s.
Proof.
  induction s as [|c s IH]; intros H; [reflexivity|].
  cbn [occurs] in H. apply orb_false_iff in H as [Hp Hs].
  cbn [Replace.literalGo]. rewrite Hp, (IH Hs). reflexivity.
Qed.

Lemma endsWithGuard_last pat s :
  endsWithGuard pat s = true ->
  exists u g, s = u +:+ String g EmptyString /\ guards pat g = true.
Proof.
  induction s as [|c s IH]; [discriminate|]. intros H.
  destruct s as [|d s].
  - exists EmptyString, c. auto.
  - destruct (IH H) as (u & g & E & G). exists (String c u), g.
    rewrite E. auto.
Qed.

(** A text that ends with such a character is substituted apart from
    what follows it. *)
Lemma literalGo_app pat v s rest :
  pat <> EmptyString -> endsWithGuard pat s = true ->
  Replace.literalGo pat v 0 (s +:+ rest)
  = Replace.literalGo pat v 0 s +:+ Replace.literalGo pat v 0 rest.
Proof.
  intros N H. destruct (endsWithGuard_last _ _ H) as (u & g & -> & G).
  rewrite append_assoc, append_cons, append_nil_l.
  rewrite !(literalGo_guard _ _ _ G N) by lia.
  rewrite append_assoc, append_cons, append_nil_l. reflexivity.
Qed.

(** A value in which the marker does not occur stays, when what follows
    starts with such a character. *)
Lemma literalGo_value pat v value rest :
  pat <> EmptyString -> occurs pat value = false ->
  startsWithGuard pat rest = true ->
  Replace.literalGo pat v 0 (value +:+ rest)
  = value +:+ Replace.literalGo pat v 0 rest.
Proof.
  intros N O H. destruct rest as [|g rest]; [discriminate|]. simpl in H.
  rewrite (literalGo_guard _ _ _ H N) by lia.
  rewrite (literalGo_absent _ _ _ O).
  cbn [Replace.literalGo]. rewrite (prefix_guard_head _ _ H N). reflexivity.
Qed.

Lemma startsWithGuard_app pat s rest :
  startsWithGuard pat s = true -> startsWithGuard pat (s +:+ rest) = true.
Proof. destruct s; [discriminate | exact (fun H => H)]. Qed.

(** One pass over a text in pieces is the pass over each of its texts. *)
Lemma pass_literalGo pat v pieces :
  pat <> EmptyString -> fenced pat pieces = true ->
  Forall (fun value => occurs pat value = false) (values pieces) ->
  Replace.literalGo pat v 0 (render pieces) = render (merge (pass pat v pieces)).
Proof.
  intros N. rewrite render_merge.
  induction pieces as [|p rest IH]; intros F O; [reflexivity|].
  destruct p as [text|value].
  - cbn [pass]. rewrite render_app, cut_literalGo.
    change (render (Txt text :: rest)) with (text +:+ render rest).
    destruct rest as [|[t|value] rest].
    + cbn [pass]. change (render []) with EmptyString.
      rewrite !append_nil_r. reflexivity.
    + discriminate.
    + cbn [fenced] in F. apply andb_true_iff in F as [E F].
      rewrite (literalGo_app _ _ _ _ N E), (IH F O). reflexivity.
  - cbn [pass]. cbn [values] in O. inversion O as [|? ? Ov O']; subst.
    change (render (Val value :: ?l)) with (value +:+ render l).
    destruct rest as [|[text|value'] rest].
    + cbn [pass]. change (render []) with EmptyString.
      rewrite !append_nil_r. apply literalGo_absent, Ov.
    + cbn [fenced] in F. apply andb_true_iff in F as [S F].
      rewrite literalGo_value; [rewrite (IH F O'); reflexivity | exact N | exact Ov |].
      change (render (Txt text :: rest)) with (text +:+ render rest).
      apply startsWithGuard_app, S.
    + discriminate.
Qed.

Lemma marker_not_empty placeholder : marker placeholder <> EmptyString.
Proof. discriminate. Qed.

Lemma markerFree_occurs value placeholder :
  markerFree value = true -> In placeholder placeholders ->
  occurs (marker placeholder) value = false.
Proof.
  unfold markerFree. rewrite forallb_forall. intros H I.
  apply negb_true_iff, H, I.
Qed.

(** One pass over a text in pieces whose values are free of markers. *)
Ltac one_pass :=
  rewrite pass_literalGo;
  [ match goal with
    | |- context [merge (pass ?p ?v ?ps)] =>
        let r := eval vm_compute in (merge (pass p v ps)) in
        replace (merge (pass p v ps)) with r by (vm_compute; reflexivity)
    end
  | apply marker_not_empty
  | vm_compute; reflexivity
  | cbn [values];
    repeat (apply List.Forall_cons;
            [apply markerFree_occurs; [assumption | simpl; tauto]|]);
    apply List.Forall_nil ].

(** X4.  Where no value of the mod information holds a dollar sign or the
    marker of a placeholder, the text [processTemplate] makes of the Action
    template is the template with each value, as it stands, at every place
    of its marker. *)
Theorem processTemplate_literal_values
    (modInfo : obj) (templatePath : string) (w : world) :
  disk w !! templatePath = Some (File Action_template) ->
  Forall (fun entry => dollarFree (orEmpty (snd entry)) = true
                       /\ markerFree (orEmpty (snd entry)) = true)
    (fileReplacements MOD_Action modInfo) ->
  processTemplate templatePath (fileReplacements MOD_Action modInfo) w
  = (Ok (Action_render
           (orEmpty (field modInfo "modName"))
           (orEmpty (field modInfo "modAuthor"))
           (orEmpty (field modInfo "modDescription"))
           (orEmpty (field modInfo "modDonation"))
           (orEmpty (field modInfo "modCategory"))),
     w).
Proof.
  intros T V. rewrite (processTemplate_read _ _ _ _ T). f_equal. f_equal.
  rewrite applyReplacements_literal
    by (eapply Forall_impl; [exact V | intros entry [D _]; exact D]).
  unfold fileReplacements in *. cbn [requiresCategory MOD_Action] in *.
  repeat match goal with
         | H : Forall _ (_ :: _) |- _ => inversion H; clear H; subst
         | H : _ /\ _ |- _ => destruct H
         end.
  unfold applyLiteral. cbn [fold_left fst snd] in *.
  unfold Replace.literalReplaceAll.
  generalize dependent (orEmpty (field modInfo "modName")). intros name ? ?.
  generalize dependent (orEmpty (field modInfo "modAuthor")). intros author ? ?.
  generalize dependent (orEmpty (field modInfo "modDescription")).
  intros description ? ?.
  generalize dependent (orEmpty (field modInfo "modCategory")). intros category ? ?.
  generalize dependent (orEmpty (field modInfo "modDonation")). intros donation ? ?.
  let t := eval vm_compute in Action_template in
  change Action_template with (render [Txt t]).
  do 5 one_pass.
  unfold Action_render, render.
  cbn [joinWith List.map pieceText Str.concat].
  rewrite !append_assoc. reflexivity.
Qed.

(** The condition on the markers is not idle: the passes run one after
    the other, each over the text the one before left, so a name that
    holds the marker of the author ends as the author. *)
Example processTemplate_value_with_marker :
  applyReplacements "N=//name// A=//author//"
    [("name", Some "//author//"); ("author", Some "Alex")]
  = "N=Alex A=Alex".
Proof. reflexivity. Qed.

(** X5.  A template in which none of the markers of the type occurs comes out
    of [processTemplate] as it is, whatever the mod information holds. *)
Theorem processTemplate_without_markers
    (descriptor : modType) (modInfo : obj) (templatePath text : string) (w : world) :
  disk w !! templatePath = Some (File text) ->
  Forall (fun entry => occurs (marker (fst entry)) text = false)
    (fileReplacements descriptor modInfo) ->
  processTemplate templatePath (fileReplacements descriptor modInfo) w
  = (Ok text, w).
Proof.
  intros T V. rewrite (processTemplate_read _ _ _ _ T).
  rewrite (applyReplacements_untouched _ _ V). reflexivity.
Qed.

(** ** Nothing is removed *)

Section Keeping.

Context {A B : Type}.

Lemma keeps_seq (w w1 w2 : world) :
  ((forall p, is_Some (disk w !! p) -> is_Some (disk w1 !! p))
   /\ exists ops, fslog w1 = fslog w ++ ops
        /\ Forall (fun op => is_Some (disk w1 !! opPath op)) ops) ->
  ((forall p, is_Some (disk w1 !! p) -> is_Some (disk w2 !! p))
   /\ exists ops, fslog w2 = fslog w1 ++ ops
        /\ Forall (fun op => is_Some (disk w2 !! opPath op)) ops) ->
  (forall p, is_Some (disk w !! p) -> is_Some (disk w2 !! p))
  /\ exists ops, fslog w2 = fslog w ++ ops
       /\ Forall (fun op => is_Some (disk w2 !! opPath op)) ops.
Proof.
  intros (D1 & ops1 & L1 & F1) (D2 & ops2 & L2 & F2). split; [auto|].
  exists (ops1 ++ ops2). split.
  - rewrite L2, L1, app_assoc. reflexivity.
  - apply Forall_app. split; [|exact F2].
    eapply Forall_impl; [exact F1|]. intros op. apply D2.
Qed.

Lemma keeps_same (m : M A) :
  (forall w, exists r keys' console',
      m w = (r, World (disk w) (refused w) keys' console' (fslog w))) ->
  keeps m.
Proof.
  intros Hm w r w' H. destruct (Hm w) as (r0 & ks & co & E).
  rewrite E in H. injection H as <- <-. simpl.
  split; [auto|]. exists []. rewrite app_nil_r. auto.
Qed.

Lemma keeps_ret (a : A) : keeps (ret a).
Proof. apply keeps_same. intros [d r k c l]. eexists _, _, _. reflexivity. Qed.

Lemma keeps_throw (e : exn) : keeps (@throw A e).
Proof. apply keeps_same. intros [d r k c l]. eexists _, _, _. reflexivity. Qed.

Lemma keeps_bind (m : M A) (k : A -> M B) :
  keeps m -> (forall a, keeps (k a)) -> keeps (bind m k).
Proof.
  intros Hm Hk w r w' H. unfold bind in H.
  destruct (m w) as [[a|e] w1] eqn:E.
  - eapply keeps_seq; [eapply Hm, E | eapply Hk, H].
  - injection H as <- <-. eapply Hm, E.
Qed.

Lemma keeps_tryCatch (m : M A) (handler : exn -> M A) :
  keeps m -> (forall e, keeps (handler e)) -> keeps (tryCatch m handler).
Proof.
  intros Hm Hh w r w' H. unfold tryCatch in H.
  destruct (m w) as [[a|e] w1] eqn:E.
  - injection H as <- <-. eapply Hm, E.
  - eapply keeps_seq; [eapply Hm, E | eapply Hh, H].
Qed.

End Keeping.

Lemma keeps_console (s : stream) text :
  keeps (fun w => (Ok tt, addConsole s text w)).
Proof. apply keeps_same. intros w. eexists _, _, _. reflexivity. Qed.

Lemma keeps_existsSync path : keeps (existsSync path).
Proof. apply keeps_same. intros [d r k c l]. eexists _, _, _. reflexivity. Qed.

Lemma keeps_readFileSync path : keeps (readFileSync path).
Proof.
  apply keeps_same. intros [d r k c l]. unfold readFileSync. simpl.
  destruct (d !! path) as [[|content]|]; eexists _, _, _; reflexivity.
Qed.

Lemma keeps_askM q : keeps (askM q).
Proof.
  apply keeps_same. intros [d r k c l]. unfold askM. simpl.
  destruct (ask q k) as [res ks]. eexists _, _, _. reflexivity.
Qed.

Lemma insert_keeps (d : gmap string node) path n p :
  is_Some (d !! p) -> is_Some (<[path := n]> d !! p).
Proof.
  intros H. destruct (decide (path = p)) as [->|Hne].
  - rewrite lookup_insert_eq. eauto.
  - rewrite lookup_insert_ne by exact Hne. exact H.
Qed.

Lemma keeps_writeFileSync path content : keeps (writeFileSync path content).
Proof.
  intros [d rf k c l] r w' H. unfold writeFileSync in H. simpl in H.
  assert (Same : (r, w') = (r, World d rf k c l) ->
          (forall p, is_Some (d !! p) -> is_Some (disk w' !! p))
          /\ exists ops, fslog w' = l ++ ops
               /\ Forall (fun op => is_Some (disk w' !! opPath op)) ops).
  { intros E. injection E as ->. simpl. split; [auto|].
    exists []. rewrite app_nil_r. auto. }
  simpl.
  destruct (rf !! path); [injection H as <- <-; apply Same; reflexivity|].
  destruct (d !! path) as [[|old]|];
    try (injection H as <- <-; apply Same; reflexivity);
    injection H as <- <-; simpl; (split; [intros p; apply insert_keeps|]);
    exists [WriteFile path content]; (split; [reflexivity|]);
    repeat constructor; simpl; rewrite lookup_insert_eq; eauto.
Qed.

Lemma keeps_mkdirSync path : keeps (mkdirSync path).
Proof.
  intros [d rf k c l] r w' H. unfold mkdirSync in H. simpl in H.
  assert (Same : (r, w') = (r, World d rf k c l) ->
          (forall p, is_Some (d !! p) -> is_Some (disk w' !! p))
          /\ exists ops, fslog w' = l ++ ops
               /\ Forall (fun op => is_Some (disk w' !! opPath op)) ops).
  { intros E. injection E as ->. simpl. split; [auto|].
    exists []. rewrite app_nil_r. auto. }
  simpl.
  destruct (d !! path) as [[|old]|] eqn:E.
  - injection H as <- <-. simpl. split; [auto|].
    exists [Mkdir path]. split; [reflexivity|].
    repeat constructor. simpl. rewrite E. eauto.
  - injection H as <- <-. apply Same. reflexivity.
  - destruct (rf !! path); [injection H as <- <-; apply Same; reflexivity|].
    injection H as <- <-. simpl. split; [intros p; apply insert_keeps|].
    exists [Mkdir path]. split; [reflexivity|].
    repeat constructor. simpl. rewrite lookup_insert_eq. eauto.
Qed.

Create HintDb keep discriminated.

#[local] Hint Resolve keeps_ret keeps_throw keeps_existsSync keeps_readFileSync
  keeps_askM keeps_writeFileSync keeps_mkdirSync : keep.
#[local] Hint Extern 1 (keeps (console_log _)) => apply keeps_console : keep.
#[local] Hint Extern 1 (keeps (console_warn _)) => apply keeps_console : keep.
#[local] Hint Extern 1 (keeps (console_error _)) => apply keeps_console : keep.

Ltac keep :=
  repeat first
    [ apply keeps_bind; [|intros ?]
    | apply keeps_tryCatch; [|intros ?]
    | solve [auto with keep]
    | match goal with
      | |- keeps (if ?b then _ else _) => destruct b
      | |- keeps (match ?x with _ => _ end) => destruct x
      end ].

Lemma keeps_promptFrom questions answers : keeps (promptFrom answers questions).
Proof.
  revert answers. induction questions as [|q qs IH]; intros answers; simpl.
  - apply keeps_ret.
  - apply keeps_bind; [apply keeps_askM | intros a; apply IH].
Qed.

Lemma keeps_inquirer_prompt questions : keeps (inquirer_prompt questions).
Proof. apply keeps_promptFrom. Qed.

Lemma keeps_need property v : keeps (need property v).
Proof. destruct v; simpl; auto with keep. Qed.

Lemma keeps_findIn paths : keeps (findIn paths).
Proof. induction paths as [|p ps IH]; simpl; [apply keeps_ret|]. keep. Qed.

#[local] Hint Resolve keeps_inquirer_prompt keeps_need keeps_findIn : keep.

Lemma keeps_forEach {A} (f : A -> M unit) l :
  (forall x, keeps (f x)) -> keeps (forEach f l).
Proof.
  intros Hf. induction l as [|x l IH]; simpl; [apply keeps_ret|].
  apply keeps_bind; [apply Hf | intros _; exact IH].
Qed.

Section KeepingRun.

Variable h : host.
Variable folder : string.

Lemma keeps_saveConfig config : keeps (saveConfig h folder config).
Proof. unfold saveConfig. keep. Qed.

Lemma keeps_promptForBMDPath : keeps (promptForBMDPath h).
Proof.
  intros w r w' H. unfold promptForBMDPath in H.
  revert H. generalize (validateBMDPath h (disk w)). intros v H.
  assert (K : keeps
    (let* answers := inquirer_prompt
       [Question "customPath" Input
          "Please enter the path to your Bot Maker for Discord installation:"
          None v] in
     let* customPath := need "trim" (field answers "customPath") in
     ret (Str.trim customPath))) by keep.
  exact (K _ _ _ H).
Qed.

Lemma keeps_getBMDPath config : keeps (getBMDPath h folder config).
Proof.
  unfold getBMDPath. keep.
  all: first
    [ apply keeps_saveConfig
    | intros w r w' H; exact (keeps_inquirer_prompt _ _ _ _ H) ].
Qed.

Lemma keeps_createMod modType bmdPath modInfo :
  keeps (createMod h modType bmdPath modInfo).
Proof.
  unfold createMod, createActionMod, createEventMod, createAutomationMod,
    createThemeMod, createTranslationMod, processTemplate.
  cbn [forEach]. keep.
Qed.

Lemma keeps_mainTry : keeps (mainTry h folder).
Proof.
  unfold mainTry, mainCollect, mainGenerate, generateAt, loadConfig,
    promptForInitialInfo, promptForDetailedInfo.
  keep.
  all: first [ apply keeps_saveConfig | apply keeps_createMod | idtac ].
Qed.

(** X6.  Nothing [main] does removes a path, and nothing is rolled back: the
    paths on the disk at the start are on the disk at the end, and so is
    every directory made and every file written during the run, however the
    run ends. *)
Theorem main_removes_nothing (w : world) :
  (forall p, is_Some (disk w !! p) -> is_Some (disk (snd (main h folder w)) !! p))
  /\ exists ops,
       fslog (snd (main h folder w)) = fslog w ++ ops
       /\ Forall (fun op => is_Some (disk (snd (main h folder w)) !! opPath op)) ops.
Proof.
  unfold main. destruct (mainTry h folder w) as [[[]|error] w1] eqn:E;
    pose proof (keeps_mainTry _ _ _ E) as K; [exact K|].
  unfold mainCatch.
  destruct (String.eqb (name error) "ExitPromptError"); [exact K|].
  destruct (env_NODE_ENV h) as [mode|]; [|exact K].
  destruct (String.eqb mode "development"); exact K.
Qed.

End KeepingRun.

(** ** The installation path *)

Lemma ask_valid q ks answer ks' :
  ask q ks = (Ok answer, ks') ->
  q_type q = Input ->
  q_validate q answer = Accept.
Proof.
  intros H T. induction ks as [|k ks IH]; simpl in H; [discriminate|].
  rewrite T in H. destruct k as [text|index|]; [|auto|discriminate].
  destruct (q_validate q (if Str.isEmpty text then orEmpty (q_default q) else text))
    eqn:V; [|auto].
  injection H as <- <-. exact V.
Qed.

Lemma askM_Ok q w answer w' :
  askM q w = (Ok answer, w') ->
  exists ks, ask q (keys w) = (Ok answer, ks) /\ w' = setKeys ks w.
Proof.
  unfold askM. destruct (ask q (keys w)) as [r ks].
  intros H. injection H as -> <-. eauto.
Qed.

Lemma trim_nonempty s :
  Nat.eqb (String.length (Str.trim s)) 0 = false -> Str.trim s <> EmptyString.
Proof. intros H E. rewrite E in H. discriminate. Qed.

Lemma field_setField_same k v o : field (setField k v o) k = Some v.
Proof.
  induction o as [|[k' v'] o IH]; cbn [setField field].
  - rewrite String.eqb_refl. reflexivity.
  - destruct (String.eqb_spec k k') as [<-|Hk]; cbn [field].
    + rewrite String.eqb_refl. reflexivity.
    + destruct (String.eqb_spec k k'); [contradiction | exact IH].
Qed.

Lemma field_setField_other k v o k' :
  k' <> k -> field (setField k v o) k' = field o k'.
Proof.
  intros Hk. induction o as [|[k0 v0] o IH]; cbn [setField field].
  - destruct (String.eqb_spec k' k); [contradiction | reflexivity].
  - destruct (String.eqb_spec k k0) as [<-|Hk0]; cbn [field].
    + destruct (String.eqb_spec k' k); [contradiction | reflexivity].
    + destruct (String.eqb k' k0); [reflexivity | exact IH].
Qed.

Section PathFacts.

Variable h : host.
Variable folder : string.

Lemma validateBMDPath_Accept d input :
  validateBMDPath h d input = Accept -> validInstallation h d (Str.trim input).
Proof.
  unfold validateBMDPath, validInstallation.
  destruct (Str.isEmpty input || Nat.eqb (String.length (Str.trim input)) 0) eqn:E;
    [discriminate|].
  apply orb_false_iff in E as [_ E].
  destruct (bool_decide (is_Some (d !! Str.trim input))) eqn:P; [|discriminate].
  apply bool_decide_eq_true_1 in P. simpl.
  destruct (bool_decide
              (is_Some (d !! path_join h [Str.trim input; "Bot Maker For Discord.exe"])))
    eqn:X1.
  - apply bool_decide_eq_true_1 in X1. intros _.
    split; [apply trim_nonempty, E|]. auto.
  - destruct (bool_decide (is_Some (d !! path_join h [Str.trim input; "resources"])))
      eqn:X2; [|discriminate].
    apply bool_decide_eq_true_1 in X2. intros _.
    split; [apply trim_nonempty, E|]. auto.
Qed.

Lemma promptForBMDPath_Ok (w w' : world) (customPath : string) :
  promptForBMDPath h w = (Ok customPath, w') ->
  validInstallation h (disk w) customPath
  /\ disk w' = disk w /\ fslog w' = fslog w /\ refused w' = refused w.
Proof.
  unfold promptForBMDPath, inquirer_prompt. cbn [promptFrom]. intros H.
  apply bind_Ok in H as (answers & w1 & H1 & H).
  apply bind_Ok in H1 as (a & wa & Ha & H1). injection H1 as <- <-.
  simpl in H. rewrite bind_ret in H.
  injection H as <- <-.
  apply askM_Ok in Ha as (ks & Ha & ->).
  apply ask_valid in Ha; [|reflexivity]. cbn [q_validate] in Ha.
  split; [apply validateBMDPath_Accept, Ha|]. auto.
Qed.

(** X7.  A path the path prompt returns went through its validator: it is not
    empty, it is on the disk, and the executable or the [resources] folder
    of the application is in it.  Asking changes nothing on the disk. *)
Theorem promptForBMDPath_accepts (w w' : world) (customPath : string) :
  promptForBMDPath h w = (Ok customPath, w') ->
  validInstallation h (disk w) customPath
  /\ disk w' = disk w /\ fslog w' = fslog w /\ refused w' = refused w.
Proof. apply promptForBMDPath_Ok. Qed.

(** X8.  A saved path that is on the disk wins: [getBMDPath] returns it after
    one line on the console, without probing the known locations, asking
    the operator or writing anything. *)
Theorem getBMDPath_saved (config : obj) (w : world) :
  usableSavedPath config (disk w) = true ->
  exists bmdPath,
    field config "bmdPath" = Some bmdPath
    /\ getBMDPath h folder config w
       = (Ok bmdPath, addConsole Log ("Using saved BMD path: " +:+ bmdPath) w).
Proof.
  unfold usableSavedPath, getBMDPath. intros H.
  destruct (field config "bmdPath") as [bmdPath|]; [|discriminate].
  apply andb_true_iff in H as [He Hp].
  apply negb_true_iff in He. apply bool_decide_eq_true_1 in Hp.
  exists bmdPath. split; [reflexivity|].
  rewrite He. unfold bind. rewrite (existsSync_present _ _ Hp). reflexivity.
Qed.

Lemma usableSavedPath_false config w :
  usableSavedPath config (disk w) = false ->
  match field config "bmdPath" with
  | Some bmdPath =>
      if Str.isEmpty bmdPath then ret false else existsSync bmdPath
  | None => ret false
  end w = (Ok false, w).
Proof.
  unfold usableSavedPath.
  destruct (field config "bmdPath") as [bmdPath|]; [|reflexivity].
  destruct (Str.isEmpty bmdPath); [reflexivity|]. simpl.
  unfold existsSync. intros ->. reflexivity.
Qed.

(** X9.  With no usable saved path and none of the known locations on the disk,
    [getBMDPath] returns what the operator entered, and on a disk that lets
    the configuration file be written the file then holds the
    configuration with [bmdPath] set to that path and every other key as it
    was. *)
Theorem getBMDPath_asked (config : obj) (w w' : world) (userPath : string) :
  usableSavedPath config (disk w) = false ->
  Forall (fun path => disk w !! path = None) COMMON_BMD_PATHS ->
  writable w (configFile h folder) ->
  configFile h folder <> folder ->
  getBMDPath h folder config w = (Ok userPath, w') ->
  validInstallation h (disk w) userPath
  /\ disk w' !! configFile h folder
     = Some (File (JSON_stringify h (setField "bmdPath" userPath config)))
  /\ field (setField "bmdPath" userPath config) "bmdPath" = Some userPath
  /\ forall k, k <> "bmdPath" ->
       field (setField "bmdPath" userPath config) k = field config k.
Proof.
  intros Hu Hnone [Wr Wd] Hne H. unfold getBMDPath in H.
  apply bind_Ok in H as (saved & w0 & Hs & H).
  rewrite (usableSavedPath_false _ _ Hu) in Hs. injection Hs as <- <-.
  cbv iota in H.
  apply bind_Ok in H as (found & w1 & Hf & H).
  unfold findBMDInstallation in Hf. rewrite (findIn_none _ _ Hnone) in Hf.
  injection Hf as <- <-.
  apply bind_Ok in H as ([] & w2 & Hl & H). injection Hl as <-.
  apply bind_Ok in H as (asked & w3 & Hp & H).
  apply promptForBMDPath_Ok in Hp as (Hv & D3 & _ & R3).
  apply bind_Ok in H as ([] & w4 & Hsave & H).
  apply bind_Ok in H as ([] & w5 & Hl & H). injection Hl as <-.
  injection H as <- <-. simpl in Hv, D3, R3.
  split; [exact Hv|]. split.
  - simpl. eapply saveConfig_writes; [exact Hsave | | exact Hne].
    split; [congruence | rewrite D3; exact Wd].
  - split; [apply field_setField_same | intros k Hk; apply field_setField_other, Hk].
Qed.

(** X10.  Whatever branch of [getBMDPath] gives the path, the path it returns is
    on the disk when it returns. *)
Theorem getBMDPath_exists (config : obj) (w w' : world) (bmdPath : string) :
  getBMDPath h folder config w = (Ok bmdPath, w') ->
  is_Some (disk w' !! bmdPath).
Proof.
  intros H. unfold getBMDPath in H.
  apply bind_Ok in H as (saved & w0 & Hs & H).
  assert (S0 : w0 = w /\ (saved = true ->
                exists p, field config "bmdPath" = Some p /\ is_Some (disk w !! p))).
  { destruct (field config "bmdPath") as [p|].
    - destruct (Str.isEmpty p).
      + injection Hs as <- <-. split; [reflexivity | discriminate].
      + unfold existsSync in Hs. injection Hs as <- <-.
        split; [reflexivity|]. intros T. apply bool_decide_eq_true_1 in T. eauto.
    - injection Hs as <- <-. split; [reflexivity | discriminate]. }
  destruct S0 as [-> S0]. destruct saved.
  - destruct (S0 eq_refl) as (p & Fp & Hp). rewrite Fp in H. simpl in H.
    apply bind_Ok in H as ([] & w1 & Hl & H). injection Hl as <-.
    injection H as <- <-. exact Hp.
  - apply bind_Ok in H as (found & w1 & Hf & H).
    destruct found as [p|].
    + injection H as <- <-. clear S0 Hs.
      unfold findBMDInstallation in Hf. revert Hf.
      induction COMMON_BMD_PATHS as [|q qs IH]; simpl; [discriminate|].
      unfold bind, existsSync.
      destruct (bool_decide (is_Some (disk w !! q))) eqn:E.
      * intros Hf. injection Hf as <- <-. simpl.
        apply bool_decide_eq_true_1 in E. exact E.
      * exact IH.
    + apply bind_Ok in H as ([] & w2 & Hl & H). injection Hl as <-.
      apply bind_Ok in H as (asked & w3 & Hp & H).
      apply promptForBMDPath_Ok in Hp as ((_ & Hv & _) & D3 & _).
      apply bind_Ok in H as ([] & w4 & Hsave & H).
      apply bind_Ok in H as ([] & w5 & Hl & H). injection Hl as <-.
      injection H as <- <-. simpl.
      apply (proj1 (keeps_saveConfig h folder _ _ _ _ Hsave)).
      rewrite D3. exact Hv.
Qed.

End PathFacts.

(** ** Detection *)

Lemma findIn_first_match paths w :
  exists found w',
    findIn paths w = (Ok found, w')
    /\ disk w' = disk w /\ fslog w' = fslog w /\ keys w' = keys w
    /\ match found with
       | None =>
           Forall (fun path => disk w !! path = None) paths
           /\ console w' = console w
       | Some bmdPath =>
           exists before after,
             paths = before ++ bmdPath :: after
             /\ Forall (fun path => disk w !! path = None) before
             /\ is_Some (disk w !! bmdPath)
             /\ console w'
                = console w ++ [(Log, "Found BMD installation at: " +:+ bmdPath)]
       end.
Proof.
  induction paths as [|p ps IH]; simpl.
  - exists None, w. repeat split; auto.
  - unfold bind. destruct (disk w !! p) as [n|] eqn:E.
    + rewrite existsSync_present by (rewrite E; eauto).
      exists (Some p). eexists. split; [reflexivity|]. simpl.
      repeat split; auto. exists [], ps. rewrite E. repeat split; eauto.
    + rewrite (existsSync_absent _ _ E).
      destruct IH as (found & w' & Hf & D & L & K & Hm).
      exists found, w'. repeat split; auto.
      destruct found as [q|].
      * destruct Hm as (before & after & -> & Hb & Hq & Hc).
        exists (p :: before), after. repeat split; auto.
      * destruct Hm as [Hn Hc]. split; auto.
Qed.

(** X11.  [findBMDInstallation] never throws and changes nothing but the console.
    It yields the first of [COMMON_BMD_PATHS] that is on the disk, in the
    order of the list, with one line on the console, and nothing when none
    of them is on the disk. *)
Theorem findBMDInstallation_first (w : world) :
  exists found w',
    findBMDInstallation w = (Ok found, w')
    /\ disk w' = disk w /\ fslog w' = fslog w /\ keys w' = keys w
    /\ match found with
       | None =>
           Forall (fun path => disk w !! path = None) COMMON_BMD_PATHS
           /\ console w' = console w
       | Some bmdPath =>
           exists before after,
             COMMON_BMD_PATHS = before ++ bmdPath :: after
             /\ Forall (fun path => disk w !! path = None) before
             /\ is_Some (disk w !! bmdPath)
             /\ console w'
                = console w ++ [(Log, "Found BMD installation at: " +:+ bmdPath)]
       end.
Proof. apply findIn_first_match. Qed.

(** ** The configuration file *)

Section ConfigFacts.

Variable h : host.
Variable folder : string.

Lemma ensureConfigFolderExists_present w :
  is_Some (disk w !! folder) ->
  ensureConfigFolderExists folder w = (Ok tt, w).
Proof.
  intros H. unfold ensureConfigFolderExists, bind.
  rewrite (existsSync_present _ _ H). reflexivity.
Qed.

(** X12.  Making sure of the configuration folder twice is making sure of it
    once: when it returns, the folder is on the disk and a second call does
    nothing. *)
Theorem ensureConfigFolderExists_idempotent (w w1 : world) :
  ensureConfigFolderExists folder w = (Ok tt, w1) ->
  is_Some (disk w1 !! folder)
  /\ ensureConfigFolderExists folder w1 = (Ok tt, w1).
Proof.
  intros H.
  assert (P : is_Some (disk w1 !! folder)).
  { unfold ensureConfigFolderExists, bind in H.
    destruct (disk w !! folder) as [n|] eqn:E.
    - rewrite existsSync_present in H by (rewrite E; eauto).
      injection H as <-. rewrite E. eauto.
    - rewrite (existsSync_absent _ _ E) in H. simpl in H.
      unfold mkdirSync in H. rewrite E in H.
      destruct (refused w !! folder); [discriminate|].
      injection H as <-. simpl. rewrite lookup_insert_eq. eauto. }
  split; [exact P | apply ensureConfigFolderExists_present, P].
Qed.

(** X13.  A refused write of the configuration file is not an error of
    [saveConfig]: with the folder in place it warns and returns, and the
    world is otherwise as it was.  A refused creation of the folder is: it
    happens outside the [try] block and [saveConfig] throws. *)
Theorem saveConfig_refusals (config : obj) (w : world) (why : string) :
  (is_Some (disk w !! folder) ->
   refused w !! configFile h folder = Some why ->
   saveConfig h folder config w
   = (Ok tt, addConsole Warn ("Warning: Could not save config file: " +:+ why) w))
  /\ (disk w !! folder = None ->
      refused w !! folder = Some why ->
      saveConfig h folder config w = (Throw (Error why), w)).
Proof.
  unfold saveConfig, bind. split.
  - intros Hf Hr. rewrite (ensureConfigFolderExists_present _ Hf).
    unfold tryCatch, writeFileSync. rewrite Hr. reflexivity.
  - intros Hf Hr. unfold ensureConfigFolderExists, bind.
    rewrite (existsSync_absent _ _ Hf). simpl.
    unfold mkdirSync. rewrite Hf, Hr. reflexivity.
Qed.

(** X14.  A configuration that was saved is the one that is loaded next, on a
    host whose [JSON.parse] reads back what its [JSON.stringify] wrote for
    it; loading reports nothing and changes nothing. *)
Theorem saveConfig_loadConfig (config : obj) (w w1 : world) :
  saveConfig h folder config w = (Ok tt, w1) ->
  writable w (configFile h folder) ->
  configFile h folder <> folder ->
  JSON_parse h (JSON_stringify h config) = inr config ->
  loadConfig h folder w1 = (Ok config, w1).
Proof.
  intros Hs Hw Hne Hj.
  rewrite loadConfig_eq, (saveConfig_writes _ _ _ _ _ Hs Hw Hne), Hj.
  reflexivity.
Qed.

(** X15.  When the configuration folder is missing and cannot be made, [main]
    ends with status 1 before it asks anything: the script of the operator
    is untouched, nothing is written and the error is on the console. *)
Theorem main_without_config_folder (w : world) (why : string) :
  disk w !! folder = None ->
  refused w !! folder = Some why ->
  fst (main h folder w) = Exited 1
  /\ keys (snd (main h folder w)) = keys w
  /\ disk (snd (main h folder w)) = disk w
  /\ fslog (snd (main h folder w)) = fslog w
  /\ In (Err, why) (console (snd (main h folder w))).
Proof.
  intros Hf Hr.
  assert (E : mainTry h folder w = (Throw (Error why), addConsole Log " " w)).
  { unfold mainTry, mainCollect, bind, console_log, ensureConfigFolderExists, bind.
    rewrite existsSync_absent by exact Hf. simpl.
    unfold mkdirSync. simpl. rewrite Hf, Hr. reflexivity. }
  unfold main. rewrite E. unfold mainCatch. simpl.
  destruct (env_NODE_ENV h) as [mode|]; [destruct (String.eqb mode "development")|];
    simpl; repeat split; auto; rewrite !in_app_iff; simpl; tauto.
Qed.

End ConfigFacts.

(** ** Loading the module *)

(** X16.  On Windows the configuration folder is [create-bmd] under [APPDATA].
    When that variable is unset or empty the module fails to load: the
    program ends with status 1 and has done nothing. *)
Theorem program_on_win32 (h : host) (w : world) :
  os_platform h = Win32 ->
  (orEmpty (env_APPDATA h) = EmptyString -> program h w = (Exited 1, w))
  /\ (forall appData,
        env_APPDATA h = Some appData -> appData <> EmptyString ->
        program h w = main h (path_join h [appData; "create-bmd"]) w).
Proof.
  intros P. unfold program, getAppDataFolder. rewrite P. split.
  - destruct (env_APPDATA h) as [a|]; [|reflexivity].
    simpl. intros ->. reflexivity.
  - intros a -> Ha. destruct a; [contradiction | reflexivity].
Qed.

(** ** Generators *)

Section GeneratorFacts.

Variable h : host.

Lemma file_types type descriptor :
  lookupType MOD_TYPES type = Some descriptor ->
  isFolder descriptor = false ->
  (type = "Action" /\ descriptor = MOD_Action)
  \/ (type = "Event" /\ descriptor = MOD_Event).
Proof.
  unfold MOD_TYPES. cbn [lookupType].
  repeat
    (match goal with
     | |- context [String.eqb type ?k] => destruct (String.eqb_spec type k)
     end;
     [ intros H; injection H as <-; subst type; intros F;
       first [discriminate F | auto 6] | ]).
  discriminate.
Qed.

Lemma processTemplate_eq templatePath replacements w :
  processTemplate templatePath replacements w
  = match disk w !! templatePath with
    | Some (File content) => (Ok (applyReplacements content replacements), w)
    | Some Dir =>
        (Throw (Error ("Failed to process template " +:+ templatePath +:+ ": "
                         +:+ "EISDIR: illegal operation on a directory, read")), w)
    | None =>
        (Throw (Error ("Failed to process template " +:+ templatePath +:+ ": "
                         +:+ "ENOENT: no such file or directory, open '"
                         +:+ templatePath +:+ "'")), w)
    end.
Proof.
  unfold processTemplate, tryCatch, bind, readFileSync.
  destruct (disk w !! templatePath) as [[|content]|]; reflexivity.
Qed.

Lemma single_file_run (templatePath file : string)
    (replacements : list (string * option string)) (banner : string)
    (w w' : world) (r : result unit) :
  (let* content := processTemplate templatePath replacements in
   writeFileSync file content ;; console_log banner) w = (r, w') ->
  match r with
  | Ok _ =>
      exists text,
        disk w !! templatePath = Some (File text)
        /\ fslog w' = fslog w ++ [WriteFile file (applyReplacements text replacements)]
        /\ disk w' = <[file := File (applyReplacements text replacements)]> (disk w)
  | Throw error =>
      disk w' = disk w /\ fslog w' = fslog w
      /\ (disk w !! templatePath = None ->
          message error
          = "Failed to process template " +:+ templatePath +:+ ": "
              +:+ "ENOENT: no such file or directory, open '" +:+ templatePath +:+ "'")
  end.
Proof.
  unfold bind. rewrite processTemplate_eq. unfold writeFileSync.
  destruct (disk w !! templatePath) as [[|text]|] eqn:T; simpl.
  - intros H. injection H as <- <-. repeat split; auto. discriminate.
  - destruct (refused w !! file).
    + intros H. injection H as <- <-. repeat split; auto. discriminate.
    + destruct (disk w !! file) as [[|old]|]; intros H; injection H as <- <-;
        simpl; eauto; repeat split; auto; discriminate.
  - intros H. injection H as <- <-. repeat split; auto.
Qed.

(** X17.  The generators of the single-file types, Action and Event, write all
    or nothing.  A run that goes well makes one call, the write of
    [<camel-cased name>_MOD.js] in the output directory of the type, with
    the text of the template of the type after substitution.  A run that
    throws leaves the disk as it was, and when the template is missing the
    message names the template and the missing file. *)
Theorem single_file_mods
    (type name bmdPath : string) (descriptor : modType) (modInfo : obj)
    (w w' : world) (r : result unit) :
  field modInfo "modName" = Some name ->
  lookupType MOD_TYPES type = Some descriptor ->
  isFolder descriptor = false ->
  createMod h (Some type) bmdPath modInfo w = (r, w') ->
  let file :=
    path_join h [bmdPath; outputPath descriptor; toCamelCase h name +:+ "_MOD.js"] in
  let templatePath := path_join h [module_dirname h; "templates"; type +:+ ".js"] in
  match r with
  | Ok _ =>
      exists text,
        disk w !! templatePath = Some (File text)
        /\ fslog w'
           = fslog w
               ++ [WriteFile file
                     (applyReplacements text (fileReplacements descriptor modInfo))]
        /\ disk w'
           = <[file := File (applyReplacements text
                               (fileReplacements descriptor modInfo))]> (disk w)
  | Throw error =>
      disk w' = disk w /\ fslog w' = fslog w
      /\ (disk w !! templatePath = None ->
          message error
          = "Failed to process template " +:+ templatePath +:+ ": "
              +:+ "ENOENT: no such file or directory, open '" +:+ templatePath +:+ "'")
  end.
Proof.
  intros N T F H.
  destruct (file_types _ _ T F) as [[-> ->]|[-> ->]].
  - change (createMod h (Some "Action") bmdPath modInfo)
      with (createActionMod h bmdPath modInfo) in H.
    unfold createActionMod in H. rewrite N in H. cbn [need] in H.
    rewrite bind_ret in H.
    unfold fileReplacements, commonReplacements.
    cbn [requiresCategory MOD_Action MOD_Event]. rewrite N.
    exact (single_file_run _ _ _ _ _ _ _ H).
  - change (createMod h (Some "Event") bmdPath modInfo)
      with (createEventMod h bmdPath modInfo) in H.
    unfold createEventMod, commonReplacements in H. rewrite N in H. cbn [need] in H.
    rewrite bind_ret in H.
    unfold fileReplacements, commonReplacements.
    cbn [requiresCategory MOD_Action MOD_Event]. rewrite N.
    exact (single_file_run _ _ _ _ _ _ _ H).
Qed.


Lemma mkdirSync_disk path w w' :
  mkdirSync path w = (Ok tt, w') ->
  disk w' !! path = Some Dir
  /\ forall p, p <> path -> disk w' !! p = disk w !! p.
Proof.
  unfold mkdirSync. destruct (disk w !! path) as [[|old]|] eqn:E; intros H;
    try discriminate.
  - injection H as <-. simpl. auto.
  - destruct (refused w !! path); [discriminate|].
    injection H as <-. simpl. split; [apply lookup_insert_eq|].
    intros p Hp. apply lookup_insert_ne. congruence.
Qed.

Lemma asset_copy (dir dataTemplate assetTemplate dataFile assetFile banner : string)
    (replacements : list (string * option string)) (w w' : world) :
  (mkdirSync dir ;;
   let* dataContent := processTemplate dataTemplate replacements in
   let* assetContent := readFileSync assetTemplate in
   writeFileSync dataFile dataContent ;;
   writeFileSync assetFile assetContent ;;
   console_log banner) w = (Ok tt, w') ->
  exists text,
    disk w !! assetTemplate = Some (File text)
    /\ disk w' !! assetFile = Some (File text).
Proof.
  intros H.
  apply bind_Ok in H as ([] & w1 & Hm & H).
  apply bind_Ok in H as (dataContent & w2 & Hp & H).
  apply processTemplate_Ok in Hp as ->.
  apply bind_Ok in H as (assetContent & w3 & Hr & H).
  apply readFileSync_Ok in Hr as [-> Hr].
  apply bind_Ok in H as ([] & w4 & Hw1 & H).
  apply bind_Ok in H as ([] & w5 & Hw2 & H).
  apply writeFileSync_Ok in Hw2 as ->. injection H as <-.
  exists assetContent. split; [|simpl; apply lookup_insert_eq].
  destruct (mkdirSync_disk _ _ _ Hm) as [Hd Ho].
  rewrite <- Ho; [exact Hr|]. intros ->. congruence.
Qed.

(** X19.  A theme or a translation that was generated holds its static asset
    ([theme.css], [strings.json]) as it is in the templates, without any
    substitution. *)
Theorem folder_mods_copy_asset
    (type output asset name bmdPath : string) (modInfo : obj) (w w' : world) :
  (type = "Theme" /\ output = "Themes" /\ asset = "theme.css")
  \/ (type = "Translation" /\ output = "Translations" /\ asset = "strings.json") ->
  field modInfo "modName" = Some name ->
  createMod h (Some type) bmdPath modInfo w = (Ok tt, w') ->
  exists text,
    disk w !! path_join h [module_dirname h; "templates"; type; asset]
    = Some (File text)
    /\ disk w'
         !! path_join h
              [ path_join h [bmdPath; output; sanitizeFolderName name]; asset ]
       = Some (File text).
Proof.
  intros [(-> & -> & ->)|(-> & -> & ->)] N H.
  - change (createMod h (Some "Theme") bmdPath modInfo)
      with (createThemeMod h bmdPath modInfo) in H.
    unfold createThemeMod in H. rewrite N in H. cbn [need] in H.
    rewrite bind_ret in H.
    exact (asset_copy _ _ _ _ _ _ _ _ _ H).
  - change (createMod h (Some "Translation") bmdPath modInfo)
      with (createTranslationMod h bmdPath modInfo) in H.
    unfold createTranslationMod in H. rewrite N in H. cbn [need] in H.
    rewrite bind_ret in H.
    exact (asset_copy _ _ _ _ _ _ _ _ _ H).
Qed.

End GeneratorFacts.

(** ** How a run ends *)

Section Raising.

Context {A B : Type}.
Variable Q : exn -> Prop.

Lemma raises_bind (m : M A) (k : A -> M B) :
  raises Q m -> (forall a, raises Q (k a)) -> raises Q (bind m k).
Proof.
  intros Hm Hk w e w' H. unfold bind in H.
  destruct (m w) as [[a|e0] w1] eqn:E.
  - eapply Hk, H.
  - injection H as <- <-. eapply Hm, E.
Qed.

Lemma raises_tryCatch (m : M A) (handler : exn -> M A) :
  (forall e, raises Q (handler e)) -> raises Q (tryCatch m handler).
Proof.
  intros Hh w e w' H. unfold tryCatch in H.
  destruct (m w) as [[a|e0] w1]; [discriminate | eapply Hh, H].
Qed.

Lemma raises_never (m : M A) :
  (forall w, exists a w', m w = (Ok a, w')) -> raises Q m.
Proof. intros Hm w e w' H. destruct (Hm w) as (a & w1 & E). congruence. Qed.

Lemma raises_throw (e : exn) : Q e -> raises Q (@throw A e).
Proof. intros He w e' w' H. injection H as <- _. exact He. Qed.

End Raising.

Lemma raises_ret {A} Q (a : A) : raises Q (ret a).
Proof. apply raises_never. intros w. eauto. Qed.

Lemma raises_console Q (s : stream) text :
  raises Q (fun w => (Ok tt, addConsole s text w)).
Proof. apply raises_never. intros w. eauto. Qed.

Lemma raises_existsSync Q path : raises Q (existsSync path).
Proof. apply raises_never. intros w. unfold existsSync. eauto. Qed.

Lemma notCancel_Error message : notCancel (Error message).
Proof. unfold notCancel. simpl. discriminate. Qed.

Lemma notCancel_TypeError message : notCancel (TypeError message).
Proof. unfold notCancel. simpl. discriminate. Qed.

Lemma raises_readFileSync path : raises notCancel (readFileSync path).
Proof.
  intros w e w' H. unfold readFileSync in H.
  destruct (disk w !! path) as [[|c]|]; try discriminate;
    injection H as <- _; apply notCancel_Error.
Qed.

Lemma raises_writeFileSync path content :
  raises notCancel (writeFileSync path content).
Proof.
  intros w e w' H. unfold writeFileSync in H.
  destruct (refused w !! path); [injection H as <- _; apply notCancel_Error|].
  destruct (disk w !! path) as [[|c]|]; try discriminate.
  injection H as <- _. apply notCancel_Error.
Qed.

Lemma raises_mkdirSync path : raises notCancel (mkdirSync path).
Proof.
  intros w e w' H. unfold mkdirSync in H.
  destruct (disk w !! path) as [[|c]|]; try discriminate.
  - injection H as <- _. apply notCancel_Error.
  - destruct (refused w !! path); [|discriminate].
    injection H as <- _. apply notCancel_Error.
Qed.

Lemma raises_need property v : raises notCancel (need property v).
Proof.
  destruct v; simpl; [apply raises_ret | apply raises_throw, notCancel_TypeError].
Qed.

Lemma raises_findIn paths : raises notCancel (findIn paths).
Proof.
  apply raises_never. intros w.
  destruct (findIn_first_match paths w) as (found & w' & H & _). eauto.
Qed.

Create HintDb raise discriminated.

#[local] Hint Resolve raises_ret raises_existsSync raises_readFileSync
  raises_writeFileSync raises_mkdirSync raises_need raises_findIn
  notCancel_Error notCancel_TypeError : raise.
#[local] Hint Extern 1 (raises _ (console_log _)) => apply raises_console : raise.
#[local] Hint Extern 1 (raises _ (console_warn _)) => apply raises_console : raise.
#[local] Hint Extern 1 (raises _ (console_error _)) => apply raises_console : raise.
#[local] Hint Extern 1 (raises _ (throw _)) => apply raises_throw : raise.

Ltac raise :=
  repeat first
    [ apply raises_bind; [|intros ?]
    | apply raises_tryCatch; intros ?
    | solve [auto with raise]
    | match goal with
      | |- raises _ (if ?b then _ else _) => destruct b
      | |- raises _ (match ?x with _ => _ end) => destruct x
      end ].

Section EndingFacts.

Variable h : host.
Variable folder : string.

Lemma raises_createMod modType bmdPath modInfo :
  raises notCancel (createMod h modType bmdPath modInfo).
Proof.
  unfold createMod, createActionMod, createEventMod, createAutomationMod,
    createThemeMod, createTranslationMod, processTemplate.
  cbn [forEach]. raise.
Qed.

Lemma raises_mainGenerate modInfo :
  raises notCancel (mainGenerate h folder modInfo).
Proof.
  unfold mainGenerate, findBMDInstallation, generateAt. raise.
  all: apply raises_createMod.
Qed.

(** X20.  An exception during detection and generation is never taken for a
    cancellation: the run ends with status 1 and the message of the error
    on the console, and the disk stays as generation left it. *)
Theorem main_generation_failure
    (w w1 w2 : world) (modInfo : obj) (error : exn) :
  mainCollect h folder w = (Ok modInfo, w1) ->
  mainGenerate h folder modInfo w1 = (Throw error, w2) ->
  fst (main h folder w) = Exited 1
  /\ disk (snd (main h folder w)) = disk w2
  /\ fslog (snd (main h folder w)) = fslog w2
  /\ In (Err, message error) (console (snd (main h folder w))).
Proof.
  intros Hc Hg.
  pose proof (raises_mainGenerate _ _ _ _ Hg) as Hn.
  unfold main, mainTry. rewrite (bind_run _ _ _ _ _ Hc), Hg.
  unfold mainCatch.
  destruct (String.eqb_spec (name error) "ExitPromptError") as [E|_];
    [contradiction|].
  destruct (env_NODE_ENV h) as [mode|]; [destruct (String.eqb mode "development")|];
    simpl; repeat split; auto; rewrite !in_app_iff; simpl; tauto.
Qed.

Lemma ensureConfigFolderExists_able w :
  (is_Some (disk w !! folder) \/ refused w !! folder = None) ->
  exists w1,
    ensureConfigFolderExists folder w = (Ok tt, w1)
    /\ keys w1 = keys w /\ console w1 = console w
    /\ exists ops,
         fslog w1 = fslog w ++ ops /\ Forall (fun op => op = Mkdir folder) ops.
Proof.
  intros Hf. destruct (disk w !! folder) as [n|] eqn:Hd.
  - exists w. rewrite ensureConfigFolderExists_present by (rewrite Hd; eauto).
    repeat split; auto. exists []. rewrite app_nil_r. auto.
  - destruct Hf as [[n Hn]|Hf]; [discriminate|].
    unfold ensureConfigFolderExists, bind.
    rewrite (existsSync_absent _ _ Hd). simpl.
    unfold mkdirSync. rewrite Hd, Hf.
    eexists. split; [reflexivity|]. simpl. repeat split; auto.
    exists [Mkdir folder]. auto.
Qed.

(** X21.  An operator who interrupts the first prompt, or has left, ends the run
    with status 0 when the configuration folder is there or can be made: no
    file is written, at most the folder is made, and the last line on the
    console says that the operation was cancelled. *)
Theorem main_cancelled_at_first_prompt (w : world) :
  (keys w = [] \/ exists rest, keys w = Interrupt :: rest) ->
  (is_Some (disk w !! folder) \/ refused w !! folder = None) ->
  fst (main h folder w) = Exited 0
  /\ (exists ops,
        fslog (snd (main h folder w)) = fslog w ++ ops
        /\ Forall (fun op => op = Mkdir folder) ops)
  /\ exists lines,
       console (snd (main h folder w))
       = lines ++ [(Log, LF +:+ "❌ Operation cancelled by user")].
Proof.
  intros Hk Hf.
  assert (E : exists w1,
             mainTry h folder w = (Throw ExitPromptError, w1)
             /\ exists ops,
                  fslog w1 = fslog w ++ ops /\ Forall (fun op => op = Mkdir folder) ops).
  { destruct (ensureConfigFolderExists_able (addConsole Log " " w) Hf)
      as (w1 & He & K1 & _ & Hops).
    simpl in K1, Hops.
    assert (P : forall w2 : world, keys w2 = keys w ->
              promptForInitialInfo w2 = (Throw ExitPromptError,
                                         setKeys (tl (keys w)) w2)).
    { intros w2 K2. unfold promptForInitialInfo, inquirer_prompt.
      cbn [promptFrom]. unfold bind, askM. rewrite K2.
      destruct Hk as [->|[rest ->]]; reflexivity. }
    unfold mainTry, mainCollect.
    unfold bind at 1 2 3. unfold console_log. rewrite He.
    unfold bind at 1. rewrite loadConfig_eq.
    destruct (disk w1 !! configFile h folder) as [[|text]|];
      [| destruct (JSON_parse h text) |];
      unfold bind; rewrite P by (simpl; exact K1);
      eexists; (split; [reflexivity|]); simpl; exact Hops. }
  destruct E as (w1 & E & ops & L & F).
  unfold main. rewrite E. unfold mainCatch. simpl.
  split; [reflexivity|]. split; [eauto|]. eauto.
Qed.

End EndingFacts.

(** ** Answers *)

Lemma required_Accept why input :
  required why input = Accept <-> Str.trim input <> EmptyString.
Proof.
  unfold required. split.
  - destruct (Str.isEmpty input || Nat.eqb (String.length (Str.trim input)) 0) eqn:E;
      [discriminate|].
    apply orb_false_iff in E as [_ E]. intros _. apply trim_nonempty, E.
  - intros H. destruct input as [|c s]; [contradiction|]. simpl Str.isEmpty.
    destruct (Str.trim (String c s)) as [|c' s']; [contradiction | reflexivity].
Qed.

Lemma askM_valid q w answer w' :
  askM q w = (Ok answer, w') ->
  q_type q = Input ->
  q_validate q answer = Accept.
Proof.
  intros H T. apply askM_Ok in H as (ks & H & _). eapply ask_valid; eauto.
Qed.

(** X22.  The answers to the required questions are never blank: the merged mod
    information has a name and an author with something other than
    whitespace in them, and so is its category when it has one. *)
Theorem modInfo_required_fields
    (config initialAnswers detailedAnswers : obj) (w w1 w2 : world) :
  promptForInitialInfo w = (Ok initialAnswers, w1) ->
  promptForDetailedInfo initialAnswers config w1 = (Ok detailedAnswers, w2) ->
  exists modName modAuthor,
    field (spread initialAnswers detailedAnswers) "modName" = Some modName
    /\ Str.trim modName <> EmptyString
    /\ field (spread initialAnswers detailedAnswers) "modAuthor" = Some modAuthor
    /\ Str.trim modAuthor <> EmptyString
    /\ forall modCategory,
         field (spread initialAnswers detailedAnswers) "modCategory" = Some modCategory ->
         Str.trim modCategory <> EmptyString.
Proof.
  intros H1 H2.
  unfold promptForInitialInfo, inquirer_prompt in H1. cbn [promptFrom] in H1.
  apply bind_Ok in H1 as (modName & wa & Hn & H1).
  apply bind_Ok in H1 as (type & wb & Ht & H1).
  injection H1 as <- _.
  apply askM_valid in Hn; [|reflexivity]. apply required_Accept in Hn.
  apply askM_choice with (choices := List.map fst MOD_TYPES) in Ht; [|reflexivity].
  unfold promptForDetailedInfo in H2. simpl in H2, Ht.
  assert (D : forall answers wx wy detailed,
             promptFrom answers
               [ Question "modDescription" Input "How would you describe your mod?"
                   (Some "Created with create-bmd") noValidate;
                 Question "modAuthor" Input "Who is the author of this mod?"
                   (Some (orElse (field config "author") "Your Name"))
                   (required "Author name is required!");
                 Question "modDonation" Input
                   "Where can users donate to support you? (Leave empty if none)"
                   (Some (orElse (field config "donation") EmptyString)) noValidate ]
               wx = (Ok detailed, wy) ->
             exists description author donation,
               detailed
               = setField "modDonation" donation
                   (setField "modAuthor" author
                      (setField "modDescription" description answers))
               /\ Str.trim author <> EmptyString).
  { intros answers wx wy detailed H. cbn [promptFrom] in H.
    apply bind_Ok in H as (a1 & ? & _ & H).
    apply bind_Ok in H as (a2 & ? & Ha & H).
    apply bind_Ok in H as (a3 & ? & _ & H).
    injection H as <- _.
    apply askM_valid in Ha; [|reflexivity]. apply required_Accept in Ha.
    exists a1, a2, a3. auto. }
  destruct Ht as [<-|[<-|[<-|[<-|[<-|[]]]]]]; simpl in H2.
  1: { unfold inquirer_prompt in H2. cbn [promptFrom] in H2.
       apply bind_Ok in H2 as (category & wc & Hc & H2).
       apply askM_valid in Hc; [|reflexivity]. apply required_Accept in Hc.
       apply D in H2 as (a1 & a2 & a3 & -> & Ha).
       exists modName, a2. simpl. repeat split; auto.
       intros c E. injection E as <-. exact Hc. }
  all: apply D in H2 as (a1 & a2 & a3 & -> & Ha);
    exists modName, a2; simpl; repeat split; auto; discriminate.
Qed.

Lemma promptFrom_cons answers q questions :
  promptFrom answers (q :: questions)
  = (let* answer := askM q in
     promptFrom (setField (q_name q) answer answers) questions).
Proof. reflexivity. Qed.

Lemma askM_default q text rest w :
  keys w = Line EmptyString :: rest ->
  q_type q = Input ->
  q_default q = Some text ->
  q_validate q text = Accept ->
  askM q w = (Ok text, setKeys rest w).
Proof.
  intros K T D V. unfold askM. rewrite K. destruct q as [n t m d v].
  simpl in *. subst. simpl. rewrite V. reflexivity.
Qed.

(** X23.  An operator who only presses Enter at the detail questions gets the
    defaults: the category of the descriptor when the type has one, the
    stock description, the author and the donation link remembered in the
    configuration, or [Your Name] and nothing when it remembers none.  The
    remembered author has to be more than whitespace, since a blank default
    does not pass the validator of the question. *)
Theorem promptForDetailedInfo_defaults
    (config initialAnswers : obj) (type : string) (descriptor : modType)
    (w : world) (rest : list key) :
  field initialAnswers "modType" = Some type ->
  lookupType MOD_TYPES type = Some descriptor ->
  Str.trim (orElse (field config "author") "Your Name") <> EmptyString ->
  keys w
  = List.repeat (Line EmptyString) (if requiresCategory descriptor then 4 else 3)
      ++ rest ->
  promptForDetailedInfo initialAnswers config w
  = (Ok ((if requiresCategory descriptor
          then [("modCategory", orEmpty (defaultCategory descriptor))]
          else [])
           ++ [ ("modDescription", "Created with create-bmd");
                ("modAuthor", orElse (field config "author") "Your Name");
                ("modDonation", orElse (field config "donation") EmptyString) ]),
     setKeys rest w).
Proof.
  intros T L A K.
  assert (D : forall answers wx,
             keys wx = List.repeat (Line EmptyString) 3 ++ rest ->
             promptFrom answers
               [ Question "modDescription" Input "How would you describe your mod?"
                   (Some "Created with create-bmd") noValidate;
                 Question "modAuthor" Input "Who is the author of this mod?"
                   (Some (orElse (field config "author") "Your Name"))
                   (required "Author name is required!");
                 Question "modDonation" Input
                   "Where can users donate to support you? (Leave empty if none)"
                   (Some (orElse (field config "donation") EmptyString)) noValidate ]
               wx
             = (Ok (setField "modDonation" (orElse (field config "donation") EmptyString)
                      (setField "modAuthor" (orElse (field config "author") "Your Name")
                         (setField "modDescription" "Created with create-bmd" answers))),
                setKeys rest wx)).
  { intros answers wx Kx. cbn [promptFrom]. simpl in Kx.
    erewrite bind_run; [|eapply askM_default; [exact Kx|reflexivity..]].
    erewrite bind_run;
      [|eapply askM_default; [reflexivity|reflexivity|reflexivity|]].
    2: { apply required_Accept, A. }
    erewrite bind_run; [|eapply askM_default; reflexivity].
    reflexivity. }
  unfold promptForDetailedInfo. rewrite T, L.
  destruct (requiresCategory descriptor) eqn:R.
  - assert (descriptor = MOD_Action) as ->.
    { revert L R. unfold MOD_TYPES. cbn [lookupType].
      repeat (match goal with
              | |- context [String.eqb type ?k] => destruct (String.eqb type k)
              end;
              [intros E; injection E as <-; first [discriminate | reflexivity]|]).
      discriminate. }
    unfold inquirer_prompt. rewrite promptFrom_cons. simpl in K.
    erewrite bind_run; [|eapply askM_default; [exact K|reflexivity..]].
    cbv beta. cbn [q_name]. rewrite D by reflexivity. reflexivity.
  - unfold inquirer_prompt. rewrite D by exact K. reflexivity.
Qed.

(** ** A run that goes well *)

Section CompletionFacts.

Variable h : host.
Variable folder : string.

(** X24.  Once the prompts are through and the configuration is saved, a run in
    which detection finds an installation and the generator of the chosen
    type returns comes to its end: [main] returns without calling
    [process.exit], the mod was generated in the detected installation, for
    the type the operator chose, and the two lines that report the success
    are the last on the console. *)
Theorem main_completes
    (w w1 w2 w3 : world) (modInfo : obj) (bmdPath : string) :
  mainCollect h folder w = (Ok modInfo, w1) ->
  findBMDInstallation w1 = (Ok (Some bmdPath), w2) ->
  createMod h (field modInfo "modType") bmdPath modInfo
    (addConsole Log
       (LF +:+ "🔨 Creating " +:+ show (field modInfo "modType") +:+ " mod: "
          +:+ DQ +:+ show (field modInfo "modName") +:+ DQ) w2)
  = (Ok tt, w3) ->
  main h folder w
  = (Returned,
     addConsole Log "Your mod is now ready to use in Bot Maker for Discord."
       (addConsole Log (LF +:+ "✅ Mod creation completed successfully!") w3)).
Proof.
  intros Hc Hf Hm.
  unfold main, mainTry. rewrite (bind_run _ _ _ _ _ Hc).
  unfold mainGenerate, bind. rewrite Hf.
  unfold generateAt, bind, console_log. rewrite Hm. reflexivity.
Qed.

End CompletionFacts.

(** ** The further statements at work *)

Lemma promptForBMDPath_accepts_witness :
  let run := promptForBMDPath Sample.bareHost Machine.asked in
  run = (Ok "D:\BMD", snd run)
  /\ validInstallation Sample.bareHost (disk Machine.asked) "D:\BMD".
Proof.
  intros run.
  assert (H : run = (Ok "D:\BMD", snd run)) by (vm_compute; reflexivity).
  split; [exact H|].
  exact (proj1 (promptForBMDPath_accepts Sample.bareHost _ _ _ H)).
Defined.

Lemma getBMDPath_saved_witness :
  usableSavedPath Sample.savedConfig (disk Sample.savedWorld) = true
  /\ fst (getBMDPath Sample.savedHost Sample.folder Sample.savedConfig Sample.savedWorld)
     = Ok "D:\BMD".
Proof.
  assert (H : usableSavedPath Sample.savedConfig (disk Sample.savedWorld) = true)
    by (vm_compute; reflexivity).
  split; [exact H|].
  destruct (getBMDPath_saved Sample.savedHost Sample.folder _ _ H) as (p & Fp & E).
  rewrite E. vm_compute in Fp. injection Fp as <-. reflexivity.
Defined.

Lemma getBMDPath_asked_witness :
  let run := getBMDPath Sample.bareHost Sample.folder [] Machine.asked in
  usableSavedPath [] (disk Machine.asked) = false
  /\ Forall (fun path => disk Machine.asked !! path = None) COMMON_BMD_PATHS
  /\ writable Machine.asked (configFile Sample.bareHost Sample.folder)
  /\ configFile Sample.bareHost Sample.folder <> Sample.folder
  /\ run = (Ok "D:\BMD", snd run)
  /\ disk (snd run) !! configFile Sample.bareHost Sample.folder
     = Some (File (Sample.stringify [("bmdPath", "D:\BMD")])).
Proof.
  intros run.
  assert (H1 : usableSavedPath [] (disk Machine.asked) = false) by reflexivity.
  assert (H2 : Forall (fun path => disk Machine.asked !! path = None) COMMON_BMD_PATHS)
    by (repeat (constructor; [vm_compute; reflexivity|]); constructor).
  assert (H3 : writable Machine.asked (configFile Sample.bareHost Sample.folder))
    by (split; [vm_compute; reflexivity | vm_compute; discriminate]).
  assert (H4 : configFile Sample.bareHost Sample.folder <> Sample.folder)
    by (vm_compute; discriminate).
  assert (H5 : run = (Ok "D:\BMD", snd run)) by (vm_compute; reflexivity).
  split; [exact H1|]. split; [exact H2|]. split; [exact H3|]. split; [exact H4|].
  split; [exact H5|].
  exact (proj1 (proj2 (getBMDPath_asked Sample.bareHost Sample.folder
                         _ _ _ _ H1 H2 H3 H4 H5))).
Defined.

Lemma getBMDPath_exists_witness :
  let run := getBMDPath Sample.bareHost Sample.folder [] Machine.asked in
  run = (Ok "D:\BMD", snd run) /\ is_Some (disk (snd run) !! "D:\BMD").
Proof.
  intros run.
  assert (H : run = (Ok "D:\BMD", snd run)) by (vm_compute; reflexivity).
  split; [exact H|].
  exact (getBMDPath_exists Sample.bareHost Sample.folder [] Machine.asked _ _ H).
Defined.

Lemma ensureConfigFolderExists_idempotent_witness :
  let run := ensureConfigFolderExists Sample.folder Sample.bareWorld in
  run = (Ok tt, snd run)
  /\ ensureConfigFolderExists Sample.folder (snd run) = (Ok tt, snd run).
Proof.
  intros run.
  assert (H : run = (Ok tt, snd run)) by (vm_compute; reflexivity).
  split; [exact H|].
  exact (proj2 (ensureConfigFolderExists_idempotent Sample.folder _ _ H)).
Defined.

Lemma saveConfig_refusals_witness :
  saveConfig Sample.bareHost Sample.folder Machine.patConfig Machine.locked
  = (Ok tt,
     addConsole Warn
       ("Warning: Could not save config file: " +:+ "EACCES: permission denied")
       Machine.locked)
  /\ saveConfig Sample.bareHost Sample.folder Machine.patConfig Machine.closed
     = (Throw (Error "EACCES: permission denied"), Machine.closed).
Proof.
  split.
  - apply (proj1 (saveConfig_refusals Sample.bareHost Sample.folder
                    Machine.patConfig Machine.locked "EACCES: permission denied")).
    + exists Dir. vm_compute. reflexivity.
    + vm_compute. reflexivity.
  - apply (proj2 (saveConfig_refusals Sample.bareHost Sample.folder
                    Machine.patConfig Machine.closed "EACCES: permission denied")).
    + vm_compute. reflexivity.
    + vm_compute. reflexivity.
Defined.

Lemma saveConfig_loadConfig_witness :
  let run := saveConfig Sample.savedHost Sample.folder Sample.savedConfig
               Sample.bareWorld in
  run = (Ok tt, snd run)
  /\ writable Sample.bareWorld (configFile Sample.savedHost Sample.folder)
  /\ configFile Sample.savedHost Sample.folder <> Sample.folder
  /\ JSON_parse Sample.savedHost (JSON_stringify Sample.savedHost Sample.savedConfig)
     = inr Sample.savedConfig
  /\ loadConfig Sample.savedHost Sample.folder (snd run)
     = (Ok Sample.savedConfig, snd run).
Proof.
  intros run.
  assert (H1 : run = (Ok tt, snd run)) by (vm_compute; reflexivity).
  assert (H2 : writable Sample.bareWorld (configFile Sample.savedHost Sample.folder))
    by (split; [vm_compute; reflexivity | vm_compute; discriminate]).
  assert (H3 : configFile Sample.savedHost Sample.folder <> Sample.folder)
    by (vm_compute; discriminate).
  assert (H4 : JSON_parse Sample.savedHost
                 (JSON_stringify Sample.savedHost Sample.savedConfig)
               = inr Sample.savedConfig) by (vm_compute; reflexivity).
  split; [exact H1|]. split; [exact H2|]. split; [exact H3|]. split; [exact H4|].
  exact (saveConfig_loadConfig Sample.savedHost Sample.folder _ _ _ H1 H2 H3 H4).
Defined.

Lemma main_without_config_folder_witness :
  disk Machine.closed !! Sample.folder = None
  /\ refused Machine.closed !! Sample.folder = Some "EACCES: permission denied"
  /\ fst (main Sample.bareHost Sample.folder Machine.closed) = Exited 1
  /\ keys (snd (main Sample.bareHost Sample.folder Machine.closed)) = Sample.script.
Proof.
  assert (H1 : disk Machine.closed !! Sample.folder = None)
    by (vm_compute; reflexivity).
  assert (H2 : refused Machine.closed !! Sample.folder
               = Some "EACCES: permission denied") by (vm_compute; reflexivity).
  split; [exact H1|]. split; [exact H2|].
  destruct (main_without_config_folder Sample.bareHost Sample.folder _ _ H1 H2)
    as (E & K & _).
  split; [exact E | exact K].
Defined.

Lemma program_on_win32_witness :
  os_platform Machine.lostHost = Win32
  /\ orEmpty (env_APPDATA Machine.lostHost) = EmptyString
  /\ program Machine.lostHost Sample.bareWorld = (Exited 1, Sample.bareWorld).
Proof.
  split; [reflexivity|]. split; [reflexivity|].
  exact (proj1 (program_on_win32 Machine.lostHost Sample.bareWorld eq_refl) eq_refl).
Defined.

Lemma single_file_mods_witness :
  let run := createMod Sample.bareHost (Some "Action") Sample.steam coolModInfo
               Sample.readyWorld in
  field coolModInfo "modName" = Some "My Cool Mod"
  /\ lookupType MOD_TYPES "Action" = Some MOD_Action
  /\ isFolder MOD_Action = false
  /\ run = (Ok tt, snd run)
  /\ exists text,
       fslog (snd run)
       = fslog Sample.readyWorld
           ++ [ WriteFile
                  (path_join Sample.bareHost
                     [ Sample.steam; "AppData/Actions";
                       toCamelCase Sample.bareHost "My Cool Mod" +:+ "_MOD.js" ])
                  (applyReplacements text (fileReplacements MOD_Action coolModInfo)) ].
Proof.
  intros run.
  assert (H1 : field coolModInfo "modName" = Some "My Cool Mod") by reflexivity.
  assert (H2 : lookupType MOD_TYPES "Action" = Some MOD_Action) by reflexivity.
  assert (H3 : isFolder MOD_Action = false) by reflexivity.
  assert (H4 : run = (Ok tt, snd run)) by (vm_compute; reflexivity).
  split; [exact H1|]. split; [exact H2|]. split; [exact H3|]. split; [exact H4|].
  destruct (single_file_mods Sample.bareHost "Action" "My Cool Mod" Sample.steam
              MOD_Action coolModInfo Sample.readyWorld (snd run) (Ok tt) H1 H2 H3 H4)
    as (text & _ & L & _).
  exists text. exact L.
Defined.


Lemma folder_mods_copy_asset_witness :
  let run := createMod Sample.bareHost (Some "Theme") Sample.steam Machine.weirdInfo
               Sample.readyWorld in
  field Machine.weirdInfo "modName" = Some "Weird!! Name"
  /\ run = (Ok tt, snd run)
  /\ disk (snd run)
       !! "C:\Program Files (x86)\Steam\steamapps\common\Bot Maker For Discord\Themes\WeirdName\theme.css"
     = Some (File "body { color: teal; }").
Proof.
  intros run.
  assert (H1 : field Machine.weirdInfo "modName" = Some "Weird!! Name") by reflexivity.
  assert (H2 : run = (Ok tt, snd run)) by (vm_compute; reflexivity).
  split; [exact H1|]. split; [exact H2|].
  destruct (folder_mods_copy_asset Sample.bareHost "Theme" "Themes" "theme.css"
              "Weird!! Name" Sample.steam Machine.weirdInfo Sample.readyWorld (snd run)
              (or_introl (conj eq_refl (conj eq_refl eq_refl))) H1 H2)
    as (text & T & D).
  assert (E : text = "body { color: teal; }")
    by (vm_compute in T; injection T as <-; reflexivity).
  rewrite E in D. exact D.
Defined.

Lemma main_generation_failure_witness :
  let collected := snd (mainCollect Sample.bareHost Sample.folder Machine.bare) in
  let generated := mainGenerate Sample.bareHost Sample.folder coolModInfo collected in
  mainCollect Sample.bareHost Sample.folder Machine.bare = (Ok coolModInfo, collected)
  /\ generated
     = (Throw (Error
                 ("Failed to process template "
                    +:+ "C:\npm\node_modules\create-bmd\bin\templates\Action.js: "
                    +:+ "ENOENT: no such file or directory, open "
                    +:+ "'C:\npm\node_modules\create-bmd\bin\templates\Action.js'")),
        snd generated)
  /\ fst (main Sample.bareHost Sample.folder Machine.bare) = Exited 1.
Proof.
  intros collected generated.
  assert (H1 : mainCollect Sample.bareHost Sample.folder Machine.bare
               = (Ok coolModInfo, collected)) by (vm_compute; reflexivity).
  assert (H2 : generated
               = (Throw (Error
                    ("Failed to process template "
                       +:+ "C:\npm\node_modules\create-bmd\bin\templates\Action.js: "
                       +:+ "ENOENT: no such file or directory, open "
                       +:+ "'C:\npm\node_modules\create-bmd\bin\templates\Action.js'")),
                  snd generated)) by (vm_compute; reflexivity).
  split; [exact H1|]. split; [exact H2|].
  exact (proj1 (main_generation_failure Sample.bareHost Sample.folder
                  Machine.bare collected (snd generated) coolModInfo _ H1 H2)).
Defined.

Lemma main_cancelled_at_first_prompt_witness :
  keys (Sample.emptyWorld []) = []
  /\ refused (Sample.emptyWorld []) !! Sample.folder = None
  /\ fst (main Sample.bareHost Sample.folder (Sample.emptyWorld [])) = Exited 0.
Proof.
  assert (H2 : refused (Sample.emptyWorld []) !! Sample.folder = None)
    by (vm_compute; reflexivity).
  split; [reflexivity|]. split; [exact H2|].
  exact (proj1 (main_cancelled_at_first_prompt Sample.bareHost Sample.folder
                  (Sample.emptyWorld []) (or_introl eq_refl) (or_intror H2))).
Defined.

Lemma modInfo_required_fields_witness :
  let first := promptForInitialInfo Sample.bareWorld in
  let second :=
    promptForDetailedInfo [("modName", "My Cool Mod"); ("modType", "Action")] []
      (snd first) in
  first = (Ok [("modName", "My Cool Mod"); ("modType", "Action")], snd first)
  /\ second
     = (Ok [ ("modCategory", "Message"); ("modDescription", "desc");
             ("modAuthor", "Alex"); ("modDonation", EmptyString) ],
        snd second)
  /\ exists modName modAuthor,
       field coolModInfo "modName" = Some modName
       /\ Str.trim modName <> EmptyString
       /\ field coolModInfo "modAuthor" = Some modAuthor
       /\ Str.trim modAuthor <> EmptyString.
Proof.
  intros first second.
  assert (H1 : first
               = (Ok [("modName", "My Cool Mod"); ("modType", "Action")], snd first))
    by (vm_compute; reflexivity).
  assert (H2 : second
               = (Ok [ ("modCategory", "Message"); ("modDescription", "desc");
                       ("modAuthor", "Alex"); ("modDonation", EmptyString) ],
                  snd second))
    by (vm_compute; reflexivity).
  split; [exact H1|]. split; [exact H2|].
  destruct (modInfo_required_fields _ _ _ _ _ _ H1 H2)
    as (modName & modAuthor & Fn & Tn & Fa & Ta & _).
  exists modName, modAuthor. split; [exact Fn|]. split; [exact Tn|].
  split; [exact Fa | exact Ta].
Defined.

Lemma promptForDetailedInfo_defaults_witness :
  field [("modName", "My Mod"); ("modType", "Event")] "modType" = Some "Event"
  /\ lookupType MOD_TYPES "Event" = Some MOD_Event
  /\ Str.trim (orElse (field Machine.patConfig "author") "Your Name") <> EmptyString
  /\ promptForDetailedInfo [("modName", "My Mod"); ("modType", "Event")]
       Machine.patConfig Machine.enters
     = (Ok [ ("modDescription", "Created with create-bmd"); ("modAuthor", "Pat");
             ("modDonation", EmptyString) ],
        setKeys [] Machine.enters).
Proof.
  assert (H3 : Str.trim (orElse (field Machine.patConfig "author") "Your Name")
               <> EmptyString) by (vm_compute; discriminate).
  split; [reflexivity|]. split; [reflexivity|]. split; [exact H3|].
  exact (promptForDetailedInfo_defaults Machine.patConfig
           [("modName", "My Mod"); ("modType", "Event")] "Event" MOD_Event
           Machine.enters [] eq_refl eq_refl H3 eq_refl).
Defined.

Lemma processTemplate_literal_values_witness :
  let templatePath :=
    path_join Sample.bareHost
      [module_dirname Sample.bareHost; "templates"; "Action.js"] in
  disk Sample.readyWorld !! templatePath = Some (File Action_template)
  /\ Forall (fun entry => dollarFree (orEmpty (snd entry)) = true
                          /\ markerFree (orEmpty (snd entry)) = true)
       (fileReplacements MOD_Action Machine.linkInfo)
  /\ processTemplate templatePath (fileReplacements MOD_Action Machine.linkInfo)
       Sample.readyWorld
     = (Ok (Action_render "My Cool Mod" "Alex" "desc" "https://ko-fi.com/alex"
              "Message"),
        Sample.readyWorld).
Proof.
  intros templatePath.
  assert (T : disk Sample.readyWorld !! templatePath = Some (File Action_template))
    by (vm_compute; reflexivity).
  assert (V : Forall (fun entry => dollarFree (orEmpty (snd entry)) = true
                                   /\ markerFree (orEmpty (snd entry)) = true)
                (fileReplacements MOD_Action Machine.linkInfo))
    by (repeat (apply List.Forall_cons; [split; vm_compute; reflexivity|]);
        apply List.Forall_nil).
  split; [exact T|]. split; [exact V|].
  exact (processTemplate_literal_values Machine.linkInfo templatePath
           Sample.readyWorld T V).
Defined.

Lemma processTemplate_without_markers_witness :
  let w := Sample.onDisk [ ("notes.txt", File "Hello //world//!") ] [] in
  disk w !! "notes.txt" = Some (File "Hello //world//!")
  /\ Forall (fun entry => occurs (marker (fst entry)) "Hello //world//!" = false)
       (fileReplacements MOD_Event coolModInfo)
  /\ processTemplate "notes.txt" (fileReplacements MOD_Event coolModInfo) w
     = (Ok "Hello //world//!", w).
Proof.
  intros w.
  assert (T : disk w !! "notes.txt" = Some (File "Hello //world//!"))
    by (vm_compute; reflexivity).
  assert (V : Forall (fun entry => occurs (marker (fst entry)) "Hello //world//!" = false)
                (fileReplacements MOD_Event coolModInfo))
    by (repeat (constructor; [vm_compute; reflexivity|]); constructor).
  split; [exact T|]. split; [exact V|].
  exact (processTemplate_without_markers MOD_Event coolModInfo "notes.txt"
           "Hello //world//!" w T V).
Defined.

Lemma main_completes_witness :
  let w1 := snd (mainCollect Sample.bareHost Sample.folder Sample.readyWorld) in
  let w2 := addConsole Log ("Found BMD installation at: " +:+ Sample.steam) w1 in
  let w3 :=
    snd (createMod Sample.bareHost (Some "Action") Sample.steam coolModInfo
           (addConsole Log
              (LF +:+ "🔨 Creating Action mod: " +:+ DQ +:+ "My Cool Mod" +:+ DQ)
              w2)) in
  mainCollect Sample.bareHost Sample.folder Sample.readyWorld = (Ok coolModInfo, w1)
  /\ findBMDInstallation w1 = (Ok (Some Sample.steam), w2)
  /\ fst (main Sample.bareHost Sample.folder Sample.readyWorld) = Returned
  /\ exitCode (fst (main Sample.bareHost Sample.folder Sample.readyWorld)) = 0.
Proof.
  intros w1 w2 w3.
  assert (Hc : mainCollect Sample.bareHost Sample.folder Sample.readyWorld
               = (Ok coolModInfo, w1)) by (vm_compute; reflexivity).
  assert (Hf : findBMDInstallation w1 = (Ok (Some Sample.steam), w2))
    by (vm_compute; reflexivity).
  assert (Hm : createMod Sample.bareHost (field coolModInfo "modType") Sample.steam
                 coolModInfo
                 (addConsole Log
                    (LF +:+ "🔨 Creating " +:+ show (field coolModInfo "modType")
                       +:+ " mod: " +:+ DQ +:+ show (field coolModInfo "modName")
                       +:+ DQ) w2)
               = (Ok tt, w3)) by (vm_compute; reflexivity).
  split; [exact Hc|]. split; [exact Hf|].
  rewrite (main_completes Sample.bareHost Sample.folder Sample.readyWorld
             w1 w2 w3 coolModInfo Sample.steam Hc Hf Hm).
  split; reflexivity.
Defined.
